(** * InvoiceFlow: invoice lifecycle and billing reconciliation

    A shallow embedding of the invoice routes (routes/invoices.js), the
    payment link of routes/payments.js, the Stripe webhook
    (routes/webhooks.js), the authentication middleware
    (middleware/auth.js), the error middleware
    (middleware/errorHandler.js) and the parts of database/schema.sql that
    decide whether a storage call is accepted and what it stores.

    Conventions of the model

    - A JavaScript number is an IEEE 754 binary64 value: a rational that
      the format holds, an infinity or NaN ([number]).  Arithmetic rounds
      to nearest, ties to even ([double]).  The sign of a zero is not
      modelled; the routes never divide by a computed value.
    - A DECIMAL(p, 2) column holds a number of hundredths ([Z]) or NULL.  A
      number enters a column as JSON.stringify writes it (the shortest
      decimal that reads back as the same number), rounded half away from
      zero to two decimals, and is refused when it does not fit the
      precision.  It leaves the column as the nearest binary64 value.
    - A string is a sequence of 8-bit characters.  VARCHAR(n) counts
      characters, cuts trailing spaces beyond n and refuses other excess;
      no text column takes the character NUL.
    - A value that may be undefined or null is of type [js].
    - The Supabase client is a family of pure functions over a record of
      tables ([db]).  A table is a list of rows in insertion order.  A call
      is refused when it breaks a column type, NOT NULL, CHECK, PRIMARY
      KEY, UNIQUE or a foreign key of the schema; ON DELETE CASCADE from
      invoices to invoice_items and payments is modelled.  Transport
      failures are not.  Columns that no modelled route reads or writes
      (issue_date, pdf_url, updated_at and the like) are left out of the
      rows.
    - What a handler reads from its surroundings (the clock, uuidv4, the
      xss filter, the date input of the store) is a field of [env].
    - A route handler is a computation in a state-and-exception monad over
      [db]; [throw] is the JavaScript throw of an APIError, caught by
      asyncHandler and rendered by errorHandler. *)

From Stdlib Require Import List String Ascii ZArith QArith Bool Arith Lia.
From Stdlib Require Import DecimalString DecimalNat Lqa Qround Qabs Qpower.
From Stdlib Require Qcanon.
Import ListNotations.

Local Open Scope string_scope.
Local Open Scope nat_scope.

(** ** Primitive values *)

Definition uuid : Set := nat.
Bind Scope nat_scope with uuid.

(** A value that may be undefined (a key that is absent) or null. *)
Inductive js (A : Type) : Type :=
| undefined
| null
| just (a : A).

Arguments undefined {A}.
Arguments null {A}.
Arguments just {A} a.

Definition js_map {A B : Type} (f : A -> B) (v : js A) : js B :=
  match v with
  | undefined => undefined
  | null => null
  | just a => just (f a)
  end.

(** Destructuring with a default: the default stands for undefined only. *)
Definition js_default {A : Type} (v : js A) (d : A) : js A :=
  match v with
  | undefined => just d
  | _ => v
  end.

(** A point in time as the fields a JavaScript Date exposes in local time;
    [getTimeOfDay] stands for hours, minutes, seconds and milliseconds
    together, counted in milliseconds since midnight. *)
Record Date : Type := mkDate
  { getFullYear : nat;
    getMonth : nat;
    getDate : nat;
    getTimeOfDay : N }.

(** Date.prototype.setDate changes the day of the month only: the time of
    day of the receiver is kept. *)
Definition setDate (d : Date) (dayValue : nat) : Date :=
  mkDate (getFullYear d) (getMonth d) dayValue (getTimeOfDay d).

(** Chronological order, as used by the [gte] filter on created_at. *)
Definition date_leb (a b : Date) : bool :=
  if getFullYear a <? getFullYear b then true
  else if getFullYear b <? getFullYear a then false
  else if getMonth a <? getMonth b then true
  else if getMonth b <? getMonth a then false
  else if getDate a <? getDate b then true
  else if getDate b <? getDate a then false
  else (getTimeOfDay a <=? getTimeOfDay b)%N.

Definition String_of_nat (n : nat) : string :=
  NilZero.string_of_uint (Nat.to_uint n).

(** String.prototype.padStart with a one-character filler. *)
Definition padStart (targetLength : nat) (padString : ascii) (s : string) : string :=
  string_of_list_ascii (repeat padString (targetLength - String.length s)) ++ s.

(** The white space and line terminators among the 8-bit characters:
    TAB, LF, VT, FF, CR, SP and NBSP. *)
Definition is_space (c : ascii) : bool :=
  let n := nat_of_ascii c in
  (n =? 9) || (n =? 10) || (n =? 11) || (n =? 12) || (n =? 13) || (n =? 32) || (n =? 160).

Fixpoint trimStart (s : string) : string :=
  match s with
  | String c rest => if is_space c then trimStart rest else s
  | EmptyString => EmptyString
  end.

Definition rev_string (s : string) : string :=
  string_of_list_ascii (rev (list_ascii_of_string s)).

Definition trim (s : string) : string :=
  rev_string (trimStart (rev_string (trimStart s))).

(** ** Text columns *)

Definition has_NUL (s : string) : bool :=
  existsb (fun c => nat_of_ascii c =? 0) (list_ascii_of_string s).

Definition all_blank (s : string) : bool :=
  forallb (fun c => nat_of_ascii c =? 32) (list_ascii_of_string s).

(** The input of a TEXT column; [None] is an error of the store. *)
Definition text_in (s : string) : option string :=
  if has_NUL s then None else Some s.

(** The input of a VARCHAR(n) column: a longer string is cut to n
    characters when what is cut consists of spaces, and refused
    otherwise. *)
Definition varchar_in (n : nat) (s : string) : option string :=
  if has_NUL s then None
  else if String.length s <=? n then Some s
  else if all_blank (substring n (String.length s - n) s) then Some (substring 0 n s)
  else None.

(** A string on its way into a nullable column. *)
Definition text_column (input : string -> option string) (v : js string)
  : option (option string) :=
  match v with
  | undefined | null => Some None
  | just s => match input s with Some t => Some (Some t) | None => None end
  end.

Local Open Scope Q_scope.
(** ** JavaScript numbers *)

Inductive number : Type :=
| Finite (q : Q)
| Infinity
| NegInfinity
| NaN.

Definition pow2 (e : Z) : Q := Qpower 2 e.
Definition pow10 (j : Z) : Q := Qpower 10 j.

(** The largest [k] with [2^k <= q], for [q] above zero. *)
Definition ilog2 (q : Q) : Z :=
  let k := (Z.log2 (Qnum q) - Z.log2 (Zpos (Qden q)))%Z in
  if Qle_bool (pow2 k) q then k else (k - 1)%Z.

(** To the nearest integer, a tie to the even one. *)
Definition round_half_even (q : Q) : Z :=
  let f := Qfloor q in
  match Qcompare (q - inject_Z f) (1 # 2) with
  | Lt => f
  | Gt => (f + 1)%Z
  | Eq => if Z.even f then f else (f + 1)%Z
  end.

(** The binary64 value nearest to [q > 0] (53 bits of significand, least
    exponent -1074, ties to even); [None] when it is beyond the largest
    finite value. *)
Definition binary64 (q : Q) : option Q :=
  let e := Z.max (ilog2 q - 52) (-1074) in
  let r := inject_Z (round_half_even (q / pow2 e)) * pow2 e in
  if Qle_bool (pow2 1024) r then None else Some (Qred r).

Definition double (q : Q) : number :=
  match Qcompare q 0 with
  | Eq => Finite 0
  | Gt => match binary64 q with Some r => Finite r | None => Infinity end
  | Lt => match binary64 (- q) with Some r => Finite (Qred (- r)) | None => NegInfinity end
  end.

Definition number_eqb (a b : number) : bool :=
  match a, b with
  | Finite x, Finite y => Qeq_bool x y
  | Infinity, Infinity | NegInfinity, NegInfinity => true
  | _, _ => false
  end.

(** Number::toString picks the decimal with the fewest digits that reads
    back as the same number, and the nearest one among these.  [on_grid x j]
    is that decimal among the multiples of [10^j], if there is one. *)
Definition on_grid (x : Q) (j : Z) : option Q :=
  let g := pow10 j in
  let lo := inject_Z (Qfloor (x / g)) in
  let hi := inject_Z (Qceiling (x / g)) in
  let reads_back c := number_eqb (double (c * g)) (Finite x) in
  match reads_back lo, reads_back hi with
  | true, true =>
      match Qcompare (x / g - lo) (hi - x / g) with
      | Lt => Some (Qred (lo * g))
      | Gt => Some (Qred (hi * g))
      | Eq => if Z.even (Qfloor (x / g)) then Some (Qred (lo * g)) else Some (Qred (hi * g))
      end
  | true, false => Some (Qred (lo * g))
  | false, true => Some (Qred (hi * g))
  | false, false => None
  end.

Fixpoint shortest_from (x : Q) (j : Z) (fuel : nat) : option Q :=
  match fuel with
  | O => None
  | S fuel' =>
      match on_grid x j with
      | Some v => Some v
      | None => shortest_from x (j - 1) fuel'
      end
  end.

(** A power of ten above [x > 0], from which the search goes down. *)
Definition first_grid (x : Q) : Z :=
  let l := (ilog2 x + 1)%Z in
  if (0 <=? l)%Z then (l / 3 + 1)%Z else (l / 4 + 1)%Z.

Definition shortest (x : Q) : option Q :=
  shortest_from x (first_grid x) 1200.

(** JSON.stringify of a number, as the value of the text: NaN and the
    infinities are written null. *)
Definition JSON_of_number (n : number) : option Q :=
  match n with
  | Finite x =>
      match Qcompare x 0 with
      | Eq => Some 0
      | Gt => shortest x
      | Lt => match shortest (- x) with Some v => Some (Qred (- v)) | None => None end
      end
  | _ => None
  end.


(** The sign of a number: [Lt] below zero, [Eq] zero, [Gt] above zero;
    the sign of a zero is not part of the model. *)
Definition sign (n : number) : option comparison :=
  match n with
  | Finite x => Some (Qcompare x 0)
  | Infinity => Some Gt
  | NegInfinity => Some Lt
  | NaN => None
  end.

Definition js_add (a b : number) : number :=
  match a, b with
  | NaN, _ | _, NaN => NaN
  | Finite x, Finite y => double (x + y)
  | Infinity, NegInfinity | NegInfinity, Infinity => NaN
  | Infinity, _ | _, Infinity => Infinity
  | NegInfinity, _ | _, NegInfinity => NegInfinity
  end.

Definition js_sub (a b : number) : number :=
  match a, b with
  | NaN, _ | _, NaN => NaN
  | Finite x, Finite y => double (x - y)
  | Infinity, Infinity | NegInfinity, NegInfinity => NaN
  | Infinity, _ | _, NegInfinity => Infinity
  | NegInfinity, _ | _, Infinity => NegInfinity
  end.

Definition js_mul (a b : number) : number :=
  match a, b with
  | Finite x, Finite y => double (x * y)
  | _, _ =>
      match sign a, sign b with
      | Some Gt, Some Gt | Some Lt, Some Lt => Infinity
      | Some Gt, Some Lt | Some Lt, Some Gt => NegInfinity
      | _, _ => NaN
      end
  end.

Definition js_div (a b : number) : number :=
  match a, b with
  | Finite x, Finite y =>
      if Qeq_bool y 0 then
        match Qcompare x 0 with Eq => NaN | Gt => Infinity | Lt => NegInfinity end
      else double (x / y)
  | Finite _, (Infinity | NegInfinity) => Finite 0
  | (Infinity | NegInfinity), Finite y =>
      match sign a, Qcompare y 0 with
      | Some Gt, Lt | Some Lt, (Eq | Gt) => NegInfinity
      | _, _ => Infinity
      end
  | _, _ => NaN
  end.

(** ToBoolean on a number. *)
Definition truthy (n : number) : bool :=
  match n with
  | Finite x => negb (Qeq_bool x 0)
  | NaN => false
  | _ => true
  end.

(** Math.round on a rational: to the nearest integer, a tie upwards. *)
Definition Math_round (x : Q) : Z := Qfloor (x + (1 # 2)).

(** ** DECIMAL columns *)

(** PostgreSQL rounds a numeric to the scale of its column half away from
    zero. *)
Definition round_half_away (q : Q) : Z :=
  match Qcompare q 0 with
  | Lt => (- Qfloor (- q + (1 # 2)))%Z
  | _ => Qfloor (q + (1 # 2))
  end.

(** The input of a DECIMAL(p, 2) column, in hundredths; [None] is the
    error "numeric field overflow". *)
Definition decimal_in (p : Z) (v : Q) : option Z :=
  let z := round_half_away (v * 100) in
  if (Z.abs z <? 10 ^ p)%Z then Some z else None.

(** A number on its way into a DECIMAL(p, 2) column: JSON.stringify, then
    the input of the column.  [Some None] is NULL. *)
Definition numeric_column (p : Z) (n : number) : option (option Z) :=
  match JSON_of_number n with
  | None => Some None
  | Some v =>
      match decimal_in p v with
      | Some z => Some (Some z)
      | None => None
      end
  end.

(** A DECIMAL(p, 2) value on its way out: the JSON number that PostgREST
    writes, read by JSON.parse. *)
Definition Number_of_decimal (z : Z) : number := double (inject_Z z / 100).

(** A number that is not below zero; NaN and Infinity count as such. *)
Definition not_negative (n : number) : Prop :=
  match n with
  | Finite q => 0 <= q
  | NegInfinity => False
  | _ => True
  end.

(** A column that is NULL or not below zero. *)
Definition column_not_negative (c : option Z) : Prop :=
  match c with
  | Some z => (0 <= z)%Z
  | None => True
  end.

(** ToNumber, for a value used in arithmetic. *)
Definition ToNumber (v : js number) : number :=
  match v with
  | undefined => NaN
  | null => Finite 0
  | just n => n
  end.

(** [a || b]: [a] when it is truthy. *)
Definition js_or (a b : js number) : js number :=
  match a with
  | just n => if truthy n then a else b
  | _ => b
  end.

(** JSON.parse of a number of the request, given by its value. *)
Definition JSON_number (q : Q) : number := double q.

(** A nullable DECIMAL(p, 2) column as the JavaScript value that the
    client reads, and a JavaScript value on its way into such a column. *)
Definition column_number (c : option Z) : js number :=
  match c with
  | Some z => just (Number_of_decimal z)
  | None => null
  end.

(** [dflt] is the DEFAULT of the column, which stands for a key that is
    undefined. *)
Definition numeric_value (p : Z) (dflt : option Z) (v : js number) : option (option Z) :=
  match v with
  | undefined => Some dflt
  | null => Some None
  | just n => numeric_column p n
  end.

Local Close Scope Q_scope.

(** ** Rows of the relational schema *)

Inductive plan : Type := free | pro | business.

Inductive invoice_status : Type := draft | pending | paid | overdue | cancelled.

Inductive payment_status : Type :=
  pay_pending | pay_completed | pay_failed | pay_refunded.

Inductive subscription_status : Type :=
  sub_active | sub_cancelled | sub_past_due | sub_trialing.

Scheme Equality for plan.
Scheme Equality for invoice_status.
Scheme Equality for payment_status.

(** CHECK (status IN ('draft', 'pending', 'paid', 'overdue', 'cancelled')) *)
Definition invoice_status_of (status : string) : option invoice_status :=
  if String.eqb status "draft" then Some draft
  else if String.eqb status "pending" then Some pending
  else if String.eqb status "paid" then Some paid
  else if String.eqb status "overdue" then Some overdue
  else if String.eqb status "cancelled" then Some cancelled
  else None.

Definition status_name (st : invoice_status) : string :=
  match st with
  | draft => "draft"
  | pending => "pending"
  | paid => "paid"
  | overdue => "overdue"
  | cancelled => "cancelled"
  end.

(** [column === 'st'] on a status read from the store. *)
Definition status_is (st : invoice_status) (column : option invoice_status) : bool :=
  match column with
  | Some x => invoice_status_beq x st
  | None => false
  end.

Record user : Type := mkUser
  { u_id : uuid;
    u_email : string;
    u_name : string;
    u_plan : plan;
    u_plan_expires_at : option Date;
    u_stripe_customer_id : option string;
    u_stripe_subscription_id : option string;
    u_is_active : bool }.

Record client : Type := mkClient
  { c_id : uuid;
    c_user_id : uuid;
    c_name : string;
    c_email : string }.

(** Amounts and the tax rate are in hundredths; [None] is NULL. *)
Record invoice : Type := mkInvoice
  { inv_id : uuid;
    inv_user_id : uuid;
    inv_client_id : uuid;
    inv_invoice_number : string;
    inv_status : option invoice_status;
    inv_due_date : string;
    inv_subtotal : option Z;
    inv_tax_rate : option Z;
    inv_tax_amount : option Z;
    inv_discount_amount : option Z;
    inv_total : option Z;
    inv_notes : option string;
    inv_terms : option string;
    inv_paid_at : option Date;
    inv_paid_amount : option Z;
    inv_payment_method : option string;
    inv_stripe_payment_intent_id : option string;
    inv_reminder_sent_at : option Date;
    inv_reminder_count : nat;
    inv_created_at : Date }.

Record invoice_item : Type := mkItem
  { it_id : uuid;
    it_invoice_id : uuid;
    it_description : string;
    it_quantity : Z;
    it_unit_price : Z;
    it_amount : Z;
    it_sort_order : nat }.

Record payment : Type := mkPayment
  { pay_id : uuid;
    pay_invoice_id : uuid;
    pay_user_id : uuid;
    pay_amount : Z;
    pay_payment_method : option string;
    pay_stripe_payment_id : option string;
    pay_status : payment_status;
    pay_notes : option string }.

Record subscription : Type := mkSubscription
  { sub_id : uuid;
    sub_user_id : uuid;
    sub_stripe_subscription_id : option string;
    sub_stripe_customer_id : option string;
    sub_plan : plan;
    sub_status : subscription_status;
    sub_cancelled_at : option Date }.

(** A row of audit_logs written by the invoice routes; [log_total] is the
    JSON number in new_values, null for [None]. *)
Record audit_log : Type := mkAudit
  { log_user_id : uuid;
    log_action : string;
    log_entity_id : uuid;
    log_invoice_number : string;
    log_total : option Q }.

Record db : Type := mkDb
  { users : list user;
    clients : list client;
    invoices : list invoice;
    invoice_items : list invoice_item;
    payments : list payment;
    subscriptions : list subscription;
    audit_logs : list audit_log }.

Definition set_users (v : list user) (s : db) : db :=
  mkDb v (clients s) (invoices s) (invoice_items s) (payments s)
       (subscriptions s) (audit_logs s).
Definition set_invoices (v : list invoice) (s : db) : db :=
  mkDb (users s) (clients s) v (invoice_items s) (payments s)
       (subscriptions s) (audit_logs s).
Definition set_invoice_items (v : list invoice_item) (s : db) : db :=
  mkDb (users s) (clients s) (invoices s) v (payments s)
       (subscriptions s) (audit_logs s).
Definition set_payments (v : list payment) (s : db) : db :=
  mkDb (users s) (clients s) (invoices s) (invoice_items s) v
       (subscriptions s) (audit_logs s).
Definition set_subscriptions (v : list subscription) (s : db) : db :=
  mkDb (users s) (clients s) (invoices s) (invoice_items s) (payments s)
       v (audit_logs s).
Definition set_audit_logs (v : list audit_log) (s : db) : db :=
  mkDb (users s) (clients s) (invoices s) (invoice_items s) (payments s)
       (subscriptions s) v.

(** ** What a request reads from outside the store *)

Record env : Type := mkEnv
  { now : Date;             (* new Date(), and NOW() of the store *)
    uuidv4 : nat -> uuid;   (* the n-th call of uuidv4() in this request *)
    xss : string -> string; (* the xss package's filter *)
    date_in : string -> option string
      (* the input of a DATE column: the date as the store writes it, or
         [None] when the store refuses the text *) }.

(** middleware/validate.js, sanitizeString: a value that is not a string
    is returned as it is. *)
Definition sanitizeString (e : env) (value : js string) : js string :=
  match value with
  | just s => just (xss e (trim s))
  | _ => value
  end.

(** ** Responses and errors (middleware/errorHandler.js) *)

Record APIError : Type := mkAPIError
  { err_message : string;
    statusCode : nat;
    err_code : string }.

(** The constructor's default for its third argument. *)
Definition INTERNAL_ERROR : string := "INTERNAL_ERROR".

(** An element of the items array that POST /api/invoices answers with:
    the object the handler built, not the row the store holds. *)
Record item_object : Type := mkItemObject
  { io_id : uuid;
    io_invoice_id : uuid;
    io_description : js string;
    io_quantity : number;
    io_unit_price : number;
    io_amount : number;
    io_sort_order : nat }.

Inductive payload : Type :=
| no_data
| invoice_data (i : invoice)
| invoice_with_items (i : invoice) (items : list item_object).

Inductive response : Type :=
| Success (http_status : nat) (message : string) (data : payload)
| Failure (http_status : nat) (code : option string) (error : string).

(** errorHandler for an APIError: its status, message and code. *)
Definition errorHandler (e : APIError) : response :=
  Failure (statusCode e) (Some (err_code e)) (err_message e).

(** ** The handler monad *)

Definition Handler (A : Type) : Type := db -> (APIError + A) * db.

Definition ret {A : Type} (a : A) : Handler A := fun s => (inr a, s).

Definition bind {A B : Type} (m : Handler A) (k : A -> Handler B) : Handler B :=
  fun s =>
    match m s with
    | (inl e, s') => (inl e, s')
    | (inr a, s') => k a s'
    end.

Definition throw {A : Type} (e : APIError) : Handler A := fun s => (inl e, s).

(** A read-only query. *)
Definition query {A : Type} (f : db -> A) : Handler A := fun s => (inr (f s), s).

(** A write whose outcome the caller does not inspect. *)
Definition exec (f : db -> db) : Handler unit := fun s => (inr tt, f s).

(** A write that the store may refuse; the result is the [error] field of
    the reply ([true] when the call was refused, leaving the store as it
    was). *)
Definition attempt (f : db -> option db) : Handler bool :=
  fun s => match f s with
           | Some s' => (inr false, s')
           | None => (inr true, s)
           end.

(** A write followed by [.select().single()]: the result is the [data]
    field of the reply, [None] when the reply carries an error.  PostgREST
    rolls the write back when it did not return exactly one row. *)
Definition attempt_single {A : Type} (f : db -> option (list A * db)) : Handler (option A) :=
  fun s => match f s with
           | Some ([row], s') => (inr (Some row), s')
           | _ => (inr None, s)
           end.

Declare Scope handler_scope.
Delimit Scope handler_scope with handler.
Notation "x <- c1 ;; c2" := (bind c1 (fun x => c2))
  (at level 61, c1 at next level, right associativity) : handler_scope.
Notation "c1 ;; c2" := (bind c1 (fun _ => c2))
  (at level 61, right associativity) : handler_scope.

(** asyncHandler followed by errorHandler: the response a client sees and
    the store the request leaves behind. *)
Definition asyncHandler (h : Handler response) (s : db) : response * db :=
  match h s with
  | (inl e, s') => (errorHandler e, s')
  | (inr r, s') => (r, s')
  end.

(** ** The Supabase client over the modelled tables *)

(** [.single()]: the reply carries a row only when exactly one row matched. *)
Definition single {A : Type} (rows : list A) : option A :=
  match rows with
  | [r] => Some r
  | _ => None
  end.

Definition is_some {A : Type} (o : option A) : bool :=
  match o with Some _ => true | None => false end.

Definition or_else {A : Type} (o : option A) (d : A) : A :=
  match o with Some a => a | None => d end.

(** The object handed to from('invoices').insert(...) by POST
    /api/invoices. *)
Record invoice_values : Type := mkInvoiceValues
  { iv_id : uuid;
    iv_user_id : uuid;
    iv_client_id : uuid;
    iv_invoice_number : string;
    iv_status : string;
    iv_due_date : js string;
    iv_subtotal : number;
    iv_tax_rate : js number;
    iv_tax_amount : number;
    iv_discount_amount : js number;
    iv_total : number;
    iv_notes : js string;
    iv_terms : js string }.

(** The row that the column types make of the object, with the defaults of
    the columns that the object does not name; [None] when a column
    refuses its value: VARCHAR(50) invoice_number, the CHECK on status,
    DATE NOT NULL due_date, DECIMAL(12, 2) amounts, DECIMAL(5, 2)
    tax_rate, TEXT notes and terms. *)
Definition invoice_row (e : env) (v : invoice_values) : option invoice :=
  match varchar_in 50 (iv_invoice_number v),
        invoice_status_of (iv_status v),
        match iv_due_date v with just d => date_in e d | _ => None end,
        numeric_column 12 (iv_subtotal v),
        numeric_value 5 (Some 0%Z) (iv_tax_rate v),
        numeric_column 12 (iv_tax_amount v),
        numeric_value 12 (Some 0%Z) (iv_discount_amount v),
        numeric_column 12 (iv_total v),
        text_column text_in (iv_notes v),
        text_column text_in (iv_terms v)
  with
  | Some invoice_number, Some status, Some due_date, Some subtotal, Some tax_rate,
    Some tax_amount, Some discount_amount, Some total, Some notes, Some terms =>
      Some (mkInvoice (iv_id v) (iv_user_id v) (iv_client_id v) invoice_number
                      (Some status) due_date subtotal tax_rate tax_amount
                      discount_amount total notes terms None None None None None 0
                      (now e))
  | _, _, _, _, _, _, _, _, _, _ => None
  end.

(** The constraints of the invoices table on a new row: PRIMARY KEY(id),
    the foreign keys to users and clients, and
    UNIQUE(user_id, invoice_number). *)
Definition invoice_accepted (row : invoice) (s : db) : bool :=
  negb (existsb (fun i => inv_id i =? inv_id row) (invoices s))
  && existsb (fun u => u_id u =? inv_user_id row) (users s)
  && existsb (fun c => c_id c =? inv_client_id row) (clients s)
  && negb (existsb (fun i => (inv_user_id i =? inv_user_id row)
                             && String.eqb (inv_invoice_number i) (inv_invoice_number row))
                   (invoices s)).

(** from('invoices').insert(values).select(): the rows that were stored,
    as the store holds them. *)
Definition insert_invoice (e : env) (v : invoice_values) (s : db)
  : option (list invoice * db) :=
  match invoice_row e v with
  | None => None
  | Some row =>
      if invoice_accepted row s
      then Some ([row], set_invoices (invoices s ++ [row]) s)
      else None
  end.

(** Are the keys of [rows] distinct from each other and from [taken]? *)
Fixpoint fresh_keys (taken : list uuid) (rows : list uuid) : bool :=
  match rows with
  | [] => true
  | k :: rest => negb (existsb (Nat.eqb k) taken) && fresh_keys (k :: taken) rest
  end.

(** The row that the column types make of an item object: VARCHAR(200) NOT
    NULL description, DECIMAL(10, 2) NOT NULL quantity, DECIMAL(12, 2) NOT
    NULL unit_price and amount. *)
Definition item_row (o : item_object) : option invoice_item :=
  match match io_description o with just d => varchar_in 200 d | _ => None end,
        numeric_column 10 (io_quantity o),
        numeric_column 12 (io_unit_price o),
        numeric_column 12 (io_amount o)
  with
  | Some description, Some (Some quantity), Some (Some unit_price), Some (Some amount) =>
      Some (mkItem (io_id o) (io_invoice_id o) description quantity unit_price amount
                   (io_sort_order o))
  | _, _, _, _ => None
  end.

Fixpoint item_rows (objects : list item_object) : option (list invoice_item) :=
  match objects with
  | [] => Some []
  | o :: rest =>
      match item_row o, item_rows rest with
      | Some r, Some rs => Some (r :: rs)
      | _, _ => None
      end
  end.

(** from('invoice_items').insert(objects): one statement, so all rows or
    none; the column types, PRIMARY KEY(id) and the foreign key to
    invoices.  An empty list of objects is taken to be accepted and to
    store nothing. *)
Definition insert_invoice_items (objects : list item_object) (s : db) : option db :=
  match item_rows objects with
  | None => None
  | Some rows =>
      if fresh_keys (map it_id (invoice_items s)) (map it_id rows)
         && forallb (fun r => existsb (fun i => inv_id i =? it_invoice_id r) (invoices s))
                    rows
      then Some (set_invoice_items (invoice_items s ++ rows) s)
      else None
  end.

(** The object handed to from('payments').insert(...); the status is
    'completed' in both callers. *)
Record payment_values : Type := mkPaymentValues
  { pv_id : uuid;
    pv_invoice_id : uuid;
    pv_user_id : option uuid;
    pv_amount : js number;
    pv_payment_method : js string;
    pv_stripe_payment_id : js string;
    pv_notes : js string }.

(** NOT NULL user_id, DECIMAL(12, 2) NOT NULL amount, VARCHAR(50)
    payment_method, VARCHAR(255) stripe_payment_id, TEXT notes. *)
Definition payment_row (v : payment_values) : option payment :=
  match pv_user_id v,
        numeric_value 12 None (pv_amount v),
        text_column (varchar_in 50) (pv_payment_method v),
        text_column (varchar_in 255) (pv_stripe_payment_id v),
        text_column text_in (pv_notes v)
  with
  | Some user_id, Some (Some amount), Some payment_method, Some stripe_payment_id,
    Some notes =>
      Some (mkPayment (pv_id v) (pv_invoice_id v) user_id amount payment_method
                      stripe_payment_id pay_completed notes)
  | _, _, _, _, _ => None
  end.

(** from('payments').insert(values): the column types, PRIMARY KEY(id) and
    the foreign keys to invoices and users. *)
Definition insert_payment (v : payment_values) (s : db) : option db :=
  match payment_row v with
  | None => None
  | Some row =>
      if negb (existsb (fun p => pay_id p =? pay_id row) (payments s))
         && existsb (fun i => inv_id i =? pay_invoice_id row) (invoices s)
         && existsb (fun u => u_id u =? pay_user_id row) (users s)
      then Some (set_payments (payments s ++ [row]) s)
      else None
  end.

(** A write whose reply is discarded: a refused call changes nothing. *)
Definition discard (f : db -> option db) (s : db) : db :=
  match f s with Some s' => s' | None => s end.

(** from('invoices').delete().eq('id', id), with the cascades of the schema
    to invoice_items and payments. *)
Definition delete_invoice (id : uuid) (s : db) : db :=
  mkDb (users s) (clients s)
       (filter (fun i => negb (inv_id i =? id)) (invoices s))
       (filter (fun r => negb (it_invoice_id r =? id)) (invoice_items s))
       (filter (fun p => negb (pay_invoice_id p =? id)) (payments s))
       (subscriptions s) (audit_logs s).

(** from('invoice_items').delete().eq('invoice_id', id). *)
Definition delete_items_of (id : uuid) (s : db) : db :=
  set_invoice_items (filter (fun r => negb (it_invoice_id r =? id)) (invoice_items s)) s.

(** The object handed to from('invoices').update(...): a column is written
    when its key is defined. *)
Record invoice_patch : Type := mkPatch
  { p_status : js string;
    p_due_date : js string;
    p_notes : js string;
    p_terms : js string;
    p_tax_rate : js number;
    p_discount_amount : js number;
    p_subtotal : js number;
    p_tax_amount : js number;
    p_total : js number;
    p_paid_at : js Date;
    p_paid_amount : js number;
    p_payment_method : js string;
    p_stripe_payment_intent_id : js string;
    p_reminder_sent_at : js Date;
    p_reminder_count : js nat }.

Definition is_undefined {A : Type} (v : js A) : bool :=
  match v with undefined => true | _ => false end.

(** JSON.stringify leaves out the keys that are undefined; is nothing
    left? *)
Definition patch_is_empty (p : invoice_patch) : bool :=
  is_undefined (p_status p) && is_undefined (p_due_date p) && is_undefined (p_notes p)
  && is_undefined (p_terms p) && is_undefined (p_tax_rate p)
  && is_undefined (p_discount_amount p) && is_undefined (p_subtotal p)
  && is_undefined (p_tax_amount p) && is_undefined (p_total p)
  && is_undefined (p_paid_at p) && is_undefined (p_paid_amount p)
  && is_undefined (p_payment_method p) && is_undefined (p_stripe_payment_intent_id p)
  && is_undefined (p_reminder_sent_at p) && is_undefined (p_reminder_count p).

(** What an update does to one column: [None] keeps it, [Some v] sets it. *)
Definition assignment (A : Type) : Type := option A.

(** The assignment that a key makes to a nullable column whose values
    [input] takes; the outer [None] is an error of the store. *)
Definition assign {A B : Type} (input : A -> option (option B)) (v : js A)
  : option (assignment (option B)) :=
  match v with
  | undefined => Some None
  | null => Some (Some None)
  | just a => match input a with Some b => Some (Some b) | None => None end
  end.

Definition accept {A B : Type} (input : A -> option B) (a : A) : option (option B) :=
  match input a with Some b => Some (Some b) | None => None end.

(** The assignments of a patch, column by column; [None] when a column
    refuses its value. *)
Record invoice_change : Type := mkChange
  { ch_status : assignment (option invoice_status);
    ch_due_date : assignment string;
    ch_notes : assignment (option string);
    ch_terms : assignment (option string);
    ch_tax_rate : assignment (option Z);
    ch_discount_amount : assignment (option Z);
    ch_subtotal : assignment (option Z);
    ch_tax_amount : assignment (option Z);
    ch_total : assignment (option Z);
    ch_paid_at : assignment (option Date);
    ch_paid_amount : assignment (option Z);
    ch_payment_method : assignment (option string);
    ch_stripe_payment_intent_id : assignment (option string);
    ch_reminder_sent_at : assignment (option Date);
    ch_reminder_count : assignment nat }.

Definition invoice_change_of (e : env) (p : invoice_patch) : option invoice_change :=
  match assign (accept invoice_status_of) (p_status p),
        match p_due_date p with
        | undefined => Some None
        | null => None
        | just d => match date_in e d with Some d' => Some (Some d') | None => None end
        end,
        assign (accept text_in) (p_notes p),
        assign (accept text_in) (p_terms p),
        assign (numeric_column 5) (p_tax_rate p),
        assign (numeric_column 12) (p_discount_amount p),
        assign (numeric_column 12) (p_subtotal p),
        assign (numeric_column 12) (p_tax_amount p),
        assign (numeric_column 12) (p_total p),
        assign (fun d => Some (Some d)) (p_paid_at p),
        assign (numeric_column 12) (p_paid_amount p),
        assign (accept (varchar_in 50)) (p_payment_method p),
        assign (accept (varchar_in 255)) (p_stripe_payment_intent_id p),
        assign (fun d => Some (Some d)) (p_reminder_sent_at p),
        match p_reminder_count p with
        | undefined => Some None
        | null => None
        | just n => Some (Some n)
        end
  with
  | Some status, Some due_date, Some notes, Some terms, Some tax_rate,
    Some discount_amount, Some subtotal, Some tax_amount, Some total, Some paid_at,
    Some paid_amount, Some payment_method, Some stripe_payment_intent_id,
    Some reminder_sent_at, Some reminder_count =>
      Some (mkChange status due_date notes terms tax_rate discount_amount subtotal
                     tax_amount total paid_at paid_amount payment_method
                     stripe_payment_intent_id reminder_sent_at reminder_count)
  | _, _, _, _, _, _, _, _, _, _, _, _, _, _, _ => None
  end.

Definition apply_change (c : invoice_change) (i : invoice) : invoice :=
  mkInvoice (inv_id i) (inv_user_id i) (inv_client_id i) (inv_invoice_number i)
    (or_else (ch_status c) (inv_status i))
    (or_else (ch_due_date c) (inv_due_date i))
    (or_else (ch_subtotal c) (inv_subtotal i))
    (or_else (ch_tax_rate c) (inv_tax_rate i))
    (or_else (ch_tax_amount c) (inv_tax_amount i))
    (or_else (ch_discount_amount c) (inv_discount_amount i))
    (or_else (ch_total c) (inv_total i))
    (or_else (ch_notes c) (inv_notes i))
    (or_else (ch_terms c) (inv_terms i))
    (or_else (ch_paid_at c) (inv_paid_at i))
    (or_else (ch_paid_amount c) (inv_paid_amount i))
    (or_else (ch_payment_method c) (inv_payment_method i))
    (or_else (ch_stripe_payment_intent_id c) (inv_stripe_payment_intent_id i))
    (or_else (ch_reminder_sent_at c) (inv_reminder_sent_at i))
    (or_else (ch_reminder_count c) (inv_reminder_count i))
    (inv_created_at i).

(** from('invoices').update(patch).eq('id', id).select(): the rows that
    were written.  PostgREST runs no UPDATE for an object without keys and
    returns no row then. *)
Definition update_invoice (e : env) (id : uuid) (p : invoice_patch) (s : db)
  : option (list invoice * db) :=
  if patch_is_empty p then Some ([], s)
  else
    match invoice_change_of e p with
    | None => None
    | Some c =>
        Some (map (apply_change c) (filter (fun i => inv_id i =? id) (invoices s)),
              set_invoices
                (map (fun i => if inv_id i =? id then apply_change c i else i)
                     (invoices s)) s)
    end.

(** The same update without [.select()]. *)
Definition update_invoice_ (e : env) (id : uuid) (p : invoice_patch) (s : db)
  : option db :=
  match update_invoice e id p s with
  | Some (_, s') => Some s'
  | None => None
  end.

(** from('invoices').select(...).eq('id', id).eq('user_id', userId).single() *)
Definition find_invoice (id userId : uuid) (s : db) : option invoice :=
  single (filter (fun i => (inv_id i =? id) && (inv_user_id i =? userId)) (invoices s)).

(** ** middleware/auth.js *)

(** [authenticate], once the token has been verified and decoded to
    [userId]: the user row is loaded and must be active. *)
Definition authenticate (userId : uuid) (s : db) : response + user :=
  match single (filter (fun u => u_id u =? userId) (users s)) with
  | None => inl (Failure 401 None "Invalid token. User not found.")
  | Some u =>
      if u_is_active u then inr u
      else inl (Failure 403 None "Account is deactivated. Please contact support.")
  end.

Definition plan_name (p : plan) : string :=
  match p with free => "free" | pro => "pro" | business => "business" end.

(** [requirePlan(...allowedPlans)]: [None] lets the request through. *)
Definition requirePlan (allowedPlans : list plan) (u : user) : option response :=
  if existsb (plan_beq (u_plan u)) allowedPlans then None
  else Some (Failure 403 None
               ("This feature requires "
                  ++ String.concat " or " (map plan_name allowedPlans) ++ " plan.")).

(** ** routes/invoices.js *)

Local Open Scope handler_scope.

(** One element of req.body.items; the numbers are given by the values of
    their JSON texts. *)
Record item_input : Type := mkItemInput
  { item_description : js string;
    item_quantity : Q;
    item_price : Q }.

(** The body of POST /api/invoices. *)
Record create_body : Type := mkCreateBody
  { cb_client_id : uuid;
    cb_items : list item_input;
    cb_due_date : js string;
    cb_notes : js string;
    cb_terms : js string;
    cb_tax_rate : js Q;
    cb_discount_amount : js Q }.

(** item.quantity * item.price *)
Definition item_amount (item : item_input) : number :=
  js_mul (JSON_number (item_quantity item)) (JSON_number (item_price item)).

(** items.reduce((sum, item) => sum + (item.quantity * item.price), 0) *)
Definition reduce_subtotal (items : list item_input) : number :=
  fold_left (fun sum item => js_add sum (item_amount item)) items (Finite 0).

(** items.map((item, index) => ({ id: uuidv4(), invoice_id, ... })); the
    invoice itself took call 0 of uuidv4 in POST, so item [index] takes call
    [first + index]. *)
Fixpoint map_items (e : env) (invoice_id : uuid) (first index : nat)
         (items : list item_input) : list item_object :=
  match items with
  | [] => []
  | item :: rest =>
      mkItemObject (uuidv4 e (first + index)) invoice_id
                   (sanitizeString e (item_description item))
                   (JSON_number (item_quantity item)) (JSON_number (item_price item))
                   (item_amount item) index
      :: map_items e invoice_id first (S index) rest
  end.

(** The count of the plan check: the tenant's invoices whose created_at is
    not before [new Date(new Date().setDate(1))]. *)
Definition count_since_setDate1 (e : env) (userId : uuid) (s : db) : nat :=
  List.length (filter (fun i => (inv_user_id i =? userId)
                           && date_leb (setDate (now e) 1) (inv_created_at i))
                 (invoices s)).

Definition count_invoices (userId : uuid) (s : db) : nat :=
  List.length (filter (fun i => inv_user_id i =? userId) (invoices s)).

Definition invoiceNumber_of (e : env) (count : nat) : string :=
  "INV-" ++ String_of_nat (getFullYear (now e)) ++ "-"
         ++ padStart 4 "0"%char (String_of_nat (count + 1)).

(** subtotal * (tax_rate / 100) *)
Definition tax_of (subtotal : number) (tax_rate : js number) : number :=
  js_mul subtotal (js_div (ToNumber tax_rate) (Finite 100)).

(** subtotal + taxAmount - discount_amount *)
Definition total_of (subtotal taxAmount : number) (discount_amount : js number) : number :=
  js_sub (js_add subtotal taxAmount) (ToNumber discount_amount).

(** POST /api/invoices *)
Definition createInvoice (e : env) (u : user) (body : create_body) : Handler response :=
  let tax_rate := js_default (js_map JSON_number (cb_tax_rate body)) (Finite 0) in
  let discount_amount :=
    js_default (js_map JSON_number (cb_discount_amount body)) (Finite 0) in
  (* Check plan limits *)
  (if plan_beq (u_plan u) free then
     count <- query (count_since_setDate1 e (u_id u)) ;;
     if 5 <=? count then
       throw (mkAPIError "Free plan limited to 5 invoices per month. Please upgrade."
                         403 "PLAN_LIMIT")
     else ret tt
   else ret tt) ;;
  (* Verify client belongs to user *)
  client <- query (fun s => single (filter (fun c => (c_id c =? cb_client_id body)
                                                     && (c_user_id c =? u_id u))
                                           (clients s))) ;;
  match client with
  | None => throw (mkAPIError "Client not found" 404 INTERNAL_ERROR)
  | Some _ =>
      (* Generate invoice number *)
      count <- query (count_invoices (u_id u)) ;;
      let invoiceNumber := invoiceNumber_of e count in
      (* Calculate totals *)
      let subtotal := reduce_subtotal (cb_items body) in
      let taxAmount := tax_of subtotal tax_rate in
      let total := total_of subtotal taxAmount discount_amount in
      (* Create invoice *)
      let invoiceId := uuidv4 e 0 in
      invoice <- attempt_single
                   (insert_invoice e
                      (mkInvoiceValues invoiceId (u_id u) (cb_client_id body)
                         invoiceNumber "pending" (cb_due_date body) subtotal tax_rate
                         taxAmount discount_amount total
                         (sanitizeString e (cb_notes body))
                         (sanitizeString e (cb_terms body)))) ;;
      match invoice with
      | None => throw (mkAPIError "Failed to create invoice" 500 INTERNAL_ERROR)
      | Some invoice =>
          (* Create invoice items *)
          let invoiceItems := map_items e invoiceId 1 0 (cb_items body) in
          itemsError <- attempt (insert_invoice_items invoiceItems) ;;
          if itemsError : bool then
            (* Rollback invoice *)
            exec (delete_invoice invoiceId) ;;
            throw (mkAPIError "Failed to create invoice items" 500 INTERNAL_ERROR)
          else
            (* Log audit *)
            exec (fun s => set_audit_logs
                             (audit_logs s ++ [mkAudit (u_id u) "INVOICE_CREATED" invoiceId
                                                       invoiceNumber
                                                       (JSON_of_number total)]) s) ;;
            ret (Success 201 "Invoice created successfully"
                         (invoice_with_items invoice invoiceItems))
      end
  end.

(** The body of PUT /api/invoices/:id; [ub_items] is [None] for items that
    are undefined or null. *)
Record update_body : Type := mkUpdateBody
  { ub_items : option (list item_input);
    ub_due_date : js string;
    ub_notes : js string;
    ub_terms : js string;
    ub_status : js string;
    ub_tax_rate : js Q;
    ub_discount_amount : js Q }.

(** [status !== 'paid'] on the status of the body. *)
Definition is_not (st : string) (v : js string) : bool :=
  match v with
  | just s => negb (String.eqb s st)
  | _ => true
  end.

(** PUT /api/invoices/:id *)
Definition updateInvoice (e : env) (u : user) (id : uuid) (body : update_body)
  : Handler response :=
  let tax_rate := js_map JSON_number (ub_tax_rate body) in
  let discount_amount := js_map JSON_number (ub_discount_amount body) in
  (* Get existing invoice *)
  existing <- query (find_invoice id (u_id u)) ;;
  match existing with
  | None => throw (mkAPIError "Invoice not found" 404 INTERNAL_ERROR)
  | Some existing =>
      (* Can't edit paid invoices *)
      if status_is paid (inv_status existing) && is_not "paid" (ub_status body) then
        throw (mkAPIError "Cannot modify a paid invoice" 400 INTERNAL_ERROR)
      else
        let updateData :=
          mkPatch (ub_status body) (ub_due_date body) (ub_notes body) (ub_terms body)
                  tax_rate discount_amount undefined undefined undefined
                  undefined undefined undefined undefined undefined undefined in
        (* Calculate new totals if items provided *)
        updateData <-
          match ub_items body with
          | Some items =>
              let subtotal := reduce_subtotal items in
              let taxAmount :=
                tax_of subtotal (js_or tax_rate (column_number (inv_tax_rate existing))) in
              let total :=
                total_of subtotal taxAmount
                         (js_or discount_amount
                                (column_number (inv_discount_amount existing))) in
              (* Delete old items and insert new *)
              exec (delete_items_of id) ;;
              exec (discard (insert_invoice_items (map_items e id 0 0 items))) ;;
              ret (mkPatch (ub_status body) (ub_due_date body) (ub_notes body)
                           (ub_terms body) tax_rate discount_amount
                           (just subtotal) (just taxAmount) (just total)
                           undefined undefined undefined undefined undefined undefined)
          | None => ret updateData
          end ;;
        (* Update invoice *)
        invoice <- attempt_single (update_invoice e id updateData) ;;
        match invoice with
        | None => throw (mkAPIError "Failed to update invoice" 500 INTERNAL_ERROR)
        | Some invoice => ret (Success 200 "Invoice updated" (invoice_data invoice))
        end
  end.

(** POST /api/invoices/:id/remind, behind requirePlan('pro', 'business'). *)
Definition remindInvoice (e : env) (u : user) (id : uuid) : Handler response :=
  invoice <- query (find_invoice id (u_id u)) ;;
  match invoice with
  | None => throw (mkAPIError "Invoice not found" 404 INTERNAL_ERROR)
  | Some invoice =>
      if status_is paid (inv_status invoice) then
        throw (mkAPIError "Invoice is already paid" 400 INTERNAL_ERROR)
      else
        (* Update reminder count *)
        exec (discard (update_invoice_ e id
                (mkPatch undefined undefined undefined undefined undefined undefined
                         undefined undefined undefined undefined undefined undefined
                         undefined (just (now e))
                         (just (inv_reminder_count invoice + 1))))) ;;
        ret (Success 200 "Reminder sent successfully" no_data)
  end.

(** The body of POST /api/invoices/:id/mark-paid.  Only payment_method and
    notes are read; [mp_amount] is an amount a caller may send along. *)
Record mark_paid_body : Type := mkMarkPaidBody
  { mp_payment_method : js string;
    mp_notes : js string;
    mp_amount : js Q }.

(** POST /api/invoices/:id/mark-paid *)
Definition markPaid (e : env) (u : user) (id : uuid) (body : mark_paid_body)
  : Handler response :=
  let payment_method := js_default (mp_payment_method body) "manual" in
  let notes := mp_notes body in
  invoice <- query (find_invoice id (u_id u)) ;;
  match invoice with
  | None => throw (mkAPIError "Invoice not found" 404 INTERNAL_ERROR)
  | Some invoice =>
      (* Update invoice *)
      error <- attempt (update_invoice_ e id
                 (mkPatch (just "paid") undefined undefined undefined undefined undefined
                          undefined undefined undefined (just (now e))
                          (column_number (inv_total invoice)) payment_method
                          undefined undefined undefined)) ;;
      if error : bool then
        throw (mkAPIError "Failed to update invoice" 500 INTERNAL_ERROR)
      else
        (* Record payment *)
        exec (discard (insert_payment
                         (mkPaymentValues (uuidv4 e 0) id (Some (u_id u))
                                          (column_number (inv_total invoice))
                                          payment_method undefined notes))) ;;
        ret (Success 200 "Invoice marked as paid" no_data)
  end.

(** DELETE /api/invoices/:id *)
Definition deleteInvoice (u : user) (id : uuid) : Handler response :=
  invoice <- query (find_invoice id (u_id u)) ;;
  match invoice with
  | None => throw (mkAPIError "Invoice not found" 404 INTERNAL_ERROR)
  | Some invoice =>
      if status_is paid (inv_status invoice) then
        throw (mkAPIError "Cannot delete a paid invoice" 400 INTERNAL_ERROR)
      else
        (* Delete invoice (cascade will delete items); a delete by id cannot be
           refused under the modelled constraints, so the branch that throws
           'Failed to delete invoice' is not part of the model *)
        exec (delete_invoice id) ;;
        ret (Success 200 "Invoice deleted" no_data)
  end.

(** The invoice router: every route runs behind [authenticate]; remind also
    runs behind requirePlan('pro', 'business'). *)
Inductive request : Type :=
| POST_invoices (body : create_body)
| PUT_invoice (id : uuid) (body : update_body)
| POST_remind (id : uuid)
| POST_mark_paid (id : uuid) (body : mark_paid_body)
| DELETE_invoice (id : uuid).

Definition invoices_router (e : env) (userId : uuid) (r : request) (s : db)
  : response * db :=
  match authenticate userId s with
  | inl denied => (denied, s)
  | inr u =>
      match r with
      | POST_invoices body => asyncHandler (createInvoice e u body) s
      | PUT_invoice id body => asyncHandler (updateInvoice e u id body) s
      | POST_remind id =>
          match requirePlan [pro; business] u with
          | Some denied => (denied, s)
          | None => asyncHandler (remindInvoice e u id) s
          end
      | POST_mark_paid id body => asyncHandler (markPaid e u id body) s
      | DELETE_invoice id => asyncHandler (deleteInvoice u id) s
      end
  end.

(** ** GET /api/invoices/stats *)

Record invoice_stats : Type := mkStats
  { total_invoices : nat;
    total_revenue : number;
    pending_amount : number;
    overdue_amount : number;
    by_status_draft : nat;
    by_status_pending : nat;
    by_status_paid : nat;
    by_status_overdue : nat;
    by_status_cancelled : nat }.

(** invoices.filter(i => i.status === st) *)
Definition with_status (st : invoice_status) (l : list invoice) : list invoice :=
  filter (fun i => status_is st (inv_status i)) l.

(** parseFloat of a column: NaN for null. *)
Definition parseFloat (v : js number) : number :=
  match v with
  | just n => n
  | _ => NaN
  end.

(** l.reduce((sum, i) => sum + parseFloat(i.total), 0) *)
Definition reduce_total (l : list invoice) : number :=
  fold_left (fun sum i => js_add sum (parseFloat (column_number (inv_total i)))) l
            (Finite 0).

Definition getStats (u : user) (s : db) : invoice_stats :=
  let invoices := filter (fun i => (inv_user_id i =? u_id u)%nat) (invoices s) in
  mkStats (List.length invoices)
          (reduce_total (with_status paid invoices))
          (reduce_total (with_status pending invoices))
          (reduce_total (with_status overdue invoices))
          (List.length (with_status draft invoices))
          (List.length (with_status pending invoices))
          (List.length (with_status paid invoices))
          (List.length (with_status overdue invoices))
          (List.length (with_status cancelled invoices)).

(** ** GET /api/invoices/:id *)

(** An invoice with its embedded client and items. *)
Record invoice_view : Type := mkView
  { view_invoice : invoice;
    view_client : option client;
    view_items : list invoice_item }.

(** select('*, client:clients(...), items:invoice_items(...)') for one
    invoice row: the embeddings follow the foreign keys. *)
Definition embed (i : invoice) (s : db) : invoice_view :=
  mkView i
         (single (filter (fun c => (c_id c =? inv_client_id i)%nat) (clients s)))
         (filter (fun r => (it_invoice_id r =? inv_id i)%nat) (invoice_items s)).

Definition getInvoice (u : user) (id : uuid) : Handler invoice_view :=
  invoice <- query (find_invoice id (u_id u)) ;;
  match invoice with
  | None => throw (mkAPIError "Invoice not found" 404 INTERNAL_ERROR)
  | Some invoice => query (embed invoice)
  end.

(** ** errorHandler, for any error object *)

(** err.code is a string for APIError and Supabase errors and a number for
    driver errors. *)
Inductive error_code : Type :=
| code_string (c : string)
| code_number (n : Z).

(** The properties of an error object that errorHandler reads.  [None] is a
    property that is absent; [e_errors] holds the message property of each
    value of err.errors. *)
Record js_error : Type := mkJsError
  { e_name : string;
    e_message : option string;
    e_statusCode : option nat;
    e_code : option error_code;
    e_errors : option (list (option string)) }.

(** What errorHandler sends: the status and the body's error and code. *)
Record rendered : Type := mkRendered
  { r_status : nat;
    r_error : string;
    r_code : error_code }.

(** [x || d] for a string, a number and a code. *)
Definition string_or (x : option string) (d : string) : string :=
  match x with
  | Some "" | None => d
  | Some v => v
  end.

Definition status_or (x : option nat) (d : nat) : nat :=
  match x with
  | Some 0%nat | None => d
  | Some v => v
  end.

Definition code_or (x : option error_code) (d : error_code) : error_code :=
  match x with
  | Some (code_string "") | Some (code_number 0%Z) | None => d
  | Some v => v
  end.

Definition code_is (x : option error_code) (c : error_code) : bool :=
  match x, c with
  | Some (code_string a), code_string b => String.eqb a b
  | Some (code_number a), code_number b => Z.eqb a b
  | _, _ => false
  end.

(** errorHandler(err, req, res, next).  The result is [None] when the
    handler itself throws: a ValidationError without an errors object. *)
Definition errorHandler_any (err : js_error) : option rendered :=
  let r := mkRendered (status_or (e_statusCode err) 500)
                      (string_or (e_message err) "Internal server error")
                      (code_or (e_code err) (code_string "INTERNAL_ERROR")) in
  (* Mongoose validation error *)
  let r := if String.eqb (e_name err) "ValidationError" then
             match e_errors err with
             | Some errors =>
                 Some (mkRendered 400
                         (String.concat ", " (map (fun m => or_else m "") errors))
                         (code_string "VALIDATION_ERROR"))
             | None => None
             end
           else Some r in
  match r with
  | None => None
  | Some r =>
      (* Mongoose duplicate key error *)
      let r := if code_is (e_code err) (code_number 11000) then
                 mkRendered 400 "Duplicate field value entered"
                            (code_string "DUPLICATE_ERROR")
               else r in
      (* JWT errors *)
      let r := if String.eqb (e_name err) "JsonWebTokenError" then
                 mkRendered 401 "Invalid token" (code_string "INVALID_TOKEN")
               else r in
      let r := if String.eqb (e_name err) "TokenExpiredError" then
                 mkRendered 401 "Token expired" (code_string "TOKEN_EXPIRED")
               else r in
      (* Supabase errors *)
      let r := if code_is (e_code err) (code_string "PGRST116") then
                 mkRendered 404 "Resource not found" (code_string "NOT_FOUND")
               else r in
      Some r
  end.

(** new APIError(message, statusCode, code) as an error object; the class
    extends Error and does not change its name. *)
Definition js_of_APIError (e : APIError) : js_error :=
  mkJsError "Error" (Some (err_message e)) (Some (statusCode e))
            (Some (code_string (err_code e))) None.

(** notFound: the error for a URL no route matched. *)
Definition notFound (originalUrl : string) : APIError :=
  mkAPIError ("Not found: " ++ originalUrl)%string 404 "NOT_FOUND".

(** ** POST /api/invoices/:id/send *)

(** pdfService and emailService, which return or throw. *)
Record collaborators : Type := mkCollaborators
  { generateInvoicePDF : invoice_view -> user -> js_error + string;
    sendInvoiceEmail : string -> invoice_view -> string -> option js_error }.

(** Reading [.email] of a client that is null. *)
Definition TypeError_email : js_error :=
  mkJsError "TypeError" (Some "Cannot read properties of null (reading 'email')")
            None None None.

(** update({ status }) *)
Definition status_patch (status : string) : invoice_patch :=
  mkPatch (just status) undefined undefined undefined undefined undefined undefined
          undefined undefined undefined undefined undefined undefined undefined undefined.

(** The handler of the send route; what it throws is an error object of any
    shape. *)
Definition sendInvoice (e : env) (k : collaborators) (u : user) (id : uuid) (s : db)
  : (js_error + response) * db :=
  match find_invoice id (u_id u) s with
  | None => (inl (js_of_APIError (mkAPIError "Invoice not found" 404 INTERNAL_ERROR)), s)
  | Some invoice =>
      let view := embed invoice s in
      (* Generate PDF *)
      match generateInvoicePDF k view u with
      | inl err => (inl err, s)
      | inr pdfBuffer =>
          (* Send email *)
          match view_client view with
          | None => (inl TypeError_email, s)
          | Some client =>
              match sendInvoiceEmail k (c_email client) view pdfBuffer with
              | Some err => (inl err, s)
              | None =>
                  (* Update status to pending if draft *)
                  let s' := if status_is draft (inv_status invoice)
                            then discard (update_invoice_ e id (status_patch "pending")) s
                            else s in
                  (inr (Success 200 "Invoice sent successfully" no_data), s')
              end
          end
      end
  end.

(** The send route behind authenticate and requirePlan('pro', 'business'). *)
Definition send_route (e : env) (k : collaborators) (userId id : uuid) (s : db)
  : (js_error + response) * db :=
  match authenticate userId s with
  | inl denied => (inr denied, s)
  | inr u =>
      match requirePlan [pro; business] u with
      | Some denied => (inr denied, s)
      | None => sendInvoice e k u id s
      end
  end.

(** ** POST /api/payments/create-invoice-payment/:invoiceId *)

(** Math.round of a number, as the integer that JSON.stringify writes;
    [None] for NaN and the infinities, which are written null. *)
Definition Math_round_number (n : number) : option Z :=
  match n with
  | Finite x => Some (Math_round x)
  | _ => None
  end.

(** The argument of stripe.paymentIntents.create. *)
Record intent_params : Type := mkIntentParams
  { ip_amount : option Z;
    ip_currency : string;
    ip_metadata_invoice_id : uuid;
    ip_metadata_user_id : uuid;
    ip_metadata_invoice_number : string;
    ip_description : string;
    ip_receipt_email : string }.

Record payment_link : Type := mkPaymentLink
  { clientSecret : string;
    link_amount : js number }.

(** The Stripe client: paymentIntents.create returns the id and the client
    secret of the new intent, or throws. *)
Definition stripe_client : Type := intent_params -> js_error + (string * string).

(** update({ stripe_payment_intent_id }) *)
Definition intent_patch (intent_id : string) : invoice_patch :=
  mkPatch undefined undefined undefined undefined undefined undefined undefined
          undefined undefined undefined undefined undefined (just intent_id)
          undefined undefined.

(** The handler sends the parameters to Stripe, stores the intent id and
    answers with the client secret.  The result also shows the parameters
    that were sent, if the handler got that far. *)
Definition createInvoicePayment (e : env) (stripe_create : stripe_client) (u : user)
           (id : uuid) (s : db) : (js_error + payment_link) * option intent_params * db :=
  match find_invoice id (u_id u) s with
  | None =>
      (inl (js_of_APIError (mkAPIError "Invoice not found" 404 INTERNAL_ERROR)), None, s)
  | Some invoice =>
      if status_is paid (inv_status invoice) then
        (inl (js_of_APIError (mkAPIError "Invoice is already paid" 400 INTERNAL_ERROR)),
         None, s)
      else
        match view_client (embed invoice s) with
        | None => (inl TypeError_email, None, s)
        | Some client =>
            (* Create payment intent *)
            let params :=
              mkIntentParams
                (Math_round_number
                   (js_mul (ToNumber (column_number (inv_total invoice))) (Finite 100)))
                "usd" (inv_id invoice) (u_id u) (inv_invoice_number invoice)
                ("Invoice " ++ inv_invoice_number invoice)%string
                (c_email client) in
            match stripe_create params with
            | inl err => (inl err, Some params, s)
            | inr (intent_id, client_secret) =>
                (* Save payment intent ID *)
                (inr (mkPaymentLink client_secret (column_number (inv_total invoice))),
                 Some params,
                 discard (update_invoice_ e (inv_id invoice) (intent_patch intent_id)) s)
            end
        end
  end.

(** ** routes/webhooks.js *)

(** The fields of a Stripe subscription object that the handler reads. *)
Record stripe_subscription : Type := mkStripeSubscription
  { ss_id : string;
    ss_customer : string }.

(** The fields of a Stripe payment intent that the handler reads; the
    amount is in cents. *)
Record payment_intent : Type := mkPaymentIntent
  { pi_id : string;
    pi_amount : Z;
    pi_metadata_invoice_id : option uuid;
    pi_metadata_user_id : option uuid }.

Definition eq_column (column : option string) (value : string) : bool :=
  match column with Some v => String.eqb v value | None => false end.

(** handleSubscriptionDeleted *)
Definition handleSubscriptionDeleted (e : env) (subscription : stripe_subscription)
  : Handler unit :=
  (* Update subscription status *)
  exec (fun s =>
          set_subscriptions
            (map (fun r => if eq_column (sub_stripe_subscription_id r) (ss_id subscription)
                           then mkSubscription (sub_id r) (sub_user_id r)
                                  (sub_stripe_subscription_id r) (sub_stripe_customer_id r)
                                  (sub_plan r) sub_cancelled (Some (now e))
                           else r)
                 (subscriptions s)) s) ;;
  (* Downgrade user to free *)
  exec (fun s =>
          set_users
            (map (fun u => if eq_column (u_stripe_customer_id u) (ss_customer subscription)
                           then mkUser (u_id u) (u_email u) (u_name u) free
                                  (u_plan_expires_at u) (u_stripe_customer_id u) None
                                  (u_is_active u)
                           else u)
                 (users s)) s).

(** handlePaymentIntentSucceeded; the amount is the integer of the event,
    read by JSON.parse. *)
Definition handlePaymentIntentSucceeded (e : env) (paymentIntent : payment_intent)
  : Handler unit :=
  let userId := pi_metadata_user_id paymentIntent in
  match pi_metadata_invoice_id paymentIntent with
  | None =>
      (* Not an invoice payment, might be subscription *)
      ret tt
  | Some invoiceId =>
      let amount :=
        js_div (JSON_number (inject_Z (pi_amount paymentIntent))) (Finite 100) in
      (* Mark invoice as paid *)
      exec (discard (update_invoice_ e invoiceId
              (mkPatch (just "paid") undefined undefined undefined undefined undefined
                       undefined undefined undefined (just (now e)) (just amount)
                       (just "stripe") undefined undefined undefined))) ;;
      (* Record payment *)
      exec (discard (insert_payment
                       (mkPaymentValues (uuidv4 e 0) invoiceId userId (just amount)
                                        (just "stripe") (just (pi_id paymentIntent))
                                        undefined)))
  end.

(** The fields of a Checkout Session that the handler reads;
    [cs_subscription] is null for [None]. *)
Record checkout_session : Type := mkCheckoutSession
  { cs_metadata_user_id : option uuid;
    cs_metadata_plan : option plan;
    cs_subscription : option string }.

(** handleCheckoutComplete *)
Definition handleCheckoutComplete (session : checkout_session) : Handler unit :=
  let plan := cs_metadata_plan session in
  match cs_metadata_user_id session with
  | None => ret tt
  | Some userId =>
      (* Update user's plan *)
      exec (fun s =>
              set_users
                (map (fun u => if (u_id u =? userId)%nat
                               then mkUser (u_id u) (u_email u) (u_name u)
                                      (or_else plan (u_plan u)) (u_plan_expires_at u)
                                      (u_stripe_customer_id u) (cs_subscription session)
                                      (u_is_active u)
                               else u)
                     (users s)) s)
  end.

(** The fields of a Stripe subscription that handleSubscriptionUpdate
    reads; the period bounds are in seconds. *)
Record subscription_object : Type := mkSubscriptionObject
  { so_id : string;
    so_customer : string;
    so_status : string;
    so_metadata_user_id : option uuid;
    so_metadata_plan : option plan;
    so_current_period_end : Z }.

(** CHECK (status IN ('active', 'cancelled', 'past_due', 'trialing')) *)
Definition subscription_status_of (status : string) : option subscription_status :=
  if String.eqb status "active" then Some sub_active
  else if String.eqb status "cancelled" then Some sub_cancelled
  else if String.eqb status "past_due" then Some sub_past_due
  else if String.eqb status "trialing" then Some sub_trialing
  else None.

(** from('subscriptions').upsert(row, { onConflict: 'stripe_subscription_id' }):
    NOT NULL user_id, the foreign key to users, the CHECK on status and
    PRIMARY KEY(id).  A row that holds the external id is overwritten with
    the columns of the new row (cancelled_at is not among them); without
    such a row the new row is appended. *)
Definition upsert_subscription (id : uuid) (user_id : option uuid)
           (stripe_subscription_id stripe_customer_id : string) (plan_ : plan)
           (status : string) (s : db) : option db :=
  match user_id, subscription_status_of status with
  | Some userId, Some st =>
      if negb (existsb (fun u => (u_id u =? userId)%nat) (users s)) then None
      else if existsb (fun r => (sub_id r =? id)%nat
                                && negb (eq_column (sub_stripe_subscription_id r)
                                                   stripe_subscription_id))
                      (subscriptions s) then None
      else if existsb (fun r => eq_column (sub_stripe_subscription_id r)
                                          stripe_subscription_id)
                      (subscriptions s) then
        Some (set_subscriptions
                (map (fun r => if eq_column (sub_stripe_subscription_id r)
                                            stripe_subscription_id
                               then mkSubscription id userId (Some stripe_subscription_id)
                                      (Some stripe_customer_id) plan_ st
                                      (sub_cancelled_at r)
                               else r)
                     (subscriptions s)) s)
      else
        Some (set_subscriptions
                (subscriptions s
                   ++ [mkSubscription id userId (Some stripe_subscription_id)
                                      (Some stripe_customer_id) plan_ st None]) s)
  | _, _ => None
  end.

(** handleSubscriptionUpdate.  [Date_of_seconds] is
    [sec => new Date(sec * 1000)]. *)
Definition handleSubscriptionUpdate (e : env) (Date_of_seconds : Z -> Date)
           (subscription : subscription_object) : Handler unit :=
  let userId := so_metadata_user_id subscription in
  let plan := so_metadata_plan subscription in
  found <-
    match userId with
    | Some _ => ret true
    | None =>
        (* Try to find user by customer ID *)
        user <- query (fun s => single (filter (fun u => eq_column (u_stripe_customer_id u)
                                                           (so_customer subscription))
                                               (users s))) ;;
        ret (is_some user)
    end ;;
  if found : bool then
    let status := so_status subscription in
    let currentPeriodEnd := Date_of_seconds (so_current_period_end subscription) in
    let active := String.eqb status "active" || String.eqb status "trialing" in
    (* Upsert subscription record *)
    exec (discard (upsert_subscription (uuidv4 e 0) userId (so_id subscription)
                                       (so_customer subscription) (or_else plan pro)
                                       (if active then "active" else status))) ;;
    (* Update user plan *)
    if active then
      exec (fun s =>
              set_users
                (map (fun u => if eq_column (u_stripe_customer_id u)
                                            (so_customer subscription)
                               then mkUser (u_id u) (u_email u) (u_name u)
                                      (or_else plan pro) (Some currentPeriodEnd)
                                      (u_stripe_customer_id u)
                                      (u_stripe_subscription_id u) (u_is_active u)
                               else u)
                     (users s)) s)
    else ret tt
  else ret tt.

(** The rows of audit_logs that the webhook writes have no user and no
    entity id and carry another object in new_values; the model keeps them
    in a list of their own beside the store. *)
Record subscription_log : Type := mkSubscriptionLog
  { slog_action : string;
    slog_invoice_id : string;
    slog_amount : option Q;      (* null for [None] *)
    slog_customer : string }.

Record hook_store : Type := mkHookStore
  { core : db;
    subscription_logs : list subscription_log }.

(** The fields of a Stripe invoice that the handlers read. *)
Record stripe_invoice : Type := mkStripeInvoice
  { si_id : string;
    si_amount_paid : Z;
    si_customer : string }.

(** handleInvoicePaid *)
Definition handleInvoicePaid (invoice : stripe_invoice) (h : hook_store) : hook_store :=
  mkHookStore (core h)
    (subscription_logs h
       ++ [mkSubscriptionLog "SUBSCRIPTION_PAYMENT_SUCCESS" (si_id invoice)
             (JSON_of_number
                (js_div (JSON_number (inject_Z (si_amount_paid invoice))) (Finite 100)))
             (si_customer invoice)]).

(** handlePaymentFailed *)
Definition handlePaymentFailed (invoice : stripe_invoice) (h : hook_store) : hook_store :=
  mkHookStore
    (set_subscriptions
       (map (fun r => if eq_column (sub_stripe_customer_id r) (si_customer invoice)
                      then mkSubscription (sub_id r) (sub_user_id r)
                             (sub_stripe_subscription_id r) (sub_stripe_customer_id r)
                             (sub_plan r) sub_past_due (sub_cancelled_at r)
                      else r)
            (subscriptions (core h))) (core h))
    (subscription_logs h
       ++ [mkSubscriptionLog "SUBSCRIPTION_PAYMENT_FAILED" (si_id invoice) None
                             (si_customer invoice)]).

(** POST /api/webhooks/stripe after the signature check: the switch on
    event.type with the object of each event. *)
Module Webhook.

Inductive event : Type :=
| checkout_session_completed (session : checkout_session)
| customer_subscription_created (subscription : subscription_object)
| customer_subscription_updated (subscription : subscription_object)
| customer_subscription_deleted (subscription : stripe_subscription)
| invoice_paid (invoice : stripe_invoice)
| invoice_payment_failed (invoice : stripe_invoice)
| payment_intent_succeeded (paymentIntent : payment_intent)
| unhandled (type : string).

Definition on_core (f : db -> db) (h : hook_store) : hook_store :=
  mkHookStore (f (core h)) (subscription_logs h).

Definition dispatch (e : env) (Date_of_seconds : Z -> Date) (ev : event)
           (h : hook_store) : hook_store :=
  match ev with
  | checkout_session_completed session =>
      on_core (fun s => snd (handleCheckoutComplete session s)) h
  | customer_subscription_created subscription
  | customer_subscription_updated subscription =>
      on_core (fun s => snd (handleSubscriptionUpdate e Date_of_seconds subscription s)) h
  | customer_subscription_deleted subscription =>
      on_core (fun s => snd (handleSubscriptionDeleted e subscription s)) h
  | invoice_paid invoice => handleInvoicePaid invoice h
  | invoice_payment_failed invoice => handlePaymentFailed invoice h
  | payment_intent_succeeded paymentIntent =>
      on_core (fun s => snd (handlePaymentIntentSucceeded e paymentIntent s)) h
  | unhandled _ => h
  end.

End Webhook.

(** The effect of an event on the tables that the routes read. *)
Definition stripe_webhook (e : env) (Date_of_seconds : Z -> Date) (event : Webhook.event)
           (s : db) : db :=
  core (Webhook.dispatch e Date_of_seconds event (mkHookStore s [])).

Local Close Scope handler_scope.

(** ** Sequences of calls *)

(** A call to the invoice router or a delivery of a Stripe event.  The
    state of a run is the record of tables; the audit rows of subscription
    payments, which nothing reads, are not carried along. *)
Inductive call : Type :=
| api (e : env) (userId : uuid) (r : request)
| stripe (e : env) (Date_of_seconds : Z -> Date) (event : Webhook.event).

Definition step (s : db) (c : call) : db :=
  match c with
  | api e userId r => snd (invoices_router e userId r s)
  | stripe e Date_of_seconds event => stripe_webhook e Date_of_seconds event s
  end.

Definition run (calls : list call) (s : db) : db := fold_left step calls s.

(** ** Scenario data *)

Module Scenario.

Definition alice : user :=
  mkUser 1 "alice@example.com" "Alice" pro None (Some "cus_1") (Some "sub_1") true.

Definition bob : user :=
  mkUser 2 "bob@example.com" "Bob" free None None None true.

Definition client_C : client := mkClient 10 1 "C" "a@x.com".
Definition client_D : client := mkClient 11 2 "D" "d@x.com".

Definition db0 : db :=
  mkDb [alice; bob] [client_C; client_D] [] [] []
       [mkSubscription 50 1 (Some "sub_1") (Some "cus_1") pro sub_active None] [].

Definition digit (c : ascii) : option nat :=
  let n := nat_of_ascii c in
  if (48 <=? n) && (n <=? 57) then Some (n - 48) else None.

Definition days_in_month (year month : nat) : nat :=
  match month with
  | 2 => if ((year mod 4 =? 0) && negb (year mod 100 =? 0)) || (year mod 400 =? 0)
         then 29 else 28
  | 4 | 6 | 9 | 11 => 30
  | _ => 31
  end.

(** The date input of the scenarios: a calendar date written YYYY-MM-DD is
    stored as it is written.  Texts of other forms, of which PostgreSQL
    accepts some, are not used in the scenarios and are refused here. *)
Definition iso_date (s : string) : option string :=
  match map digit (list_ascii_of_string s) with
  | [Some y1; Some y2; Some y3; Some y4; None; Some m1; Some m2; None; Some d1; Some d2] =>
      let year := 1000 * y1 + 100 * y2 + 10 * y3 + y4 in
      let month := 10 * m1 + m2 in
      let day := 10 * d1 + d2 in
      if String.eqb (substring 4 1 s) "-" && String.eqb (substring 7 1 s) "-"
         && (1 <=? year) && (1 <=? month) && (month <=? 12)
         && (1 <=? day) && (day <=? days_in_month year month)
      then Some s else None
  | _ => None
  end.

(** A clock reading and a uuid supply whose n-th request draws its
    identifiers from the block starting at [100 * n]. *)
Definition at_ (d : Date) (n : nat) : env :=
  mkEnv d (fun k => 100 * n + k) (fun x => x) iso_date.

Definition t0 : Date := mkDate 2026 10 2 36000000%N.

(** [sec => new Date(sec * 1000)] of the scenarios, whose events all carry
    the same period end. *)
Definition Date_of_seconds (sec : Z) : Date := mkDate 2027 0 15 0%N.

Definition two_items : list item_input :=
  [ mkItemInput (just "Design") 2 50; mkItemInput (just "Hosting") 1 25 ].

Definition body0 : create_body :=
  mkCreateBody 10 two_items (just "2026-12-01") undefined undefined
               (just 10%Q) (just 5%Q).

End Scenario.

(** * Notions used in the statements *)

Local Open Scope list_scope.
Local Open Scope Q_scope.

(** The sum of quantity times price over the items of a request, in exact
    arithmetic on the numbers as they are written. *)
Fixpoint sum_amounts (items : list item_input) : Q :=
  match items with
  | [] => 0
  | item :: rest => item_quantity item * item_price item + sum_amounts rest
  end.

(** The column [c] holds the amount [q]. *)
Definition holds (c : option Z) (q : Q) : Prop :=
  exists z, c = Some z /\ inject_Z z / 100 == q.

(** A value of a DECIMAL(12, 2) column. *)
Definition decimal_12_2 (z : Z) : Prop := (Z.abs z < 10 ^ 12)%Z.

(** The plan check of POST /api/invoices lets the request through. *)
Definition under_plan_limit (e : env) (u : user) (s : db) : bool :=
  negb (plan_beq (u_plan u) free) || negb (5 <=? count_since_setDate1 e (u_id u) s)%nat.

Definition owns_client (u : user) (client_id : uuid) (s : db) : bool :=
  is_some (single (filter (fun c => (c_id c =? client_id)%nat && (c_user_id c =? u_id u)%nat)
                          (clients s))).

(** What POST /api/invoices computes from its body: the rate and the
    discount after the defaults, and subtotal, taxAmount and total. *)
Definition request_tax_rate (body : create_body) : js number :=
  js_default (js_map JSON_number (cb_tax_rate body)) (Finite 0).

Definition request_discount (body : create_body) : js number :=
  js_default (js_map JSON_number (cb_discount_amount body)) (Finite 0).

Definition computed_subtotal (body : create_body) : number :=
  reduce_subtotal (cb_items body).

Definition computed_tax (body : create_body) : number :=
  tax_of (computed_subtotal body) (request_tax_rate body).

Definition computed_total (body : create_body) : number :=
  total_of (computed_subtotal body) (computed_tax body) (request_discount body).

(** The object that POST /api/invoices hands to the store in state [s]. *)
Definition created_values (e : env) (u : user) (body : create_body) (s : db)
  : invoice_values :=
  mkInvoiceValues (uuidv4 e 0) (u_id u) (cb_client_id body)
                  (invoiceNumber_of e (count_invoices (u_id u) s)) "pending"
                  (cb_due_date body) (computed_subtotal body) (request_tax_rate body)
                  (computed_tax body) (request_discount body) (computed_total body)
                  (sanitizeString e (cb_notes body)) (sanitizeString e (cb_terms body)).

Definition created_items (e : env) (body : create_body) : list item_object :=
  map_items e (uuidv4 e 0) 1 0 (cb_items body).

Definition created_log (e : env) (u : user) (body : create_body) (s : db) : audit_log :=
  mkAudit (u_id u) "INVOICE_CREATED" (uuidv4 e 0)
          (invoiceNumber_of e (count_invoices (u_id u) s))
          (JSON_of_number (computed_total body)).

(** The patches of mark-paid and of the payment event, and of remind. *)
Definition paid_patch (e : env) (amount : js number) (method : js string)
  : invoice_patch :=
  mkPatch (just "paid") undefined undefined undefined undefined undefined undefined
          undefined undefined (just (now e)) amount method undefined undefined undefined.

Definition reminder_patch (e : env) (invoice : invoice) : invoice_patch :=
  mkPatch undefined undefined undefined undefined undefined undefined undefined
          undefined undefined undefined undefined undefined undefined
          (just (now e)) (just (inv_reminder_count invoice + 1)%nat).

(** The payment method of a mark-paid body, after the default. *)
Definition method_of (body : mark_paid_body) : js string :=
  js_default (mp_payment_method body) "manual".

Definition manual_values (e : env) (u : user) (id : uuid) (invoice : invoice)
           (body : mark_paid_body) : payment_values :=
  mkPaymentValues (uuidv4 e 0) id (Some (u_id u)) (column_number (inv_total invoice))
                  (method_of body) undefined (mp_notes body).

(** The store takes the payment method and the notes of a mark-paid body,
    as [method] and [notes]. *)
Definition body_accepted (body : mark_paid_body) (method notes : option string) : Prop :=
  text_column (varchar_in 50) (method_of body) = Some method
  /\ text_column text_in (mp_notes body) = Some notes.

(** The Payment Record of a manual payment of [amount]. *)
Definition manual_payment (e : env) (u : user) (id : uuid) (amount : Z)
           (method notes : option string) : payment :=
  mkPayment (uuidv4 e 0) id (u_id u) amount method None pay_completed notes.

(** The object PUT /api/invoices/:id hands to update, and the store just
    before that update. *)
Definition body_tax_rate (body : update_body) : js number :=
  js_map JSON_number (ub_tax_rate body).

Definition body_discount (body : update_body) : js number :=
  js_map JSON_number (ub_discount_amount body).

(** The rate and the discount that the totals of a PUT with items are
    computed with. *)
Definition rate_used (existing : invoice) (body : update_body) : js number :=
  js_or (body_tax_rate body) (column_number (inv_tax_rate existing)).

Definition discount_used (existing : invoice) (body : update_body) : js number :=
  js_or (body_discount body) (column_number (inv_discount_amount existing)).

Definition updateData_of (existing : invoice) (body : update_body) : invoice_patch :=
  match ub_items body with
  | Some items =>
      let subtotal := reduce_subtotal items in
      let taxAmount := tax_of subtotal (rate_used existing body) in
      mkPatch (ub_status body) (ub_due_date body) (ub_notes body) (ub_terms body)
              (body_tax_rate body) (body_discount body)
              (just subtotal) (just taxAmount)
              (just (total_of subtotal taxAmount (discount_used existing body)))
              undefined undefined undefined undefined undefined undefined
  | None =>
      mkPatch (ub_status body) (ub_due_date body) (ub_notes body) (ub_terms body)
              (body_tax_rate body) (body_discount body)
              undefined undefined undefined undefined undefined undefined undefined
              undefined undefined
  end.

Definition replace_items (e : env) (id : uuid) (body : update_body) (s : db) : db :=
  match ub_items body with
  | Some items =>
      discard (insert_invoice_items (map_items e id 0 0 items)) (delete_items_of id s)
  | None => s
  end.

(** The completed Payment Records of an invoice. *)
Definition completed_payments (invoice_id : uuid) (s : db) : list payment :=
  filter (fun p => (pay_invoice_id p =? invoice_id)%nat
                   && payment_status_beq (pay_status p) pay_completed)
         (payments s).

Definition exactly_one_completed (invoice_id : uuid) (s : db) : Prop :=
  List.length (completed_payments invoice_id s) = 1%nat.

(** The Payment Record of a payment event. *)
Definition stripe_payment (e : env) (paymentIntent : payment_intent)
           (invoiceId userId : uuid) (reference : string) : payment :=
  mkPayment (uuidv4 e 0) invoiceId userId (pi_amount paymentIntent) (Some "stripe")
            (Some reference) pay_completed None.

(** Stores and requests of the worked cases. *)
Module Cases.

Import Scenario.

(** The invoice of the scenario as the store holds it (id 100, total
    132.50), with the status [st], and the store once it was created. *)
Definition invoice1_as (st : invoice_status) : invoice :=
  mkInvoice 100 1 10 "INV-2026-0001" (Some st) "2026-12-01"
            (Some 12500%Z) (Some 1000%Z) (Some 1250%Z) (Some 500%Z) (Some 13250%Z)
            None None None None None None None 0 t0.

Definition invoice1 : invoice := invoice1_as pending.

Definition db1 : db :=
  mkDb [alice; bob] [client_C; client_D] [invoice1]
       [mkItem 101 100 "Design" 200 5000 10000 0;
        mkItem 102 100 "Hosting" 100 2500 2500 1]
       [] (subscriptions db0)
       [mkAudit 1 "INVOICE_CREATED" 100 "INV-2026-0001" (Some (265 # 2))].

Definition manual : mark_paid_body := mkMarkPaidBody undefined undefined (just 132.5).

(** A payment method of 51 characters. *)
Definition long_method : string :=
  "bank transfer to the account named on the invoice 1".

Definition mark_paid_at (n : nat) : call :=
  api (at_ t0 n) 1 (POST_mark_paid 100 manual).

Definition intent (cents : Z) : payment_intent :=
  mkPaymentIntent "pi_1" cents (Some 100%nat) (Some 1%nat).

Definition succeeded_at (n : nat) (cents : Z) : call :=
  stripe (at_ t0 n) Date_of_seconds (Webhook.payment_intent_succeeded (intent cents)).

Definition status_only (status : string) : update_body :=
  mkUpdateBody None undefined undefined undefined (just status) undefined undefined.

(** The invoice of the scenario, marked paid by hand at [t0]. *)
Definition invoice1_paid : invoice :=
  mkInvoice 100 1 10 "INV-2026-0001" (Some paid) "2026-12-01"
            (Some 12500%Z) (Some 1000%Z) (Some 1250%Z) (Some 500%Z) (Some 13250%Z)
            None None (Some t0) (Some 13250%Z) (Some "manual") None None 0 t0.

Definition db_paid : db :=
  set_payments [mkPayment 200 100 1 13250 (Some "manual") None pay_completed None]
               (set_invoices [invoice1_paid] db1).

(** The invoice of the scenario, cancelled, and set back to draft. *)
Definition db_cancelled : db := set_invoices [invoice1_as cancelled] db1.

Definition db_draft : db := set_invoices [invoice1_as draft] db1.

(** A discount above subtotal plus tax. *)
Definition body_discount_200 : create_body :=
  mkCreateBody 10 two_items (just "2026-12-01") undefined undefined (just 10) (just 200).

(** Three units at 0.1 with a rate of 7.5, and half a unit at 0.25 with a
    rate of 100. *)
Definition body_tenths : create_body :=
  mkCreateBody 10 [mkItemInput (just "Stamps") 3 0.1] (just "2026-12-01")
               undefined undefined (just 7.5) undefined.

Definition body_eighth : create_body :=
  mkCreateBody 10 [mkItemInput (just "Half") 0.5 0.25] (just "2026-12-01")
               undefined undefined (just 100) undefined.

(** New items for the invoice of the scenario, with a discount of 50. *)
Definition body_new_items : update_body :=
  mkUpdateBody (Some two_items) undefined undefined undefined undefined undefined
               (just 50).

(** The tenant on the free plan, its client, and five creations on the first
    day of the month at 09:00. *)
Definition body_bob : create_body :=
  mkCreateBody 11 two_items (just "2026-12-01") undefined undefined undefined undefined.

Definition first_day_9h : Date := mkDate 2026 10 1 32400000%N.
Definition second_day_8h : Date := mkDate 2026 10 2 28800000%N.

Definition create_bob (d : Date) (n : nat) : call :=
  api (at_ d n) 2 (POST_invoices body_bob).

Definition db_five : db :=
  run [create_bob first_day_9h 1; create_bob first_day_9h 2; create_bob first_day_9h 3;
       create_bob first_day_9h 4; create_bob first_day_9h 5] db0.

End Cases.

(** The count the plan limit is described with: the tenant's invoices
    created in the calendar month of the current date. *)
Definition count_in_calendar_month (e : env) (userId : uuid) (s : db) : nat :=
  List.length
    (filter (fun i => (inv_user_id i =? userId)%nat
                      && (getFullYear (inv_created_at i) =? getFullYear (now e))%nat
                      && (getMonth (inv_created_at i) =? getMonth (now e))%nat)
            (invoices s)).

(** The store holds a paid invoice under the id [k]. *)
Definition paid_in (k : uuid) (s : db) : Prop :=
  exists i, In i (invoices s) /\ inv_id i = k /\ inv_status i = Some paid.

(** PRIMARY KEY(id) on invoices, as a property of a store. *)
Definition unique_ids (s : db) : Prop := NoDup (map inv_id (invoices s)).

(** Line items as the validation rules of the repository describe them:
    quantity above zero, price not below zero. *)
Definition valid_items (items : list item_input) : Prop :=
  Forall (fun item => 0 < item_quantity item /\ 0 <= item_price item) items.

(** A rate or a discount of a request that is not below zero. *)
Definition not_below_zero (v : js Q) : Prop :=
  match v with
  | just q => 0 <= q
  | _ => True
  end.

(** How one call may change the table of invoices: not at all, by an update
    of the rows under one id, by the deletion of the rows under one id, or
    by the insertion of one row that the store accepted. *)
Inductive evolve (l : list invoice) : list invoice -> Prop :=
| ev_same : evolve l l
| ev_update (id : uuid) (c : invoice_change) :
    evolve l (map (fun i => if (inv_id i =? id)%nat then apply_change c i else i) l)
| ev_delete (id : uuid) :
    evolve l (filter (fun i => negb (inv_id i =? id)%nat) l)
| ev_insert (row : invoice) :
    existsb (fun i => (inv_id i =? inv_id row)%nat) l = false ->
    existsb (fun i => (inv_user_id i =? inv_user_id row)%nat
                      && String.eqb (inv_invoice_number i) (inv_invoice_number row)) l
    = false ->
    evolve l (l ++ [row]).

(** UNIQUE(user_id, invoice_number), as a property of a table. *)
Definition numbers_unique (l : list invoice) : Prop :=
  NoDup (map (fun i => (inv_user_id i, inv_invoice_number i)) l).

(** What the update of a payment writes: status paid, paid_at, and the
    amount and the method as the columns hold them. *)
Definition paid_change (e : env) (amount : option Z) (method : option string)
  : invoice_change :=
  mkChange (Some (Some paid)) None None None None None None None None
           (Some (Some (now e))) (Some amount) (Some method) None None None.

(** What the update of a reminder writes. *)
Definition reminder_change (e : env) (invoice : invoice) : invoice_change :=
  mkChange None None None None None None None None None None None None None
           (Some (Some (now e))) (Some (inv_reminder_count invoice + 1)%nat).

(** A column that holds NULL or a DECIMAL(12, 2) value. *)
Definition column_12_2 (c : option Z) : Prop :=
  match c with
  | Some z => decimal_12_2 z
  | None => True
  end.

(** The store after the rows under [id] were changed by [c]. *)
Definition changed (id : uuid) (c : invoice_change) (s : db) : db :=
  set_invoices (map (fun i => if (inv_id i =? id)%nat then apply_change c i else i)
                    (invoices s)) s.

(** ** Notions used in the further statements *)

(** No item row and no payment row refers to the id [k]: the foreign keys
    to invoices hold for an id that no invoice carries. *)
Definition unreferenced (k : uuid) (s : db) : Prop :=
  (forall r, In r (invoice_items s) -> it_invoice_id r <> k)
  /\ (forall p, In p (payments s) -> pay_invoice_id p <> k).

(** Requests of the further worked cases. *)
Module MoreCases.

Import Scenario.

(** Items of which one has no description. *)
Definition body_bad_items : update_body :=
  mkUpdateBody (Some [mkItemInput (just "Design") 2 50; mkItemInput undefined 1 25])
               undefined undefined undefined undefined undefined undefined.

(** A rate of zero, with items. *)
Definition body_zero_rate : update_body :=
  mkUpdateBody (Some two_items) undefined undefined undefined undefined (just 0)
               undefined.

(** A new discount, without items. *)
Definition body_discount_only : update_body :=
  mkUpdateBody None undefined undefined undefined undefined undefined (just 50).

End MoreCases.

(** Reading a decimal numeral, leading zeros allowed. *)
Definition nat_of_numeral (s : string) : option nat :=
  option_map Nat.of_uint (NilEmpty.uint_of_string s).

(** Services that answer, and a mail service that throws. *)
Definition services_ok : collaborators :=
  mkCollaborators (fun _ _ => inr "%PDF") (fun _ _ _ => None).

Definition mail_down : collaborators :=
  mkCollaborators (fun _ _ => inr "%PDF")
                  (fun _ _ _ => Some (mkJsError "Error" (Some "connect ECONNREFUSED") None
                                                (Some (code_string "ESOCKET")) None)).

(** A Stripe client that accepts every request, and the parameters the
    payment link of the scenario's invoice is made with. *)
Definition stripe_accepts : stripe_client := fun _ => inr ("pi_1", "pi_1_secret").

Definition link_params : intent_params :=
  mkIntentParams (Some 13250%Z) "usd" 100 1 "INV-2026-0001" "Invoice INV-2026-0001"
                 "a@x.com".

(** The tables other than users and subscriptions, which only the invoice
    routes and the payment event write. *)
Definition same_invoicing (s s' : db) : Prop :=
  clients s' = clients s /\ invoices s' = invoices s
  /\ invoice_items s' = invoice_items s /\ payments s' = payments s
  /\ audit_logs s' = audit_logs s.

(** The kinds of Stripe events. *)
Definition writes_users (ev : Webhook.event) : bool :=
  match ev with
  | Webhook.checkout_session_completed _ | Webhook.customer_subscription_created _
  | Webhook.customer_subscription_updated _ | Webhook.customer_subscription_deleted _ => true
  | _ => false
  end.

Definition writes_subscriptions (ev : Webhook.event) : bool :=
  match ev with
  | Webhook.customer_subscription_created _ | Webhook.customer_subscription_updated _
  | Webhook.customer_subscription_deleted _ | Webhook.invoice_payment_failed _ => true
  | _ => false
  end.

Definition writes_invoices (ev : Webhook.event) : bool :=
  match ev with
  | Webhook.payment_intent_succeeded _ => true
  | _ => false
  end.

Definition writes_log (ev : Webhook.event) : bool :=
  match ev with
  | Webhook.invoice_paid _ | Webhook.invoice_payment_failed _ => true
  | _ => false
  end.

(** The rows of subscriptions that hold the external id [sid]. *)
Definition rows_of_subscription (sid : string) (s : db) : list subscription :=
  filter (fun r => eq_column (sub_stripe_subscription_id r) sid) (subscriptions s).

Definition other_subscriptions (sid : string) (s : db) : list subscription :=
  filter (fun r => negb (eq_column (sub_stripe_subscription_id r) sid)) (subscriptions s).

(** Subscription events of the worked cases: the status that Stripe gives
    an ended subscription, and a trial without user_id in the metadata. *)
Definition ended_object : subscription_object :=
  mkSubscriptionObject "sub_1" "cus_1" "canceled" (Some 1%nat) (Some pro) 1800000000.

Definition trial_without_user : subscription_object :=
  mkSubscriptionObject "sub_9" "cus_1" "trialing" None None 1800000000.

Definition trial_of_alice : subscription_object :=
  mkSubscriptionObject "sub_1" "cus_1" "trialing" (Some 1%nat) None 1800000000.

(** The status that an accepted subscription event stores. *)
Definition stored_status (st : subscription_status) : subscription_status :=
  match st with
  | sub_trialing => sub_active
  | _ => st
  end.

(** Bob after he opened a checkout, which stored his Stripe customer, with
    the five invoices of [Cases.db_five]; and the session of his checkout. *)
Definition bob_customer : user :=
  mkUser 2 "bob@example.com" "Bob" free None (Some "cus_2") None true.

Definition db_five_customer : db :=
  set_users [Scenario.alice; bob_customer] Cases.db_five.

Definition session_bob : checkout_session :=
  mkCheckoutSession (Some 2%nat) (Some pro) (Some "sub_2").

(** The rows of a tenant with the status [st], and those whose status is
    NULL. *)
Definition rows_in (userId : uuid) (st : invoice_status) (l : list invoice) : list invoice :=
  with_status st (filter (fun i => (inv_user_id i =? userId)%nat) l).

Definition without_status (l : list invoice) : list invoice :=
  filter (fun i => negb (is_some (inv_status i))) l.

(** An item of a request and the row that the store holds for it: the
    numbers of the item as the columns round them. *)
Definition stored_as (item : item_input) (r : invoice_item) : Prop :=
  numeric_column 10 (JSON_number (item_quantity item)) = Some (Some (it_quantity r))
  /\ numeric_column 12 (JSON_number (item_price item)) = Some (Some (it_unit_price r))
  /\ numeric_column 12 (item_amount item) = Some (Some (it_amount r)).

(** What the update of the send route writes. *)
Definition pending_change : invoice_change :=
  mkChange (Some (Some pending)) None None None None None None None None None None None
           None None None.

(** The payment intent that Stripe makes of the parameters of a request:
    its amount and its metadata are those of the request. *)
Definition intent_of_params (id : string) (p : intent_params) : payment_intent :=
  mkPaymentIntent id (or_else (ip_amount p) 0%Z) (Some (ip_metadata_invoice_id p))
                  (Some (ip_metadata_user_id p)).

(** An invoice row with another stripe_payment_intent_id. *)
Definition with_intent (intent : option string) (i : invoice) : invoice :=
  mkInvoice (inv_id i) (inv_user_id i) (inv_client_id i) (inv_invoice_number i)
            (inv_status i) (inv_due_date i) (inv_subtotal i) (inv_tax_rate i)
            (inv_tax_amount i) (inv_discount_amount i) (inv_total i) (inv_notes i)
            (inv_terms i) (inv_paid_at i) (inv_paid_amount i) (inv_payment_method i)
            intent (inv_reminder_sent_at i) (inv_reminder_count i) (inv_created_at i).

(** * Properties of the numbers *)

Local Open Scope Q_scope.

Lemma pow2_pos e : 0 < pow2 e.
Proof. apply Qpower_0_lt. reflexivity. Qed.

Lemma pow2_le e1 e2 : (e1 <= e2)%Z -> pow2 e1 <= pow2 e2.
Proof. intros H. apply Qpower_le_compat_l; [exact H|]. discriminate. Qed.

Lemma pow2_lt_inv e1 e2 : pow2 e1 < pow2 e2 -> (e1 < e2)%Z.
Proof. intros H. apply (Qpower_lt_compat_l_inv 2); [exact H|reflexivity]. Qed.

Lemma pow2_Z (k : Z) : (0 <= k)%Z -> pow2 k == inject_Z (2 ^ k).
Proof. intros H. unfold pow2. now rewrite (Zpower_Qpower 2 k H). Qed.

Lemma pow2_plus a b : pow2 (a + b) == pow2 a * pow2 b.
Proof. apply Qpower_plus. discriminate. Qed.

Lemma round_half_even_close q :
  Qabs (inject_Z (round_half_even q) - q) <= 1 # 2.
Proof.
  unfold round_half_even.
  pose proof (Qfloor_le q) as Hlo. pose proof (Qlt_floor q) as Hhi.
  rewrite inject_Z_plus in Hhi. change (inject_Z 1) with 1 in Hhi.
  apply Qabs_Qle_condition.
  destruct (Qcompare_spec (q - inject_Z (Qfloor q)) (1 # 2)) as [E|E|E];
    [destruct (Z.even (Qfloor q))| |];
    rewrite ?inject_Z_plus; change (inject_Z 1) with 1; split; lra.
Qed.

Lemma round_half_even_nonneg q : 0 <= q -> (0 <= round_half_even q)%Z.
Proof.
  intros H. unfold round_half_even.
  assert (Hf : (0 <= Qfloor q)%Z).
  { change 0%Z with (Qfloor 0). now apply Qfloor_resp_le. }
  destruct (Qcompare _ _); [destruct (Z.even _)| |]; lia.
Qed.

Lemma Q_as_quotient (q : Q) : q == inject_Z (Qnum q) / inject_Z (Zpos (Qden q)).
Proof. destruct q as [n d]. cbn [Qnum Qden]. apply Qmake_Qdiv. Qed.

Lemma ilog2_le q L : 0 < q -> q < pow2 (L + 1) -> (ilog2 q <= L)%Z.
Proof.
  intros Hq Hlt. unfold ilog2.
  set (a := Z.log2 (Qnum q)). set (b := Z.log2 (Zpos (Qden q))).
  destruct (Qle_bool (pow2 (a - b)) q) eqn:E.
  - apply Qle_bool_iff in E.
    assert (H : pow2 (a - b) < pow2 (L + 1)) by lra.
    apply pow2_lt_inv in H. lia.
  - assert (Hn : (0 < Qnum q)%Z).
    { destruct q as [n d]. unfold Qlt in Hq. cbn in *. lia. }
    assert (Ha : (0 <= a)%Z) by apply Z.log2_nonneg.
    assert (Hb : (0 <= b)%Z) by apply Z.log2_nonneg.
    destruct (Z.log2_spec _ Hn) as [Hn1 _]. fold a in Hn1.
    destruct (Z.log2_spec (Zpos (Qden q)) eq_refl) as [_ Hd2]. fold b in Hd2.
    assert (Hlow : pow2 (a - b - 1) < q).
    { rewrite (Q_as_quotient q).
      replace (a - b - 1)%Z with (a + - (b + 1))%Z by lia.
      rewrite pow2_plus. unfold pow2 at 2. rewrite Qpower_opp. fold (pow2 (b + 1)).
      rewrite (pow2_Z a Ha), (pow2_Z (b + 1)) by lia.
      assert (H1 : inject_Z (2 ^ a) <= inject_Z (Qnum q)) by (rewrite <- Zle_Qle; exact Hn1).
      assert (H2 : inject_Z (Zpos (Qden q)) < inject_Z (2 ^ (b + 1))).
      { rewrite <- Zlt_Qlt. replace (b + 1)%Z with (Z.succ b) by lia. exact Hd2. }
      assert (H3 : 0 < inject_Z (Zpos (Qden q))) by (rewrite <- (Zlt_Qlt 0); lia).
      assert (H4 : 0 < inject_Z (2 ^ a)).
      { rewrite <- (Zlt_Qlt 0). apply Z.pow_pos_nonneg; lia. }
      unfold Qdiv.
      apply Qlt_le_trans with (inject_Z (2 ^ a) * / inject_Z (Zpos (Qden q))).
      - apply Qmult_lt_l; [exact H4|].
        apply -> Qinv_lt_contravar; [exact H2| lra | exact H3].
      - apply Qmult_le_compat_r; [exact H1|].
        apply Qlt_le_weak, Qinv_lt_0_compat. exact H3. }
    assert (H : pow2 (a - b - 1) < pow2 (L + 1)) by lra.
    apply pow2_lt_inv in H. lia.
Qed.

(** The value that [binary64] rounds to is within half a unit of the last
    place. *)
Lemma binary64_error q L :
  0 < q -> q < pow2 (L + 1) -> (L <= 1000)%Z ->
  exists r, binary64 q = Some r
            /\ 0 <= r
            /\ Qabs (r - q) <= pow2 (Z.max (L - 52) (-1074)) * (1 # 2).
Proof.
  intros Hq Hlt HL. unfold binary64.
  pose proof (ilog2_le q L Hq Hlt) as Hlog.
  set (e := Z.max (ilog2 q - 52) (-1074)).
  set (E := Z.max (L - 52) (-1074)).
  assert (HeE : pow2 e <= pow2 E) by (apply pow2_le; lia).
  pose proof (pow2_pos e) as Hp.
  set (m := round_half_even (q / pow2 e)).
  pose proof (round_half_even_close (q / pow2 e)) as Hm. fold m in Hm.
  assert (Hm0 : (0 <= m)%Z).
  { apply round_half_even_nonneg. apply Qle_shift_div_l; [exact Hp|lra]. }
  assert (Hq' : q == (q / pow2 e) * pow2 e) by (field; lra).
  set (t := q / pow2 e) in *.
  apply Qabs_Qle_condition in Hm.
  assert (Herr : Qabs (inject_Z m * pow2 e - q) <= pow2 e * (1 # 2)).
  { apply Qabs_Qle_condition. rewrite Hq'. split.
    - assert (H : (t - (1 # 2)) * pow2 e <= inject_Z m * pow2 e)
        by (apply Qmult_le_compat_r; lra).
      lra.
    - assert (H : inject_Z m * pow2 e <= (t + (1 # 2)) * pow2 e)
        by (apply Qmult_le_compat_r; lra).
      lra. }
  assert (Hover : Qle_bool (pow2 1024) (inject_Z m * pow2 e) = false).
  { destruct (Qle_bool _ _) eqn:B; [|reflexivity].
    apply Qle_bool_iff in B. apply Qabs_Qle_condition in Herr.
    assert (H1 : pow2 (L + 1) <= pow2 1001) by (apply pow2_le; lia).
    assert (H2 : pow2 E <= pow2 1001) by (apply pow2_le; lia).
    assert (H3 : pow2 1001 * 2 <= pow2 1024).
    { change 2 with (pow2 1) at 1. rewrite <- pow2_plus. apply pow2_le. lia. }
    pose proof (pow2_pos 1001). lra. }
  rewrite Hover. eexists. split; [reflexivity|]. rewrite Qred_correct. split.
  - apply Qmult_le_0_compat; [rewrite <- (Zle_Qle 0); exact Hm0|lra].
  - lra.
Qed.

Lemma ilog2_spec q : 0 < q -> pow2 (ilog2 q) <= q /\ q < pow2 (ilog2 q + 1).
Proof.
  intros Hq. unfold ilog2.
  set (a := Z.log2 (Qnum q)). set (b := Z.log2 (Zpos (Qden q))).
  assert (Hn : (0 < Qnum q)%Z).
  { destruct q as [n d]. unfold Qlt in Hq. cbn in *. lia. }
  assert (Ha : (0 <= a)%Z) by apply Z.log2_nonneg.
  assert (Hb : (0 <= b)%Z) by apply Z.log2_nonneg.
  destruct (Z.log2_spec _ Hn) as [Hn1 Hn2]. fold a in Hn1, Hn2.
  destruct (Z.log2_spec (Zpos (Qden q)) eq_refl) as [Hd1 Hd2]. fold b in Hd1, Hd2.
  assert (H3 : 0 < inject_Z (Zpos (Qden q))) by (rewrite <- (Zlt_Qlt 0); lia).
  assert (Hlow : pow2 (a - b - 1) < q).
  { rewrite (Q_as_quotient q).
    replace (a - b - 1)%Z with (a + - (b + 1))%Z by lia.
    rewrite pow2_plus. unfold pow2 at 2. rewrite Qpower_opp. fold (pow2 (b + 1)).
    rewrite (pow2_Z a Ha), (pow2_Z (b + 1)) by lia.
    assert (H1 : inject_Z (2 ^ a) <= inject_Z (Qnum q)) by (rewrite <- Zle_Qle; exact Hn1).
    assert (H2 : inject_Z (Zpos (Qden q)) < inject_Z (2 ^ (b + 1))).
    { rewrite <- Zlt_Qlt. replace (b + 1)%Z with (Z.succ b) by lia. exact Hd2. }
    assert (H4 : 0 < inject_Z (2 ^ a)).
    { rewrite <- (Zlt_Qlt 0). apply Z.pow_pos_nonneg; lia. }
    unfold Qdiv.
    apply Qlt_le_trans with (inject_Z (2 ^ a) * / inject_Z (Zpos (Qden q))).
    - apply Qmult_lt_l; [exact H4|].
      apply -> Qinv_lt_contravar; [exact H2| lra | exact H3].
    - apply Qmult_le_compat_r; [exact H1|].
      apply Qlt_le_weak, Qinv_lt_0_compat. exact H3. }
  assert (Hup : q < pow2 (a - b + 1)).
  { rewrite (Q_as_quotient q).
    replace (a - b + 1)%Z with ((a + 1) + - b)%Z by lia.
    rewrite pow2_plus. unfold pow2 at 2. rewrite Qpower_opp. fold (pow2 b).
    rewrite (pow2_Z (a + 1)), (pow2_Z b Hb) by lia.
    assert (H1 : inject_Z (Qnum q) < inject_Z (2 ^ (a + 1))).
    { rewrite <- Zlt_Qlt. replace (a + 1)%Z with (Z.succ a) by lia. exact Hn2. }
    assert (H2 : inject_Z (2 ^ b) <= inject_Z (Zpos (Qden q))) by (rewrite <- Zle_Qle; exact Hd1).
    assert (H4 : 0 < inject_Z (2 ^ b)).
    { rewrite <- (Zlt_Qlt 0). apply Z.pow_pos_nonneg; lia. }
    assert (H5 : 0 < inject_Z (2 ^ (a + 1))).
    { rewrite <- (Zlt_Qlt 0). apply Z.pow_pos_nonneg; lia. }
    unfold Qdiv.
    apply Qlt_le_trans with (inject_Z (2 ^ (a + 1)) * / inject_Z (Zpos (Qden q))).
    - apply Qmult_lt_r; [apply Qinv_lt_0_compat; exact H3|exact H1].
    - apply Qmult_le_l; [exact H5|].
      apply Qle_shift_inv_l; [exact H4|].
      setoid_replace (/ inject_Z (Zpos (Qden q)) * inject_Z (2 ^ b))
        with (inject_Z (2 ^ b) / inject_Z (Zpos (Qden q))) by (field; lra).
      apply Qle_shift_div_r; [exact H3|lra]. }
  destruct (Qle_bool (pow2 (a - b)) q) eqn:E.
  - apply Qle_bool_iff in E. split; assumption.
  - split; [apply Qlt_le_weak; exact Hlow|].
    replace (a - b - 1 + 1)%Z with (a - b)%Z by lia.
    destruct (Qlt_le_dec q (pow2 (a - b))) as [H|H]; [exact H|].
    apply Qle_bool_iff in H. congruence.
Qed.

Lemma ilog2_ge q k : 0 < q -> pow2 k <= q -> (k <= ilog2 q)%Z.
Proof.
  intros Hq Hk. destruct (ilog2_spec q Hq) as [_ Hup].
  assert (H : pow2 k < pow2 (ilog2 q + 1)) by lra.
  apply pow2_lt_inv in H. lia.
Qed.

Lemma ilog2_comp q q' : 0 < q -> q == q' -> ilog2 q = ilog2 q'.
Proof.
  intros Hq E. assert (Hq' : 0 < q') by (rewrite <- E; exact Hq).
  destruct (ilog2_spec q Hq) as [H1 H2]. destruct (ilog2_spec q' Hq') as [H3 H4].
  assert (H1' : pow2 (ilog2 q) <= q') by lra.
  assert (H2' : q' < pow2 (ilog2 q + 1)) by lra.
  pose proof (ilog2_ge q' _ Hq' H1'). pose proof (ilog2_le q' _ Hq' H2').
  lia.
Qed.

#[global] Instance round_half_even_comp : Proper (Qeq ==> eq) round_half_even.
Proof.
  intros q q' E. unfold round_half_even. rewrite (Qfloor_comp _ _ E).
  assert (E' : q - inject_Z (Qfloor q') == q' - inject_Z (Qfloor q')) by (rewrite E; reflexivity).
  rewrite (Qcompare_comp _ _ E' (1 # 2) (1 # 2) (Qeq_refl _)). reflexivity.
Qed.

Lemma binary64_comp q q' : 0 < q -> q == q' -> binary64 q = binary64 q'.
Proof.
  intros Hq E. unfold binary64. rewrite (ilog2_comp q q' Hq E).
  set (e := Z.max (ilog2 q' - 52) (-1074)).
  assert (E1 : q / pow2 e == q' / pow2 e) by (rewrite E; reflexivity).
  rewrite (round_half_even_comp _ _ E1). reflexivity.
Qed.

#[global] Instance double_comp : Proper (Qeq ==> eq) double.
Proof.
  intros q q' E. unfold double.
  rewrite (Qcompare_comp _ _ E 0 0 (Qeq_refl _)).
  destruct (Qcompare_spec q' 0) as [H|H|H]; [reflexivity| |].
  - assert (Hq : 0 < - q) by (rewrite E; lra).
    assert (E' : - q == - q') by (rewrite E; reflexivity).
    now rewrite (binary64_comp _ _ Hq E').
  - assert (Hq : 0 < q) by (rewrite E; exact H).
    now rewrite (binary64_comp _ _ Hq E).
Qed.

Lemma pow10_pos j : 0 < pow10 j.
Proof. apply Qpower_0_lt. reflexivity. Qed.

Lemma pow10_le j1 j2 : (j1 <= j2)%Z -> pow10 j1 <= pow10 j2.
Proof. intros H. apply Qpower_le_compat_l; [exact H|]. discriminate. Qed.

Lemma pow10_Z (k : Z) : (0 <= k)%Z -> pow10 k == inject_Z (10 ^ k).
Proof. intros H. unfold pow10. now rewrite (Zpower_Qpower 10 k H). Qed.

Lemma pow10_plus a b : pow10 (a + b) == pow10 a * pow10 b.
Proof. apply Qpower_plus. discriminate. Qed.

Lemma Qfloor_unique (t : Q) (z : Z) :
  inject_Z z <= t -> t < inject_Z z + 1 -> Qfloor t = z.
Proof.
  intros H1 H2. pose proof (Qfloor_le t) as H3. pose proof (Qlt_floor t) as H4.
  rewrite inject_Z_plus in H4. change (inject_Z 1) with 1 in H4.
  assert (A : inject_Z (Qfloor t) < inject_Z (z + 1)).
  { rewrite inject_Z_plus. change (inject_Z 1) with 1. lra. }
  assert (B : inject_Z z < inject_Z (Qfloor t + 1)).
  { rewrite inject_Z_plus. change (inject_Z 1) with 1. lra. }
  rewrite <- Zlt_Qlt in A, B. lia.
Qed.

Lemma Qceiling_unique (t : Q) (z : Z) :
  inject_Z z - 1 < t -> t <= inject_Z z -> Qceiling t = z.
Proof.
  intros H1 H2. unfold Qceiling.
  rewrite (Qfloor_unique (- t) (- z)); [lia| |]; rewrite inject_Z_opp; lra.
Qed.

Lemma Z_close_eq (a b : Z) : Qabs (inject_Z a - inject_Z b) < 1 -> a = b.
Proof.
  intros H. apply Qabs_Qlt_condition in H. destruct H as [H1 H2].
  assert (A : inject_Z a < inject_Z (b + 1)).
  { rewrite inject_Z_plus. change (inject_Z 1) with 1. lra. }
  assert (B : inject_Z b < inject_Z (a + 1)).
  { rewrite inject_Z_plus. change (inject_Z 1) with 1. lra. }
  rewrite <- Zlt_Qlt in A, B. lia.
Qed.

Lemma on_grid_sound x j v :
  on_grid x j = Some v ->
  exists c : Z,
    v = Qred (inject_Z c * pow10 j)
    /\ number_eqb (double (inject_Z c * pow10 j)) (Finite x) = true
    /\ (c = Qfloor (x / pow10 j) \/ c = Qceiling (x / pow10 j)).
Proof.
  unfold on_grid.
  destruct (number_eqb (double (inject_Z (Qfloor (x / pow10 j)) * pow10 j)) (Finite x)) eqn:Elo;
    destruct (number_eqb (double (inject_Z (Qceiling (x / pow10 j)) * pow10 j)) (Finite x))
      eqn:Ehi;
    try discriminate.
  all: try (destruct (Qcompare _ _); [destruct (Z.even _)| |]).
  all: intros H; injection H as <-.
  all: first [ exists (Qfloor (x / pow10 j));
               split; [reflexivity|split; [assumption|now left]]
             | exists (Qceiling (x / pow10 j));
               split; [reflexivity|split; [assumption|now right]] ].
Qed.

Lemma on_grid_complete x j c :
  c = Qfloor (x / pow10 j) \/ c = Qceiling (x / pow10 j) ->
  number_eqb (double (inject_Z c * pow10 j)) (Finite x) = true ->
  on_grid x j <> None.
Proof.
  intros Hc Hr. unfold on_grid.
  destruct (number_eqb (double (inject_Z (Qfloor (x / pow10 j)) * pow10 j)) (Finite x)) eqn:Elo;
    destruct (number_eqb (double (inject_Z (Qceiling (x / pow10 j)) * pow10 j)) (Finite x))
      eqn:Ehi.
  all: try (destruct (Qcompare _ _); [destruct (Z.even _)| |]); try discriminate.
  destruct Hc as [-> | ->]; congruence.
Qed.

Lemma shortest_from_first x fuel :
  forall j j1,
    (j1 <= j)%Z -> (Z.to_nat (j - j1) < fuel)%nat -> on_grid x j1 <> None ->
    exists j' v, (j1 <= j' <= j)%Z /\ on_grid x j' = Some v
                 /\ shortest_from x j fuel = Some v.
Proof.
  induction fuel as [|fuel IH]; intros j j1 Hj Hfuel Hgrid; [lia|].
  cbn [shortest_from]. destruct (on_grid x j) as [v|] eqn:E.
  - exists j, v. repeat split; [lia|lia|exact E].
  - assert (j1 <> j) by (intros ->; congruence).
    destruct (IH (j - 1)%Z j1) as (j' & v & Hj' & Hv & Hs); [lia|lia|exact Hgrid|].
    exists j', v. repeat split; [lia|lia|exact Hv|exact Hs].
Qed.

Lemma binary64_nonneg q r : 0 < q -> binary64 q = Some r -> 0 <= r.
Proof.
  intros Hq. unfold binary64. cbv zeta.
  destruct (Qle_bool _ _); [discriminate|].
  match goal with |- Some ?t = _ -> _ => set (r0 := t) end.
  intros H. injection H as <-. unfold r0.
  rewrite Qred_correct.
  pose proof (pow2_pos (Z.max (ilog2 q - 52) (-1074))) as Hp.
  apply Qmult_le_0_compat; [|lra].
  rewrite <- (Zle_Qle 0). apply round_half_even_nonneg.
  apply Qle_shift_div_l; [exact Hp|lra].
Qed.

(** What reads back as a number above zero is above zero and rounds to it. *)
Lemma reads_back_pos w x :
  0 < x -> number_eqb (double w) (Finite x) = true ->
  0 < w /\ exists x', binary64 w = Some x' /\ x' == x.
Proof.
  intros Hx. unfold double.
  destruct (Qcompare_spec w 0) as [H|H|H].
  - cbn [number_eqb]. intros E. apply Qeq_bool_iff in E. lra.
  - destruct (binary64 (- w)) as [r|] eqn:B; cbn [number_eqb]; [|discriminate].
    intros E. apply Qeq_bool_iff in E.
    pose proof (Qred_correct (- r)) as Hr.
    assert (Hw : 0 < - w) by lra.
    pose proof (binary64_nonneg _ _ Hw B). lra.
  - destruct (binary64 w) as [r|] eqn:B; cbn [number_eqb]; [|discriminate].
    intros E. apply Qeq_bool_iff in E. split; [exact H|]. now exists r.
Qed.

Lemma first_grid_bounds x :
  pow2 (-7) <= x -> x < pow2 34 -> (-2 <= first_grid x <= 12)%Z.
Proof.
  intros Hlo Hhi. pose proof (pow2_pos (-7)) as Hp.
  assert (Hx : 0 < x) by lra.
  pose proof (ilog2_ge x (-7) Hx Hlo) as H1.
  pose proof (ilog2_le x 33 Hx Hhi) as H2.
  unfold first_grid. destruct (Z.leb_spec 0 (ilog2 x + 1)) as [H|H].
  - assert ((ilog2 x + 1) / 3 <= 34 / 3)%Z by (apply Z.div_le_mono; lia).
    assert (0 <= (ilog2 x + 1) / 3)%Z by (apply Z.div_pos; lia).
    change (34 / 3)%Z with 11%Z in *. lia.
  - assert (-6 / 4 <= (ilog2 x + 1) / 4)%Z by (apply Z.div_le_mono; lia).
    assert ((ilog2 x + 1) / 4 <= 0 / 4)%Z by (apply Z.div_le_mono; lia).
    change (-6 / 4)%Z with (-2)%Z in *. change (0 / 4)%Z with 0%Z in *. lia.
Qed.

(** The number read from a DECIMAL(12, 2) value is written by
    JSON.stringify as that value. *)
Lemma shortest_of_decimal z q r x :
  (0 < z < 10 ^ 12)%Z -> q * 100 == inject_Z z -> binary64 q = Some r -> x == r ->
  shortest x = Some (Qred q).
Proof.
  intros [Hz1 Hz2] Hq B Hx.
  assert (Hz1' : 1 <= inject_Z z) by (rewrite <- (Zle_Qle 1); lia).
  assert (Hz2' : inject_Z z < 1000000000000).
  { change 1000000000000 with (inject_Z (10 ^ 12)). rewrite <- Zlt_Qlt. exact Hz2. }
  assert (P41 : pow2 41 == 2199023255552) by reflexivity.
  assert (P34 : pow2 34 == 17179869184) by reflexivity.
  assert (Pm7 : pow2 (-7) == 1 # 128) by reflexivity.
  assert (Pm12 : pow2 (-12) * (1 # 2) == 1 # 8192) by reflexivity.
  assert (T12 : pow10 12 == 1000000000000) by reflexivity.
  assert (Tm2 : pow10 (-2) == 1 # 100) by reflexivity.
  assert (Hq0 : 0 < q) by lra.
  destruct (binary64_error q 40 Hq0) as (r' & B' & _ & Herr);
    [change (pow2 (40 + 1)) with (pow2 41); lra|lia|].
  rewrite B in B'. injection B' as <-.
  change (Z.max (40 - 52) (-1074)) with (-12)%Z in Herr.
  apply Qabs_Qle_condition in Herr.
  assert (Hx0 : 0 < x) by lra.
  destruct (first_grid_bounds x) as [Hj1 Hj2]; [lra|lra|].
  assert (Hgrid : on_grid x (-2) <> None).
  { apply (on_grid_complete x (-2) z).
    - assert (Ht : x / pow10 (-2) == x * 100) by (rewrite Tm2; field).
      destruct (Qlt_le_dec (x * 100) (inject_Z z)) as [H|H].
      + right. symmetry. rewrite (Qceiling_comp _ _ Ht).
        apply Qceiling_unique; lra.
      + left. symmetry. rewrite (Qfloor_comp _ _ Ht).
        apply Qfloor_unique; lra.
    - assert (E : inject_Z z * pow10 (-2) == q) by (rewrite Tm2; lra).
      rewrite (double_comp _ _ E). unfold double.
      apply Qgt_alt in Hq0. rewrite Hq0, B. cbn [number_eqb].
      apply Qeq_bool_iff. lra. }
  destruct (shortest_from_first x 1200 (first_grid x) (-2)) as (j' & v & Hj' & Hv & Hs);
    [lia|lia|exact Hgrid|].
  unfold shortest. rewrite Hs. f_equal.
  destruct (on_grid_sound x j' v Hv) as (c & -> & Hread & Hc).
  apply Qred_complete.
  destruct (reads_back_pos _ x Hx0 Hread) as (Hw0 & x' & Bw & Hx').
  pose proof (pow10_pos j') as Hg.
  assert (Hg12 : pow10 j' <= 1000000000000).
  { rewrite <- T12. apply pow10_le. lia. }
  assert (Hc' : inject_Z c < x / pow10 j' + 1).
  { destruct Hc as [-> | ->].
    - pose proof (Qfloor_le (x / pow10 j')). lra.
    - pose proof (Qceiling_lt (x / pow10 j')) as H.
      unfold Z.sub in H. rewrite inject_Z_plus, inject_Z_opp in H.
      change (inject_Z 1) with 1 in H. lra. }
  assert (Hw : inject_Z c * pow10 j' < x + pow10 j').
  { assert (H : inject_Z c * pow10 j' < (x / pow10 j' + 1) * pow10 j')
      by (apply Qmult_lt_r; assumption).
    assert (H' : (x / pow10 j' + 1) * pow10 j' == x + pow10 j') by (field; lra).
    lra. }
  destruct (binary64_error (inject_Z c * pow10 j') 40 Hw0) as (x'' & Bw' & _ & Herr');
    [change (pow2 (40 + 1)) with (pow2 41); lra|lia|].
  rewrite Bw in Bw'. injection Bw' as <-.
  change (Z.max (40 - 52) (-1074)) with (-12)%Z in Herr'.
  apply Qabs_Qle_condition in Herr'.
  assert (Hint : inject_Z c * pow10 j' * 100 == inject_Z (c * 10 ^ (j' + 2))).
  { rewrite inject_Z_mult, <- (pow10_Z (j' + 2)) by lia.
    rewrite pow10_plus. change (pow10 2) with 100. ring. }
  assert (Heq : (c * 10 ^ (j' + 2))%Z = z).
  { apply Z_close_eq. apply Qabs_Qlt_condition. lra. }
  rewrite Heq in Hint. lra.
Qed.

Lemma round_half_away_Z t z : t == inject_Z z -> round_half_away t = z.
Proof.
  intros E. unfold round_half_away.
  rewrite (Qcompare_comp _ _ E 0 0 (Qeq_refl _)).
  destruct (Qcompare (inject_Z z) 0).
  - apply Qfloor_unique; lra.
  - rewrite (Qfloor_unique (- t + (1 # 2)) (- z)); [lia| |]; rewrite inject_Z_opp; lra.
  - apply Qfloor_unique; lra.
Qed.

Lemma decimal_in_Z p v z :
  v * 100 == inject_Z z -> (Z.abs z < 10 ^ p)%Z -> decimal_in p v = Some z.
Proof.
  intros E H. unfold decimal_in. rewrite (round_half_away_Z _ _ E).
  apply Z.ltb_lt in H. now rewrite H.
Qed.

Lemma f_equal_option_decimal (o : option Z) (z : Z) :
  o = Some z ->
  match o with Some z' => Some (Some z') | None => None end = Some (Some z).
Proof. now intros ->. Qed.

(** What is read from a DECIMAL(p, 2) column, p up to 12, and written to
    such a column again is the value itself. *)
Lemma decimal_round_trip p z :
  (p <= 12)%Z -> (Z.abs z < 10 ^ p)%Z ->
  numeric_column p (Number_of_decimal z) = Some (Some z).
Proof.
  intros Hp Hz.
  assert (H12 : (10 ^ p <= 10 ^ 12)%Z) by (apply Z.pow_le_mono_r; lia).
  assert (P41 : pow2 41 == 2199023255552) by reflexivity.
  assert (Pm12 : pow2 (-12) * (1 # 2) == 1 # 8192) by reflexivity.
  unfold numeric_column, Number_of_decimal.
  destruct (Z.lt_trichotomy z 0) as [Hneg|[->|Hpos]].
  - set (q := inject_Z z / 100).
    assert (Hz' : 1 <= inject_Z (- z)) by (rewrite <- (Zle_Qle 1); lia).
    assert (Hz2 : inject_Z (- z) < 1000000000000).
    { change 1000000000000 with (inject_Z (10 ^ 12)). rewrite <- Zlt_Qlt. lia. }
    rewrite inject_Z_opp in Hz', Hz2.
    assert (Hq : q * 100 == inject_Z z) by (unfold q; field).
    assert (Hq0 : 0 < - q) by lra.
    destruct (binary64_error (- q) 40 Hq0) as (r & B & _ & Herr);
      [change (pow2 (40 + 1)) with (pow2 41); lra|lia|].
    change (Z.max (40 - 52) (-1074)) with (-12)%Z in Herr.
    apply Qabs_Qle_condition in Herr.
    unfold double. assert (Hlt : Qcompare q 0 = Lt) by (apply (proj1 (Qlt_alt _ _)); lra).
    rewrite Hlt, B. cbn [JSON_of_number].
    pose proof (Qred_correct (- r)) as Hr.
    assert (Hlt' : Qcompare (Qred (- r)) 0 = Lt) by (apply (proj1 (Qlt_alt _ _)); lra).
    rewrite Hlt'.
    rewrite (shortest_of_decimal (- z) (- q) r (- Qred (- r))); [|lia| |exact B|lra].
    2:{ rewrite inject_Z_opp. lra. }
    apply f_equal_option_decimal.
    pose proof (Qred_correct (- q)) as H1.
    pose proof (Qred_correct (- Qred (- q))) as H2.
    apply decimal_in_Z; [lra|exact Hz].
  - change (JSON_of_number (double (inject_Z 0 / 100))) with (Some 0).
    apply f_equal_option_decimal. apply decimal_in_Z; [reflexivity|exact Hz].
  - set (q := inject_Z z / 100).
    assert (Hz' : 1 <= inject_Z z) by (rewrite <- (Zle_Qle 1); lia).
    assert (Hz2 : inject_Z z < 1000000000000).
    { change 1000000000000 with (inject_Z (10 ^ 12)). rewrite <- Zlt_Qlt. lia. }
    assert (Hq : q * 100 == inject_Z z) by (unfold q; field).
    assert (Hq0 : 0 < q) by lra.
    destruct (binary64_error q 40 Hq0) as (r & B & _ & Herr);
      [change (pow2 (40 + 1)) with (pow2 41); lra|lia|].
    change (Z.max (40 - 52) (-1074)) with (-12)%Z in Herr.
    apply Qabs_Qle_condition in Herr.
    unfold double. assert (Hgt : Qcompare q 0 = Gt) by (apply (proj1 (Qgt_alt _ _)); lra).
    rewrite Hgt, B. cbn [JSON_of_number].
    assert (Hgt' : Qcompare r 0 = Gt) by (apply (proj1 (Qgt_alt _ _)); lra).
    rewrite Hgt'.
    rewrite (shortest_of_decimal z q r r); [|lia|exact Hq|exact B|reflexivity].
    apply f_equal_option_decimal.
    pose proof (Qred_correct q) as H1.
    apply decimal_in_Z; [lra|exact Hz].
Qed.

Lemma double_error q L :
  Qabs q < pow2 (L + 1) -> (L <= 1000)%Z ->
  exists r, double q = Finite r
            /\ Qabs (r - q) <= pow2 (Z.max (L - 52) (-1074)) * (1 # 2)
            /\ (0 <= q -> 0 <= r) /\ (q <= 0 -> r <= 0).
Proof.
  intros Hq HL. unfold double.
  pose proof (pow2_pos (Z.max (L - 52) (-1074))) as Hp.
  destruct (Qcompare_spec q 0) as [E|E|E].
  - exists 0. repeat split; try lra.
    apply Qabs_Qle_condition. lra.
  - assert (Hq0 : 0 < - q) by lra.
    assert (Hq1 : - q < pow2 (L + 1)).
    { rewrite <- (Qabs_neg q); [exact Hq|lra]. }
    destruct (binary64_error (- q) L Hq0 Hq1 HL) as (r & B & Hr & Herr).
    rewrite B. exists (Qred (- r)). pose proof (Qred_correct (- r)) as Hred.
    apply Qabs_Qle_condition in Herr.
    repeat split; try lra. apply Qabs_Qle_condition. lra.
  - assert (Hq1 : q < pow2 (L + 1)).
    { rewrite <- (Qabs_pos q); [exact Hq|lra]. }
    destruct (binary64_error q L E Hq1 HL) as (r & B & Hr & Herr).
    rewrite B. exists r. apply Qabs_Qle_condition in Herr.
    repeat split; try lra. apply Qabs_Qle_condition. lra.
Qed.

Lemma Number_of_decimal_close z :
  (Z.abs z < 10 ^ 12)%Z ->
  exists r, Number_of_decimal z = Finite r /\ Qabs (r - inject_Z z / 100) <= 1 # 8192.
Proof.
  intros Hz. unfold Number_of_decimal.
  assert (P41 : pow2 41 == 2199023255552) by reflexivity.
  assert (Pm12 : pow2 (-12) * (1 # 2) == 1 # 8192) by reflexivity.
  assert (Hz1 : - (1000000000000) < inject_Z z < 1000000000000).
  { change 1000000000000 with (inject_Z (10 ^ 12)). rewrite <- inject_Z_opp.
    rewrite <- !Zlt_Qlt. lia. }
  set (q := inject_Z z / 100).
  assert (Hq : q * 100 == inject_Z z) by (unfold q; field).
  destruct (double_error q 40) as (r & D & Herr & _); [|lia|].
  - change (pow2 (40 + 1)) with (pow2 41). apply Qabs_Qlt_condition. lra.
  - exists r. split; [exact D|].
    change (Z.max (40 - 52) (-1074)) with (-12)%Z in Herr. lra.
Qed.

(** Math.round(total * 100) of a total read from a DECIMAL(12, 2) column
    is its number of hundredths. *)
Lemma cents_of_decimal z :
  (Z.abs z < 10 ^ 12)%Z ->
  exists y, js_mul (Number_of_decimal z) (Finite 100) = Finite y /\ Math_round y = z.
Proof.
  intros Hz. destruct (Number_of_decimal_close z Hz) as (r & -> & Hr).
  cbn [js_mul].
  assert (P47 : pow2 47 == 140737488355328) by reflexivity.
  assert (Pm6 : pow2 (-6) * (1 # 2) == 1 # 128) by reflexivity.
  assert (Hz1 : - (1000000000000) < inject_Z z < 1000000000000).
  { change 1000000000000 with (inject_Z (10 ^ 12)). rewrite <- inject_Z_opp.
    rewrite <- !Zlt_Qlt. lia. }
  apply Qabs_Qle_condition in Hr.
  set (q := inject_Z z / 100) in Hr.
  assert (Hq : q * 100 == inject_Z z) by (unfold q; field).
  destruct (double_error (r * 100) 46) as (y & D & Herr & _); [|lia|].
  - change (pow2 (46 + 1)) with (pow2 47). apply Qabs_Qlt_condition. lra.
  - exists y. split; [exact D|].
    change (Z.max (46 - 52) (-1074)) with (-6)%Z in Herr.
    apply Qabs_Qle_condition in Herr.
    unfold Math_round. apply Qfloor_unique; lra.
Qed.

Lemma round_half_even_Z n : round_half_even (inject_Z n) = n.
Proof.
  unfold round_half_even. rewrite Qfloor_Z.
  assert (E : inject_Z n - inject_Z n == 0) by ring.
  rewrite (Qcompare_comp _ _ E (1 # 2) (1 # 2) (Qeq_refl _)). reflexivity.
Qed.

Lemma Qred_inject_Z a : Qred (inject_Z a) = inject_Z a.
Proof. apply Qcanon.Qred_identity. cbn. apply Z.gcd_1_r. Qed.

(** An integer below 2^53 in size is a binary64 value. *)
Lemma double_Z a : (Z.abs a < 2 ^ 53)%Z -> double (inject_Z a) = Finite (inject_Z a).
Proof.
  assert (Hpos : forall a, (0 < a < 2 ^ 53)%Z -> binary64 (inject_Z a) = Some (inject_Z a)).
  { clear a. intros a [Ha1 Ha2].
    assert (Hq : 0 < inject_Z a) by (rewrite <- (Zlt_Qlt 0); exact Ha1).
    assert (Hq2 : inject_Z a < pow2 (52 + 1)).
    { change (pow2 (52 + 1)) with (inject_Z (2 ^ 53)). rewrite <- Zlt_Qlt. exact Ha2. }
    pose proof (ilog2_le _ 52 Hq Hq2) as Hlog.
    unfold binary64. cbv zeta.
    set (e := Z.max (ilog2 (inject_Z a) - 52) (-1074)).
    assert (He : (e <= 0)%Z) by lia.
    assert (Hk : pow2 (- e) == inject_Z (2 ^ (- e))) by (apply pow2_Z; lia).
    assert (Hinv : pow2 e * pow2 (- e) == 1).
    { rewrite <- pow2_plus. replace (e + - e)%Z with 0%Z by lia. reflexivity. }
    pose proof (pow2_pos e) as Hp.
    assert (Ht : inject_Z a / pow2 e == inject_Z (a * 2 ^ (- e))).
    { rewrite inject_Z_mult, <- Hk.
      apply Qmult_inj_r with (pow2 e); [lra|].
      setoid_replace (inject_Z a / pow2 e * pow2 e) with (inject_Z a) by (field; lra).
      setoid_replace (inject_Z a * pow2 (- e) * pow2 e)
        with (inject_Z a * (pow2 e * pow2 (- e))) by ring.
      rewrite Hinv. ring. }
    rewrite (round_half_even_comp _ _ Ht), round_half_even_Z.
    assert (Hr : inject_Z (a * 2 ^ (- e)) * pow2 e == inject_Z a).
    { rewrite inject_Z_mult, <- Hk.
      setoid_replace (inject_Z a * pow2 (- e) * pow2 e)
        with (inject_Z a * (pow2 e * pow2 (- e))) by ring.
      rewrite Hinv. ring. }
    rewrite (Qleb_comp _ _ (Qeq_refl (pow2 1024)) _ _ Hr).
    assert (Hover : Qle_bool (pow2 1024) (inject_Z a) = false).
    { destruct (Qle_bool _ _) eqn:B; [|reflexivity].
      apply Qle_bool_iff in B.
      assert (pow2 53 <= pow2 1024) by (apply pow2_le; lia).
      change (pow2 (52 + 1)) with (pow2 53) in Hq2. lra. }
    rewrite Hover. f_equal. rewrite (Qred_complete _ _ Hr). apply Qred_inject_Z. }
  intros Ha. unfold double.
  destruct (Qcompare_spec (inject_Z a) 0) as [E|E|E].
  - apply (proj1 (inject_Z_injective a 0)) in E. now subst a.
  - assert (H0 : 0 < - inject_Z a) by lra.
    change 0 with (inject_Z 0) in E. rewrite <- Zlt_Qlt in E.
    assert (E' : - inject_Z a == inject_Z (- a)) by (rewrite inject_Z_opp; reflexivity).
    rewrite (binary64_comp _ _ H0 E').
    rewrite Hpos by lia. f_equal.
    assert (E'' : - inject_Z (- a) == inject_Z a) by (rewrite inject_Z_opp; ring).
    rewrite (Qred_complete _ _ E''). apply Qred_inject_Z.
  - change 0 with (inject_Z 0) in E. rewrite <- Zlt_Qlt in E.
    rewrite Hpos by lia. reflexivity.
Qed.

(** ** Signs *)

Lemma double_not_negative q : 0 <= q -> not_negative (double q).
Proof.
  intros Hq. unfold double.
  destruct (Qcompare_spec q 0) as [E|E|E]; cbn [not_negative]; [lra|lra|].
  destruct (binary64 q) as [r|] eqn:B; cbn [not_negative]; [|exact I].
  exact (binary64_nonneg q r E B).
Qed.

Lemma js_add_not_negative a b :
  not_negative a -> not_negative b -> not_negative (js_add a b).
Proof.
  destruct a as [x| | |], b as [y| | |]; cbn [not_negative js_add]; try tauto.
  intros Hx Hy. apply double_not_negative. lra.
Qed.

Lemma js_mul_not_negative a b :
  not_negative a -> not_negative b -> not_negative (js_mul a b).
Proof.
  destruct a as [x| | |], b as [y| | |]; cbn [not_negative js_mul sign]; try tauto.
  - intros Hx Hy. apply double_not_negative. now apply Qmult_le_0_compat.
  - intros Hx _. destruct (Qcompare_spec x 0); cbn [not_negative]; try exact I. lra.
  - intros _ _. now destruct (Qcompare x 0).
  - intros _ Hy. destruct (Qcompare_spec y 0); cbn [not_negative]; try exact I. lra.
Qed.

Lemma js_div_100_not_negative a :
  not_negative a -> not_negative (js_div a (Finite 100)).
Proof.
  destruct a as [x| | |]; cbn [not_negative js_div sign]; try tauto.
  intros Hx. change (Qeq_bool 100 0) with false. cbv iota.
  apply double_not_negative. apply Qle_shift_div_l; lra.
Qed.

Lemma js_sub_not_negative x y :
  y <= x -> not_negative (js_sub (Finite x) (Finite y)).
Proof. intros H. cbn [js_sub]. apply double_not_negative. lra. Qed.

Lemma shortest_from_some x fuel :
  forall j v, shortest_from x j fuel = Some v -> exists j', on_grid x j' = Some v.
Proof.
  induction fuel as [|fuel IH]; intros j v; cbn [shortest_from]; [discriminate|].
  destruct (on_grid x j) as [v'|] eqn:E.
  - intros H. injection H as <-. now exists j.
  - apply IH.
Qed.

Lemma JSON_not_negative n v :
  not_negative n -> JSON_of_number n = Some v -> 0 <= v.
Proof.
  destruct n as [x| | |]; cbn [not_negative JSON_of_number]; try discriminate.
  intros Hx. destruct (Qcompare_spec x 0) as [E|E|E].
  - intros H. injection H as <-. lra.
  - lra.
  - unfold shortest. intros H.
    destruct (shortest_from_some _ _ _ _ H) as (j & Hj).
    destruct (on_grid_sound _ _ _ Hj) as (c & -> & _ & Hc).
    rewrite Qred_correct. pose proof (pow10_pos j) as Hg.
    assert (Ht : 0 <= x / pow10 j) by (apply Qle_shift_div_l; lra).
    assert (Hc0 : (0 <= c)%Z).
    { destruct Hc as [-> | ->].
      - change 0%Z with (Qfloor 0). now apply Qfloor_resp_le.
      - change 0%Z with (Qceiling 0). now apply Qceiling_resp_le. }
    apply Qmult_le_0_compat; [|lra]. now rewrite <- (Zle_Qle 0).
Qed.

Lemma round_half_away_nonneg q : 0 <= q -> (0 <= round_half_away q)%Z.
Proof.
  intros H. unfold round_half_away.
  destruct (Qcompare_spec q 0) as [E|E|E]; try lra.
  - change 0%Z with (Qfloor 0). apply Qfloor_resp_le. lra.
  - change 0%Z with (Qfloor 0). apply Qfloor_resp_le. lra.
Qed.

(** A number that is not negative is stored in a DECIMAL column as NULL or
    as a value that is not negative. *)
Lemma numeric_column_not_negative p n c :
  not_negative n -> numeric_column p n = Some c -> column_not_negative c.
Proof.
  intros Hn. unfold numeric_column, decimal_in.
  destruct (JSON_of_number n) as [v|] eqn:J.
  - pose proof (JSON_not_negative n v Hn J) as Hv.
    destruct (Z.abs _ <? _)%Z; [|discriminate].
    intros H. injection H as <-. cbn [column_not_negative].
    apply round_half_away_nonneg. lra.
  - intros H. injection H as <-. exact I.
Qed.

(** * Properties of the routes *)

Local Open Scope string_scope.
Local Open Scope list_scope.
Local Open Scope Q_scope.

Ltac run_handler :=
  unfold bind, query, attempt, attempt_single, exec, throw, ret in *; cbv beta iota in *.

(** ** Lists *)

Lemma filter_all {A : Type} (f : A -> bool) (l : list A) :
  (forall x, In x l -> f x = true) -> filter f l = l.
Proof.
  induction l as [|a l IH]; simpl; intros H; [reflexivity|].
  rewrite (H a (or_introl eq_refl)). f_equal. apply IH. intros x Hx. apply H. now right.
Qed.

Lemma existsb_false_forall {A : Type} (f : A -> bool) (l : list A) :
  existsb f l = false -> forall x, In x l -> f x = false.
Proof.
  induction l as [|a l IH]; simpl; intros H x Hx; [contradiction|].
  apply orb_false_iff in H as [Ha Hl]. destruct Hx as [<-|Hx]; auto.
Qed.

Lemma single_Some {A : Type} (l : list A) (a : A) : single l = Some a -> l = [a].
Proof. destruct l as [|x [|y l]]; simpl; intros H; try discriminate. now injection H as ->. Qed.

Lemma filter_map_stable {A : Type} (f : A -> bool) (g : A -> A) (l : list A) :
  (forall x, f (g x) = f x) -> filter f (map g l) = map g (filter f l).
Proof.
  intros Hfg. induction l as [|a l IH]; simpl; [reflexivity|].
  rewrite Hfg. destruct (f a); simpl; now rewrite IH.
Qed.

Lemma existsb_id_map {A : Type} (key : A -> uuid) (k : uuid) (l : list A) :
  existsb (fun x => (key x =? k)%nat) l = existsb (Nat.eqb k) (map key l).
Proof.
  induction l as [|a l IH]; simpl; [reflexivity|].
  now rewrite IH, (Nat.eqb_sym (key a) k).
Qed.

Lemma In_existsb_id id (l : list invoice) i :
  In i l -> inv_id i = id -> existsb (fun x => (inv_id x =? id)%nat) l = true.
Proof.
  intros Hin Hid. apply existsb_exists. exists i. split; [assumption|].
  now apply Nat.eqb_eq.
Qed.

Lemma NoDup_map_filter {A B : Type} (f : A -> B) (g : A -> bool) (l : list A) :
  NoDup (map f l) -> NoDup (map f (filter g l)).
Proof.
  induction l as [|a l IH]; simpl; intros Hnd; [constructor|].
  inversion Hnd as [|? ? Hnotin Hnd']; subst.
  destruct (g a); simpl; [|now apply IH].
  constructor; [|now apply IH].
  intros Hin. apply Hnotin. apply in_map_iff in Hin as (x & Hfx & Hx).
  apply filter_In in Hx as [Hx _]. apply in_map_iff. now exists x.
Qed.

(** ** Storage calls *)

Lemma insert_invoice_accepts e v s rows s1 :
  insert_invoice e v s = Some (rows, s1) ->
  exists row,
    invoice_row e v = Some row
    /\ rows = [row]
    /\ s1 = set_invoices (invoices s ++ [row]) s
    /\ existsb (fun i => (inv_id i =? inv_id row)%nat) (invoices s) = false
    /\ existsb (fun i => (inv_user_id i =? inv_user_id row)%nat
                         && String.eqb (inv_invoice_number i) (inv_invoice_number row))
               (invoices s) = false.
Proof.
  unfold insert_invoice. destruct (invoice_row e v) as [row|]; [|discriminate].
  unfold invoice_accepted.
  destruct (existsb _ (invoices s)) eqn:Hid; [discriminate|].
  destruct (existsb _ (users s)); [|discriminate].
  destruct (existsb _ (clients s)); [|discriminate].
  cbn [negb andb].
  match goal with |- context [negb ?c] => destruct c eqn:Hnum end; [discriminate|].
  cbn [negb]. intros H. injection H as <- <-. exists row. repeat split; assumption.
Qed.

(** The columns of a stored row that come from the object as they are. *)
Lemma invoice_row_keys e v row :
  invoice_row e v = Some row ->
  inv_id row = iv_id v /\ inv_user_id row = iv_user_id v
  /\ inv_client_id row = iv_client_id v
  /\ varchar_in 50 (iv_invoice_number v) = Some (inv_invoice_number row)
  /\ invoice_status_of (iv_status v) = inv_status row
  /\ inv_created_at row = now e
  /\ inv_reminder_count row = 0%nat
  /\ numeric_column 12 (iv_subtotal v) = Some (inv_subtotal row)
  /\ numeric_column 12 (iv_tax_amount v) = Some (inv_tax_amount row)
  /\ numeric_column 12 (iv_total v) = Some (inv_total row)
  /\ numeric_value 5 (Some 0%Z) (iv_tax_rate v) = Some (inv_tax_rate row)
  /\ numeric_value 12 (Some 0%Z) (iv_discount_amount v) = Some (inv_discount_amount row).
Proof.
  unfold invoice_row.
  destruct (varchar_in 50 _) as [number|]; [|discriminate].
  destruct (invoice_status_of _) as [status|]; [|discriminate].
  destruct (match iv_due_date v with just d => date_in e d | _ => None end) as [due|];
    [|discriminate].
  destruct (numeric_column 12 (iv_subtotal v)) as [subtotal|]; [|discriminate].
  destruct (numeric_value 5 _ _) as [rate|]; [|discriminate].
  destruct (numeric_column 12 (iv_tax_amount v)) as [tax|]; [|discriminate].
  destruct (numeric_value 12 _ _) as [discount|]; [|discriminate].
  destruct (numeric_column 12 (iv_total v)) as [total|]; [|discriminate].
  destruct (text_column text_in (iv_notes v)) as [notes|]; [|discriminate].
  destruct (text_column text_in (iv_terms v)) as [terms|]; [|discriminate].
  intros H. injection H as <-. repeat split.
Qed.

Lemma insert_invoice_items_accepts objects s s2 :
  insert_invoice_items objects s = Some s2 ->
  exists rows,
    item_rows objects = Some rows
    /\ s2 = set_invoice_items (invoice_items s ++ rows) s.
Proof.
  unfold insert_invoice_items. destruct (item_rows objects) as [rows|]; [|discriminate].
  match goal with |- context [if ?c then _ else _] => destruct c end; [|discriminate].
  intros H. injection H as <-. now exists rows.
Qed.

Lemma insert_payment_accepts v s s1 :
  insert_payment v s = Some s1 ->
  exists row, payment_row v = Some row /\ s1 = set_payments (payments s ++ [row]) s.
Proof.
  unfold insert_payment. destruct (payment_row v) as [row|]; [|discriminate].
  match goal with |- context [if ?c then _ else _] => destruct c end; [|discriminate].
  intros H. injection H as <-. now exists row.
Qed.

(** Deleting a row that was just inserted under a fresh key gives back the
    table of invoices. *)
Lemma delete_after_insert row s :
  existsb (fun i => (inv_id i =? inv_id row)%nat) (invoices s) = false ->
  filter (fun i => negb (inv_id i =? inv_id row)%nat) (invoices s ++ [row]) = invoices s.
Proof.
  intros Hfresh. rewrite filter_app. simpl. rewrite Nat.eqb_refl. simpl.
  rewrite app_nil_r. apply filter_all. intros x Hx.
  now rewrite (existsb_false_forall _ _ Hfresh x Hx).
Qed.

Lemma update_invoice_cases e id p s :
  update_invoice e id p s = Some ([], s)
  \/ update_invoice e id p s = None
  \/ exists c,
       invoice_change_of e p = Some c
       /\ update_invoice e id p s
          = Some (map (apply_change c) (filter (fun i => (inv_id i =? id)%nat) (invoices s)),
                  set_invoices
                    (map (fun i => if (inv_id i =? id)%nat then apply_change c i else i)
                         (invoices s)) s).
Proof.
  unfold update_invoice. destruct (patch_is_empty p); [now left|].
  destruct (invoice_change_of e p) as [c|]; [|now right; left].
  right; right. now exists c.
Qed.

Lemma update_invoice_nonempty e id p s :
  patch_is_empty p = false ->
  update_invoice e id p s = None
  \/ exists c,
       invoice_change_of e p = Some c
       /\ update_invoice e id p s
          = Some (map (apply_change c) (filter (fun i => (inv_id i =? id)%nat) (invoices s)),
                  set_invoices
                    (map (fun i => if (inv_id i =? id)%nat then apply_change c i else i)
                         (invoices s)) s).
Proof.
  unfold update_invoice. intros ->.
  destruct (invoice_change_of e p) as [c|]; [|now left].
  right. now exists c.
Qed.

(** An update that leaves the store as it was, or writes the rows under one
    id. *)
Lemma discard_update_cases e id p s :
  discard (update_invoice_ e id p) s = s
  \/ exists c,
       invoice_change_of e p = Some c
       /\ discard (update_invoice_ e id p) s
          = set_invoices
              (map (fun i => if (inv_id i =? id)%nat then apply_change c i else i)
                   (invoices s)) s.
Proof.
  unfold discard, update_invoice_.
  destruct (update_invoice_cases e id p s) as [H|[H|(c & Hc & H)]]; rewrite H; auto.
  right. now exists c.
Qed.

(** ** The routes, by the checks they make *)

(** Every way POST /api/invoices can end. *)
Lemma createInvoice_cases e u body s :
  createInvoice e u body s =
    if negb (under_plan_limit e u s) then
      (inl (mkAPIError "Free plan limited to 5 invoices per month. Please upgrade."
                       403 "PLAN_LIMIT"), s)
    else if negb (owns_client u (cb_client_id body) s) then
      (inl (mkAPIError "Client not found" 404 INTERNAL_ERROR), s)
    else
      match insert_invoice e (created_values e u body s) s with
      | Some ([row], s1) =>
          match insert_invoice_items (created_items e body) s1 with
          | None => (inl (mkAPIError "Failed to create invoice items" 500 INTERNAL_ERROR),
                     delete_invoice (uuidv4 e 0) s1)
          | Some s2 =>
              (inr (Success 201 "Invoice created successfully"
                            (invoice_with_items row (created_items e body))),
               set_audit_logs (audit_logs s2 ++ [created_log e u body s]) s2)
          end
      | _ => (inl (mkAPIError "Failed to create invoice" 500 INTERNAL_ERROR), s)
      end.
Proof.
  unfold createInvoice, under_plan_limit, owns_client, created_items, created_log.
  run_handler.
  destruct (plan_beq (u_plan u) free); cbv beta iota;
    [destruct (Nat.leb 5 _); cbv beta iota|]; simpl negb; cbv beta iota; try reflexivity.
  all: destruct (single _); simpl; try reflexivity.
  all: fold (request_tax_rate body); fold (request_discount body);
    fold (computed_subtotal body); fold (computed_tax body); fold (computed_total body);
    fold (created_values e u body s).
  all: destruct (insert_invoice _ _ s) as [[[|row [|row' rows]] s1]|]; try reflexivity.
  all: destruct (insert_invoice_items _ s1) as [s2|]; reflexivity.
Qed.

Lemma router_POST e userId u body s :
  authenticate userId s = inr u ->
  invoices_router e userId (POST_invoices body) s
  = asyncHandler (createInvoice e u body) s.
Proof. unfold invoices_router. now intros ->. Qed.

Lemma authenticate_Success userId s u :
  authenticate userId s = inr u ->
  u_id u = userId /\ In u (users s) /\ u_is_active u = true.
Proof.
  unfold authenticate. destruct (single _) as [x|] eqn:E; [|discriminate].
  destruct (u_is_active x) eqn:Ha; [|discriminate]. intros H. injection H as <-.
  apply single_Some in E.
  assert (Hin : In x (filter (fun u => (u_id u =? userId)%nat) (users s)))
    by (rewrite E; now left).
  apply filter_In in Hin as [Hin Hid]. apply Nat.eqb_eq in Hid. auto.
Qed.

Lemma authenticate_denied userId s denied :
  authenticate userId s = inl denied ->
  exists http error, denied = Failure http None error /\ (http = 401 \/ http = 403)%nat.
Proof.
  unfold authenticate. destruct (single _) as [x|]; [destruct (u_is_active x)|];
    intros H; try discriminate; injection H as <-; do 2 eexists; split; eauto.
Qed.

(** A successful POST stored exactly the row that the column types make of
    the object it built, after the rows that were there, and the rows that
    they make of its items. *)
Lemma createInvoice_created e userId body s http message data s' :
  invoices_router e userId (POST_invoices body) s = (Success http message data, s') ->
  exists u row rows,
    authenticate userId s = inr u
    /\ invoice_row e (created_values e u body s) = Some row
    /\ item_rows (created_items e body) = Some rows
    /\ data = invoice_with_items row (created_items e body)
    /\ s' = set_audit_logs (audit_logs s ++ [created_log e u body s])
              (set_invoice_items (invoice_items s ++ rows)
                 (set_invoices (invoices s ++ [row]) s))
    /\ existsb (fun i => (inv_id i =? inv_id row)%nat) (invoices s) = false
    /\ http = 201%nat.
Proof.
  unfold invoices_router.
  destruct (authenticate userId s) as [denied|u] eqn:Hauth.
  - apply authenticate_denied in Hauth as (h & err & -> & _). discriminate.
  - unfold asyncHandler. rewrite createInvoice_cases.
    destruct (negb (under_plan_limit e u s)); [discriminate|].
    destruct (negb (owns_client u _ s)); [discriminate|].
    destruct (insert_invoice _ _ s) as [[rows0 s1]|] eqn:E1; [|discriminate].
    apply insert_invoice_accepts in E1 as (row & Hrow & -> & -> & Hfresh & _).
    destruct (insert_invoice_items _ _) as [s2|] eqn:E2; [|discriminate].
    apply insert_invoice_items_accepts in E2 as (rows & Hrows & ->).
    intros H. injection H as <- _ <- <-.
    exists u, row, rows. repeat split; assumption.
Qed.

Lemma markPaid_cases e u id body s :
  markPaid e u id body s =
    match find_invoice id (u_id u) s with
    | None => (inl (mkAPIError "Invoice not found" 404 INTERNAL_ERROR), s)
    | Some invoice =>
        match update_invoice_ e id
                (paid_patch e (column_number (inv_total invoice)) (method_of body)) s with
        | None => (inl (mkAPIError "Failed to update invoice" 500 INTERNAL_ERROR), s)
        | Some s1 =>
            (inr (Success 200 "Invoice marked as paid" no_data),
             discard (insert_payment (manual_values e u id invoice body)) s1)
        end
    end.
Proof.
  unfold markPaid, paid_patch, manual_values, method_of. run_handler.
  destruct (find_invoice id (u_id u) s) as [invoice|]; [|reflexivity].
  destruct (update_invoice_ _ _ _ s); reflexivity.
Qed.

Lemma remindInvoice_cases e u id s :
  remindInvoice e u id s =
    match find_invoice id (u_id u) s with
    | None => (inl (mkAPIError "Invoice not found" 404 INTERNAL_ERROR), s)
    | Some invoice =>
        if status_is paid (inv_status invoice) then
          (inl (mkAPIError "Invoice is already paid" 400 INTERNAL_ERROR), s)
        else
          (inr (Success 200 "Reminder sent successfully" no_data),
           discard (update_invoice_ e id (reminder_patch e invoice)) s)
    end.
Proof.
  unfold remindInvoice, reminder_patch. run_handler.
  destruct (find_invoice id (u_id u) s) as [invoice|]; [|reflexivity].
  destruct (status_is paid (inv_status invoice)); reflexivity.
Qed.

Lemma deleteInvoice_cases u id s :
  deleteInvoice u id s =
    match find_invoice id (u_id u) s with
    | None => (inl (mkAPIError "Invoice not found" 404 INTERNAL_ERROR), s)
    | Some invoice =>
        if status_is paid (inv_status invoice) then
          (inl (mkAPIError "Cannot delete a paid invoice" 400 INTERNAL_ERROR), s)
        else (inr (Success 200 "Invoice deleted" no_data), delete_invoice id s)
    end.
Proof.
  unfold deleteInvoice. run_handler.
  destruct (find_invoice id (u_id u) s) as [invoice|]; [|reflexivity].
  destruct (status_is paid (inv_status invoice)); reflexivity.
Qed.

Lemma updateInvoice_cases e u id body s :
  updateInvoice e u id body s =
    match find_invoice id (u_id u) s with
    | None => (inl (mkAPIError "Invoice not found" 404 INTERNAL_ERROR), s)
    | Some existing =>
        if status_is paid (inv_status existing) && is_not "paid" (ub_status body) then
          (inl (mkAPIError "Cannot modify a paid invoice" 400 INTERNAL_ERROR), s)
        else
          let s1 := replace_items e id body s in
          match update_invoice e id (updateData_of existing body) s1 with
          | Some ([invoice], s2) =>
              (inr (Success 200 "Invoice updated" (invoice_data invoice)), s2)
          | _ => (inl (mkAPIError "Failed to update invoice" 500 INTERNAL_ERROR), s1)
          end
    end.
Proof.
  unfold updateInvoice, updateData_of, replace_items, rate_used, discount_used,
    body_tax_rate, body_discount.
  run_handler.
  destruct (find_invoice id (u_id u) s) as [existing|]; [|reflexivity].
  destruct (status_is paid (inv_status existing) && is_not "paid" (ub_status body));
    [reflexivity|].
  destruct (ub_items body) as [items|]; cbv beta iota zeta;
    destruct (update_invoice _ _ _ _) as [[[|row [|row' rows]] s2]|]; reflexivity.
Qed.

Lemma asyncHandler_snd (h : Handler response) s : snd (asyncHandler h s) = snd (h s).
Proof. unfold asyncHandler. now destruct (h s) as [[err|r] s']. Qed.

(** ** Reading the store after a write *)

Lemma apply_change_id c i : inv_id (apply_change c i) = inv_id i.
Proof. reflexivity. Qed.

Lemma updated_ids id (g : invoice -> invoice) (l : list invoice) :
  (forall i, inv_id (g i) = inv_id i) ->
  map inv_id (map (fun i => if (inv_id i =? id)%nat then g i else i) l) = map inv_id l.
Proof.
  intros Hg. rewrite map_map. apply map_ext. intros i.
  destruct (inv_id i =? id)%nat; [apply Hg|reflexivity].
Qed.

Lemma find_invoice_In id userId s i :
  find_invoice id userId s = Some i ->
  In i (invoices s) /\ inv_id i = id /\ inv_user_id i = userId.
Proof.
  unfold find_invoice. intros H. apply single_Some in H.
  assert (Hin : In i (filter (fun i => (inv_id i =? id)%nat && (inv_user_id i =? userId)%nat)
                             (invoices s))) by (rewrite H; now left).
  apply filter_In in Hin as [Hin Hb]. apply andb_true_iff in Hb as [H1 H2].
  apply Nat.eqb_eq in H1, H2. auto.
Qed.

(** After an update by id, the row a tenant finds under that id is the
    changed one. *)
Lemma find_after_change id userId c s s' i :
  find_invoice id userId s = Some i ->
  invoices s'
  = map (fun i => if (inv_id i =? id)%nat then apply_change c i else i) (invoices s) ->
  find_invoice id userId s' = Some (apply_change c i).
Proof.
  intros H Hs'. pose proof (find_invoice_In _ _ _ _ H) as (_ & Hid & _).
  unfold find_invoice in *. apply single_Some in H. rewrite Hs'.
  rewrite filter_map_stable.
  - rewrite H. cbn [map single]. subst id. now rewrite Nat.eqb_refl.
  - intros x. destruct (inv_id x =? id)%nat eqn:E; [|now rewrite E].
    cbn [apply_change inv_id inv_user_id]. now rewrite E.
Qed.

Lemma discard_insert_payment_invoices v s :
  invoices (discard (insert_payment v) s) = invoices s.
Proof.
  unfold discard. destruct (insert_payment v s) as [s1|] eqn:E; [|reflexivity].
  now apply insert_payment_accepts in E as (row & _ & ->).
Qed.

Lemma discard_insert_payment_users v s :
  users (discard (insert_payment v) s) = users s.
Proof.
  unfold discard. destruct (insert_payment v s) as [s1|] eqn:E; [|reflexivity].
  now apply insert_payment_accepts in E as (row & _ & ->).
Qed.

Lemma authenticate_users userId s s' :
  users s' = users s -> authenticate userId s' = authenticate userId s.
Proof. unfold authenticate. now intros ->. Qed.

Lemma find_invoice_invoices id userId s s' :
  invoices s' = invoices s -> find_invoice id userId s' = find_invoice id userId s.
Proof. unfold find_invoice. now intros ->. Qed.

Lemma replace_items_invoices e id body s :
  invoices (replace_items e id body s) = invoices s.
Proof.
  unfold replace_items. destruct (ub_items body) as [items|]; [|reflexivity].
  unfold discard. destruct (insert_invoice_items _ _) as [s2|] eqn:E; [|reflexivity].
  now apply insert_invoice_items_accepts in E as (rows & _ & ->).
Qed.

Lemma status_beq_eq (a b : invoice_status) : invoice_status_beq a b = true <-> a = b.
Proof. destruct a, b; simpl; split; intros H; congruence. Qed.

Lemma status_is_Some st o : status_is st o = true <-> o = Some st.
Proof.
  unfold status_is. destruct o as [x|]; [|split; discriminate].
  rewrite status_beq_eq. split; congruence.
Qed.

Lemma is_not_false st v : is_not st v = false <-> v = just st.
Proof.
  unfold is_not. destruct v as [| |x]; try (split; discriminate).
  rewrite negb_false_iff, String.eqb_eq. split; congruence.
Qed.

(** ** Payments *)

Lemma column_round_trip (c : option Z) :
  column_12_2 c -> assign (numeric_column 12) (column_number c) = Some (Some c).
Proof.
  destruct c as [z|]; simpl; [|reflexivity]. intros Hz.
  now rewrite decimal_round_trip.
Qed.

Lemma assign_text (input : string -> option string) (v : js string) (m : option string) :
  v <> undefined -> text_column input v = Some m ->
  assign (accept input) v = Some (Some m).
Proof.
  destruct v as [| |x]; simpl; [congruence| |].
  - intros _ H. now injection H as <-.
  - intros _. unfold accept. destruct (input x); [|discriminate].
    intros H. now injection H as <-.
Qed.

Lemma method_of_defined body : method_of body <> undefined.
Proof. unfold method_of. destruct (mp_payment_method body); discriminate. Qed.

(** The update of a payment is accepted when the column takes the
    method. *)
Lemma paid_patch_change e (amount : option Z) (method : js string) (m : option string) :
  column_12_2 amount -> method <> undefined ->
  text_column (varchar_in 50) method = Some m ->
  invoice_change_of e (paid_patch e (column_number amount) method)
  = Some (paid_change e amount m).
Proof.
  intros Ha Hm Ht. unfold invoice_change_of, paid_patch, paid_change.
  cbn [p_status p_due_date p_notes p_terms p_tax_rate p_discount_amount p_subtotal
       p_tax_amount p_total p_paid_at p_paid_amount p_payment_method
       p_stripe_payment_intent_id p_reminder_sent_at p_reminder_count].
  rewrite (column_round_trip amount Ha), (assign_text _ _ _ Hm Ht). reflexivity.
Qed.

Lemma paid_patch_refused e (amount : js number) (method : js string) :
  text_column (varchar_in 50) method = None ->
  invoice_change_of e (paid_patch e amount method) = None.
Proof.
  intros Ht. unfold invoice_change_of, paid_patch.
  cbn [p_status p_due_date p_notes p_terms p_tax_rate p_discount_amount p_subtotal
       p_tax_amount p_total p_paid_at p_paid_amount p_payment_method
       p_stripe_payment_intent_id p_reminder_sent_at p_reminder_count].
  destruct method as [| |x]; try discriminate. simpl in Ht. unfold assign at 11, accept.
  destruct (varchar_in 50 x); [discriminate|].
  cbn [assign]. destruct (assign (numeric_column 12) amount); reflexivity.
Qed.

Lemma update_invoice_accepted e id p c s :
  patch_is_empty p = false -> invoice_change_of e p = Some c ->
  update_invoice e id p s
  = Some (map (apply_change c) (filter (fun i => (inv_id i =? id)%nat) (invoices s)),
          set_invoices (map (fun i => if (inv_id i =? id)%nat then apply_change c i else i)
                            (invoices s)) s).
Proof. unfold update_invoice. now intros -> ->. Qed.

Lemma update_invoice_refused e id p s :
  patch_is_empty p = false -> invoice_change_of e p = None ->
  update_invoice e id p s = None.
Proof. unfold update_invoice. now intros -> ->. Qed.

Lemma changed_ids id c s : map inv_id (invoices (changed id c s)) = map inv_id (invoices s).
Proof. unfold changed. cbn [invoices set_invoices]. now apply updated_ids. Qed.

(** A payment under a fresh key, for a user and an invoice that exist, in
    columns that take its values, is accepted and appended. *)
Lemma insert_payment_appends v row s :
  payment_row v = Some row ->
  existsb (fun p => (pay_id p =? pay_id row)%nat) (payments s) = false ->
  existsb (fun i => (inv_id i =? pay_invoice_id row)%nat) (invoices s) = true ->
  existsb (fun u => (u_id u =? pay_user_id row)%nat) (users s) = true ->
  discard (insert_payment v) s = set_payments (payments s ++ [row]) s.
Proof.
  intros Hrow Hkey Hinv Huser. unfold discard, insert_payment.
  now rewrite Hrow, Hkey, Hinv, Huser.
Qed.

Lemma manual_payment_row e u id invoice body total method notes :
  inv_total invoice = Some total -> decimal_12_2 total ->
  body_accepted body method notes ->
  payment_row (manual_values e u id invoice body)
  = Some (manual_payment e u id total method notes).
Proof.
  intros Htotal Hz [Hm Hn]. unfold payment_row, manual_values, manual_payment.
  cbn [pv_id pv_invoice_id pv_user_id pv_amount pv_payment_method pv_stripe_payment_id
       pv_notes]. rewrite Htotal. cbn [column_number numeric_value].
  rewrite (decimal_round_trip 12 total), Hm, Hn by (assumption || reflexivity || lia).
  reflexivity.
Qed.

Lemma user_exists u s : In u (users s) -> existsb (fun x => (u_id x =? u_id u)%nat) (users s) = true.
Proof.
  intros Hin. apply existsb_exists. exists u. split; [assumption|apply Nat.eqb_refl].
Qed.

(** What POST /api/invoices/:id/mark-paid does to an invoice the tenant
    owns, when the store takes the method and the notes and the key drawn
    for the payment is fresh. *)
Lemma markPaid_effect e userId u id body s invoice total method notes :
  authenticate userId s = inr u ->
  find_invoice id (u_id u) s = Some invoice ->
  inv_total invoice = Some total -> decimal_12_2 total ->
  body_accepted body method notes ->
  existsb (fun p => (pay_id p =? uuidv4 e 0)%nat) (payments s) = false ->
  invoices_router e userId (POST_mark_paid id body) s
  = (Success 200 "Invoice marked as paid" no_data,
     set_payments
       (payments s ++ [manual_payment e u id total method notes])
       (changed id (paid_change e (Some total) method) s)).
Proof.
  intros Hauth Hfind Htotal Hz Hbody Hkey. unfold invoices_router. rewrite Hauth.
  unfold asyncHandler. rewrite markPaid_cases, Hfind.
  unfold update_invoice_.
  rewrite (update_invoice_accepted e id _ (paid_change e (Some total) method))
    by (reflexivity || (rewrite Htotal; apply paid_patch_change;
                        [exact Hz|apply method_of_defined|apply Hbody])).
  fold (changed id (paid_change e (Some total) method) s).
  rewrite (insert_payment_appends _ (manual_payment e u id total method notes)).
  - reflexivity.
  - now apply manual_payment_row.
  - exact Hkey.
  - cbn [manual_payment pay_invoice_id].
    rewrite existsb_id_map, changed_ids, <- existsb_id_map.
    apply find_invoice_In in Hfind as (Hin & Hid & _).
    now apply (In_existsb_id id _ invoice).
  - cbn [manual_payment pay_user_id]. apply authenticate_Success in Hauth as (_ & Hin & _).
    now apply (user_exists u (changed id _ s)).
Qed.

(** When the column refuses the method, nothing is written. *)
Lemma markPaid_refused e userId u id body s invoice :
  authenticate userId s = inr u ->
  find_invoice id (u_id u) s = Some invoice ->
  text_column (varchar_in 50) (method_of body) = None ->
  invoices_router e userId (POST_mark_paid id body) s
  = (Failure 500 (Some INTERNAL_ERROR) "Failed to update invoice", s).
Proof.
  intros Hauth Hfind Hm. unfold invoices_router. rewrite Hauth.
  unfold asyncHandler. rewrite markPaid_cases, Hfind. unfold update_invoice_.
  rewrite update_invoice_refused; [reflexivity|reflexivity|].
  now apply paid_patch_refused.
Qed.

(** ** The stores of the worked cases *)

(** The stores of the worked cases are what the routes leave behind: the
    creation of the scenario, then a manual payment, or an update of the
    status. *)
Example stores_of_the_cases :
  snd (invoices_router (Scenario.at_ Scenario.t0 1) 1
                       (POST_invoices Scenario.body0) Scenario.db0) = Cases.db1
  /\ run [Cases.mark_paid_at 2] Cases.db1 = Cases.db_paid
  /\ run [api (Scenario.at_ Scenario.t0 2) 1
              (PUT_invoice 100 (Cases.status_only "cancelled"))] Cases.db1
     = Cases.db_cancelled
  /\ run [api (Scenario.at_ Scenario.t0 2) 1
              (PUT_invoice 100 (Cases.status_only "draft"))] Cases.db1
     = Cases.db_draft.
Proof. repeat split; vm_compute; reflexivity. Qed.

(** ** Totals of a created invoice *)

Local Open Scope string_scope.
Local Open Scope list_scope.
Local Open Scope Q_scope.

(** C1, as the code has it.  POST /api/invoices computes subtotal as the
    sum of quantity times price, the tax as subtotal times (rate / 100) and
    the total as subtotal plus tax minus discount in binary64 arithmetic
    (rate and discount default to 0), and each of the three stored fields
    is the computed number rounded to two decimals by its DECIMAL(12, 2)
    column, each on its own.  In the scenario of the two items (2 at 50.00,
    1 at 25.00) with rate 10 and discount 5.00 the stored values are
    125.00, 12.50 and 132.50. *)
Theorem C1_created_totals :
  (forall e userId body s http message data s',
      cb_items body <> [] ->
      invoices_router e userId (POST_invoices body) s = (Success http message data, s') ->
      exists inv its,
        data = invoice_with_items inv its
        /\ invoices s' = invoices s ++ [inv]
        /\ numeric_column 12 (computed_subtotal body) = Some (inv_subtotal inv)
        /\ numeric_column 12 (computed_tax body) = Some (inv_tax_amount inv)
        /\ numeric_column 12 (computed_total body) = Some (inv_total inv))
  /\ (exists inv its s',
        invoices_router (Scenario.at_ Scenario.t0 1) 1%nat
                        (POST_invoices Scenario.body0) Scenario.db0
        = (Success 201 "Invoice created successfully" (invoice_with_items inv its), s')
        /\ invoices s' = [inv]
        /\ inv_subtotal inv = Some 12500%Z
        /\ inv_tax_amount inv = Some 1250%Z
        /\ inv_total inv = Some 13250%Z).
Proof.
  split.
  - intros e userId body s http message data s' _ H.
    apply createInvoice_created in H as (u & row & rows & _ & Hrow & _ & -> & -> & _).
    exists row, (created_items e body).
    split; [reflexivity|]. split; [reflexivity|].
    apply invoice_row_keys in Hrow as (_ & _ & _ & _ & _ & _ & _ & Hs & Ht & Htot & _).
    cbn [created_values iv_subtotal iv_tax_amount iv_total] in Hs, Ht, Htot. auto.
  - do 3 eexists. split; [vm_compute; reflexivity|].
    repeat split; reflexivity.
Qed.

Lemma C1_created_totals_witness :
  Scenario.two_items <> []
  /\ exists inv its s',
       invoices_router (Scenario.at_ Scenario.t0 1) 1
                       (POST_invoices Scenario.body0) Scenario.db0
       = (Success 201 "Invoice created successfully" (invoice_with_items inv its), s')
       /\ invoices s' = invoices Scenario.db0 ++ [inv]
       /\ numeric_column 12 (computed_total Scenario.body0) = Some (inv_total inv).
Proof.
  assert (Hne : cb_items Scenario.body0 <> []) by discriminate.
  split; [exact Hne|].
  destruct (proj1 C1_created_totals (Scenario.at_ Scenario.t0 1) 1%nat Scenario.body0
                  Scenario.db0 201%nat "Invoice created successfully"
                  (invoice_with_items Cases.invoice1
                     (created_items (Scenario.at_ Scenario.t0 1) Scenario.body0))
                  (snd (invoices_router (Scenario.at_ Scenario.t0 1) 1%nat
                                        (POST_invoices Scenario.body0) Scenario.db0))
                  Hne eq_refl)
    as (inv & its & Hdata & Hinv & _ & _ & Htotal).
  exists inv, its. eexists. split; [rewrite <- Hdata; vm_compute; reflexivity|].
  split; [exact Hinv|exact Htotal].
Defined.

(** C1, as stated, fails.  Three units at 0.1 with a rate of 7.5 are
    stored with subtotal 0.30 and tax_amount 0.02, which is not 0.30 times
    7.5 over 100.  Half a unit at 0.25 with a rate of 100 is stored with
    subtotal 0.13, which is not 0.5 times 0.25, with tax_amount 0.13 and
    with total 0.25, which is not subtotal plus tax_amount. *)
Lemma C1_counterexample :
  (exists inv its s',
      invoices_router (Scenario.at_ Scenario.t0 1) 1%nat
                      (POST_invoices Cases.body_tenths) Scenario.db0
      = (Success 201 "Invoice created successfully" (invoice_with_items inv its), s')
      /\ invoices s' = [inv]
      /\ inv_subtotal inv = Some 30%Z
      /\ inv_tax_amount inv = Some 2%Z
      /\ inv_total inv = Some 32%Z
      /\ ~ inject_Z 2 / 100 == inject_Z 30 / 100 * 7.5 / 100)
  /\ (exists inv its s',
         invoices_router (Scenario.at_ Scenario.t0 1) 1%nat
                         (POST_invoices Cases.body_eighth) Scenario.db0
         = (Success 201 "Invoice created successfully" (invoice_with_items inv its), s')
         /\ invoices s' = [inv]
         /\ inv_subtotal inv = Some 13%Z
         /\ inv_tax_amount inv = Some 13%Z
         /\ inv_total inv = Some 25%Z
         /\ ~ inject_Z 13 / 100 == sum_amounts (cb_items Cases.body_eighth)
         /\ ~ inject_Z 25 / 100 == inject_Z 13 / 100 + inject_Z 13 / 100 - 0).
Proof.
  split.
  - do 3 eexists. split; [vm_compute; reflexivity|].
    do 4 (split; [reflexivity|]). vm_compute. discriminate.
  - do 3 eexists. split; [vm_compute; reflexivity|].
    do 4 (split; [reflexivity|]). split; vm_compute; discriminate.
Qed.

(** Every outcome of POST /api/invoices is all or nothing: on success the
    invoice row and all its item rows are stored, on failure the table of
    invoices is what it was and no item row was added. *)
Lemma createInvoice_all_or_nothing e userId body s r s' :
  invoices_router e userId (POST_invoices body) s = (r, s') ->
  match r with
  | Success _ _ _ =>
      exists inv rows,
        invoices s' = invoices s ++ [inv]
        /\ item_rows (map_items e (inv_id inv) 1 0 (cb_items body)) = Some rows
        /\ invoice_items s' = invoice_items s ++ rows
  | Failure _ _ _ =>
      invoices s' = invoices s /\ incl (invoice_items s') (invoice_items s)
  end.
Proof.
  destruct r as [http message data|http code error]; intros H.
  - apply createInvoice_created in H as (u & row & rows & _ & Hrow & Hrows & _ & -> & _).
    exists row, rows. apply invoice_row_keys in Hrow as (Hid & _).
    cbn [created_values iv_id] in Hid. rewrite Hid. repeat split. exact Hrows.
  - revert H. unfold invoices_router.
    destruct (authenticate userId s) as [denied|u].
    { intros H. injection H as _ <-. split; [reflexivity|apply incl_refl]. }
    unfold asyncHandler. rewrite createInvoice_cases.
    destruct (negb (under_plan_limit e u s));
      [intros H; injection H as _ _ _ <-; split; [reflexivity|apply incl_refl]|].
    destruct (negb (owns_client u _ s));
      [intros H; injection H as _ _ _ <-; split; [reflexivity|apply incl_refl]|].
    destruct (insert_invoice _ _ s) as [[rows0 s1]|] eqn:E1;
      [|intros H; injection H as _ _ _ <-; split; [reflexivity|apply incl_refl]].
    apply insert_invoice_accepts in E1 as (row & Hrow & -> & -> & Hfresh & _).
    destruct (insert_invoice_items _ _) as [s2|] eqn:E2; [discriminate|].
    intros H. injection H as _ _ _ <-.
    apply invoice_row_keys in Hrow as (Hid & _). cbn [created_values iv_id] in Hid.
    rewrite <- Hid. split.
    + cbn [delete_invoice set_invoices invoices].
      apply (delete_after_insert row s Hfresh).
    + cbn [delete_invoice set_invoices invoice_items]. intros x Hx.
      now apply filter_In in Hx.
Qed.

(** ** Rollback of a creation whose items are refused *)

(** C9. When the store refuses the line items after it accepted the invoice
    row, POST /api/invoices answers with an error (HTTP 500, "Failed to
    create invoice items") and the invoice row is removed again: the table
    of invoices is what it was before the request, no row carries the new
    id, no line item was added and nothing was logged. *)
Theorem C9_items_failure_rolls_back e userId u body s row s1 :
  authenticate userId s = inr u ->
  under_plan_limit e u s = true ->
  owns_client u (cb_client_id body) s = true ->
  insert_invoice e (created_values e u body s) s = Some ([row], s1) ->
  insert_invoice_items (created_items e body) s1 = None ->
  exists s',
    invoices_router e userId (POST_invoices body) s
    = (Failure 500 (Some INTERNAL_ERROR) "Failed to create invoice items", s')
    /\ invoices s' = invoices s
    /\ (forall i, In i (invoices s') -> inv_id i <> uuidv4 e 0)
    /\ incl (invoice_items s') (invoice_items s)
    /\ audit_logs s' = audit_logs s.
Proof.
  intros Hauth Hplan Hclient Hinv Hitems.
  rewrite (router_POST _ _ _ _ _ Hauth). unfold asyncHandler.
  rewrite createInvoice_cases, Hplan, Hclient, Hinv, Hitems. cbn [negb].
  eexists. split; [reflexivity|].
  apply insert_invoice_accepts in Hinv as (row' & Hrow & Heq & -> & Hfresh & _).
  injection Heq as <-.
  apply invoice_row_keys in Hrow as (Hid & _). cbn [created_values iv_id] in Hid.
  rewrite <- Hid.
  assert (Hback : invoices (delete_invoice (inv_id row)
                              (set_invoices (invoices s ++ [row]) s))
                  = invoices s).
  { cbn [delete_invoice set_invoices invoices]. apply (delete_after_insert row s Hfresh). }
  repeat split.
  - exact Hback.
  - rewrite Hback. intros i Hi Heq.
    pose proof (existsb_false_forall _ _ Hfresh i Hi) as Hne. cbv beta in Hne.
    rewrite Heq, Nat.eqb_refl in Hne. discriminate.
  - cbn [delete_invoice set_invoices invoice_items]. intros x Hx.
    now apply filter_In in Hx.
Qed.

Lemma C9_items_failure_rolls_back_witness :
  exists s',
    invoices_router (Scenario.at_ Scenario.t0 1) 1%nat
      (POST_invoices
         (mkCreateBody 10 [mkItemInput (just "Design") 2 50; mkItemInput undefined 1 25]
                       (just "2026-12-01") undefined undefined (just 10) (just 5)))
      Scenario.db0
    = (Failure 500 (Some INTERNAL_ERROR) "Failed to create invoice items", s')
    /\ invoices s' = invoices Scenario.db0.
Proof.
  destruct (C9_items_failure_rolls_back
              (Scenario.at_ Scenario.t0 1) 1%nat Scenario.alice
              (mkCreateBody 10 [mkItemInput (just "Design") 2 50;
                                mkItemInput undefined 1 25]
                            (just "2026-12-01") undefined undefined (just 10) (just 5))
              Scenario.db0 Cases.invoice1
              (set_invoices (invoices Scenario.db0 ++ [Cases.invoice1]) Scenario.db0)
              eq_refl eq_refl eq_refl eq_refl eq_refl)
    as (s' & Hresp & Hinv & _).
  exists s'. split; assumption.
Defined.

(** ** Manual payment *)

(** C10, as the code has it.  For an invoice of the tenant that has a
    total, a payment method and notes that their columns take (the method
    defaults to 'manual' and has at most 50 characters) and a fresh key for
    the payment, mark-paid answers with success, sets paid_amount to the
    stored total and appends a completed Payment Record of that amount; an
    amount sent by the caller changes nothing.  When the column refuses the
    payment method, the route answers with HTTP 500 "Failed to update
    invoice" and writes nothing. *)
Theorem C10_mark_paid_uses_stored_total e userId u id body s invoice :
  authenticate userId s = inr u ->
  find_invoice id (u_id u) s = Some invoice ->
  (forall total method notes,
      inv_total invoice = Some total -> decimal_12_2 total ->
      body_accepted body method notes ->
      existsb (fun p => (pay_id p =? uuidv4 e 0)%nat) (payments s) = false ->
      exists s' invoice',
        invoices_router e userId (POST_mark_paid id body) s
        = (Success 200 "Invoice marked as paid" no_data, s')
        /\ find_invoice id (u_id u) s' = Some invoice'
        /\ inv_status invoice' = Some paid
        /\ inv_paid_amount invoice' = Some total
        /\ inv_payment_method invoice' = method
        /\ inv_total invoice' = Some total
        /\ payments s'
           = payments s
               ++ [mkPayment (uuidv4 e 0) id (u_id u) total method None
                             pay_completed notes]
        /\ forall amount,
             invoices_router e userId
               (POST_mark_paid id
                  (mkMarkPaidBody (mp_payment_method body) (mp_notes body) amount)) s
             = invoices_router e userId (POST_mark_paid id body) s)
  /\ (text_column (varchar_in 50) (method_of body) = None ->
      invoices_router e userId (POST_mark_paid id body) s
      = (Failure 500 (Some INTERNAL_ERROR) "Failed to update invoice", s)).
Proof.
  intros Hauth Hfind. split.
  - intros total method notes Htotal Hz Hbody Hkey.
    eexists. exists (apply_change (paid_change e (Some total) method) invoice).
    split; [apply (markPaid_effect e userId u id body s invoice total method notes);
            assumption|].
    split.
    { apply (find_after_change id (u_id u) (paid_change e (Some total) method) s);
        [exact Hfind|reflexivity]. }
    do 3 (split; [reflexivity|]). split; [exact Htotal|]. split; [reflexivity|].
    intros amount.
    rewrite (markPaid_effect e userId u id body s invoice total method notes)
      by assumption.
    now rewrite (markPaid_effect e userId u id _ s invoice total method notes)
      by assumption.
  - intros Hm. now apply (markPaid_refused e userId u id body s invoice).
Qed.

Lemma C10_mark_paid_uses_stored_total_witness :
  exists s' invoice',
    invoices_router (Scenario.at_ Scenario.t0 2) 1%nat
                    (POST_mark_paid 100 Cases.manual) Cases.db1
    = (Success 200 "Invoice marked as paid" no_data, s')
    /\ find_invoice 100 1 s' = Some invoice'
    /\ inv_paid_amount invoice' = Some 13250%Z.
Proof.
  assert (Hz : decimal_12_2 13250) by (unfold decimal_12_2; simpl; lia).
  assert (Hbody : body_accepted Cases.manual (Some "manual") None) by (split; reflexivity).
  destruct (proj1 (C10_mark_paid_uses_stored_total
                     (Scenario.at_ Scenario.t0 2) 1%nat Scenario.alice 100%nat
                     Cases.manual Cases.db1 Cases.invoice1 eq_refl eq_refl)
                  13250%Z (Some "manual") None eq_refl Hz Hbody eq_refl)
    as (s' & invoice' & Hresp & Hfind & _ & Hamount & _).
  exists s', invoice'. repeat split; assumption.
Defined.

(** C10, as stated, fails: with a payment method of 51 characters the
    mark-paid of the scenario's invoice is answered with HTTP 500; the
    invoice is still pending, has no paid_amount, and no Payment Record was
    appended. *)
Lemma C10_counterexample :
  String.length Cases.long_method = 51%nat
  /\ invoices_router (Scenario.at_ Scenario.t0 2) 1%nat
                     (POST_mark_paid 100
                        (mkMarkPaidBody (just Cases.long_method) undefined undefined))
                     Cases.db1
     = (Failure 500 (Some INTERNAL_ERROR) "Failed to update invoice", Cases.db1)
  /\ find_invoice 100 1 Cases.db1 = Some Cases.invoice1
  /\ inv_status Cases.invoice1 = Some pending
  /\ inv_paid_amount Cases.invoice1 = None
  /\ payments Cases.db1 = [].
Proof. repeat split; vm_compute; reflexivity. Qed.

(** ** Repeated payment *)

Lemma completed_payments_app id s rows base :
  payments s = payments base ++ rows ->
  Forall (fun p => pay_invoice_id p = id /\ pay_status p = pay_completed) rows ->
  completed_payments id s = completed_payments id base ++ rows.
Proof.
  intros Hpay Hrows. unfold completed_payments. rewrite Hpay, filter_app. f_equal.
  apply filter_all. intros p Hp.
  rewrite Forall_forall in Hrows. destruct (Hrows p Hp) as [-> ->].
  now rewrite Nat.eqb_refl.
Qed.

Lemma markPaid_twice e1 e2 userId u id b1 b2 s invoice total m1 n1 m2 n2 :
  authenticate userId s = inr u ->
  find_invoice id (u_id u) s = Some invoice ->
  inv_total invoice = Some total -> decimal_12_2 total ->
  body_accepted b1 m1 n1 -> body_accepted b2 m2 n2 ->
  existsb (fun p => (pay_id p =? uuidv4 e1 0)%nat) (payments s) = false ->
  existsb (fun p => (pay_id p =? uuidv4 e2 0)%nat) (payments s) = false ->
  uuidv4 e1 0 <> uuidv4 e2 0 ->
  let s2 := run [api e1 userId (POST_mark_paid id b1);
                 api e2 userId (POST_mark_paid id b2)] s in
  payments s2 = payments s ++ [manual_payment e1 u id total m1 n1;
                               manual_payment e2 u id total m2 n2]
  /\ find_invoice id (u_id u) s2
     = Some (apply_change (paid_change e2 (Some total) m2)
               (apply_change (paid_change e1 (Some total) m1) invoice)).
Proof.
  intros Hauth Hfind Htotal Hz Hb1 Hb2 Hk1 Hk2 Hne s2. subst s2. unfold run.
  cbn [fold_left step].
  rewrite (markPaid_effect e1 userId u id b1 s invoice total m1 n1) by assumption.
  cbn [snd]. set (s1 := set_payments _ _).
  assert (Hfind1 : find_invoice id (u_id u) s1
                   = Some (apply_change (paid_change e1 (Some total) m1) invoice)).
  { apply (find_after_change id (u_id u) (paid_change e1 (Some total) m1) s);
      [exact Hfind|reflexivity]. }
  rewrite (markPaid_effect e2 userId u id b2 s1 _ total m2 n2) with (2 := Hfind1).
  - cbn [snd]. split.
    + unfold s1. cbn [payments set_payments changed set_invoices].
      now rewrite <- app_assoc.
    + apply (find_after_change id (u_id u) (paid_change e2 (Some total) m2) s1);
        [exact Hfind1|reflexivity].
  - rewrite <- Hauth. now apply authenticate_users.
  - exact Htotal.
  - exact Hz.
  - exact Hb2.
  - unfold s1. cbn [payments set_payments]. rewrite existsb_app, Hk2. simpl.
    rewrite orb_false_r. now apply Nat.eqb_neq.
Qed.

(** The amount of a payment event, in cents, enters the columns as it
    is. *)
Lemma event_amount cents :
  (Z.abs cents < 10 ^ 12)%Z ->
  js_div (JSON_number (inject_Z cents)) (Finite 100) = Number_of_decimal cents.
Proof.
  intros Hc. unfold JSON_number. rewrite double_Z by lia. reflexivity.
Qed.

Lemma stripe_payment_row e paymentIntent invoiceId userId reference :
  pi_metadata_user_id paymentIntent = Some userId ->
  decimal_12_2 (pi_amount paymentIntent) ->
  varchar_in 255 (pi_id paymentIntent) = Some reference ->
  payment_row
    (mkPaymentValues (uuidv4 e 0) invoiceId (pi_metadata_user_id paymentIntent)
       (just (js_div (JSON_number (inject_Z (pi_amount paymentIntent))) (Finite 100)))
       (just "stripe") (just (pi_id paymentIntent)) undefined)
  = Some (stripe_payment e paymentIntent invoiceId userId reference).
Proof.
  intros Hu Hz Hr. unfold payment_row, stripe_payment.
  cbn [pv_id pv_invoice_id pv_user_id pv_amount pv_payment_method pv_stripe_payment_id
       pv_notes]. rewrite Hu, (event_amount _ Hz). cbn [numeric_value text_column].
  rewrite (decimal_round_trip 12 _) by (assumption || lia). rewrite Hr. reflexivity.
Qed.

Lemma payment_succeeded_effect e D paymentIntent id userId reference s invoice :
  pi_metadata_invoice_id paymentIntent = Some id ->
  pi_metadata_user_id paymentIntent = Some userId ->
  In invoice (invoices s) -> inv_id invoice = id ->
  existsb (fun u => (u_id u =? userId)%nat) (users s) = true ->
  decimal_12_2 (pi_amount paymentIntent) ->
  varchar_in 255 (pi_id paymentIntent) = Some reference ->
  existsb (fun p => (pay_id p =? uuidv4 e 0)%nat) (payments s) = false ->
  stripe_webhook e D (Webhook.payment_intent_succeeded paymentIntent) s
  = set_payments
      (payments s ++ [stripe_payment e paymentIntent id userId reference])
      (changed id (paid_change e (Some (pi_amount paymentIntent)) (Some "stripe")) s).
Proof.
  intros Hid Huser Hin Hinv Hexists Hz Hr Hkey.
  unfold stripe_webhook, Webhook.dispatch, Webhook.on_core. cbn [core].
  unfold handlePaymentIntentSucceeded. rewrite Hid. run_handler. cbn [snd].
  unfold discard at 2, update_invoice_.
  rewrite (update_invoice_accepted e id _
             (paid_change e (Some (pi_amount paymentIntent)) (Some "stripe"))).
  - fold (changed id (paid_change e (Some (pi_amount paymentIntent)) (Some "stripe")) s).
    rewrite (insert_payment_appends _
               (stripe_payment e paymentIntent id userId reference)).
    + reflexivity.
    + now apply stripe_payment_row.
    + exact Hkey.
    + cbn [stripe_payment pay_invoice_id].
      rewrite existsb_id_map, changed_ids, <- existsb_id_map.
      now apply (In_existsb_id id _ invoice).
    + exact Hexists.
  - reflexivity.
  - rewrite (event_amount _ Hz).
    apply (paid_patch_change e (Some (pi_amount paymentIntent)) (just "stripe")
                             (Some "stripe")); [exact Hz|discriminate|reflexivity].
Qed.

Lemma changed_at id c s i :
  In i (invoices (changed id c s)) ->
  inv_id i = id ->
  exists x, In x (invoices s) /\ inv_id x = id /\ i = apply_change c x.
Proof.
  unfold changed. cbn [invoices set_invoices]. intros Hin Hid.
  apply in_map_iff in Hin as (x & Hx & Hin). exists x.
  destruct (inv_id x =? id)%nat eqn:E.
  - apply Nat.eqb_eq in E. subst i. auto.
  - apply Nat.eqb_neq in E. subst i. contradiction.
Qed.

(** C2, as the code has it.  mark-paid is not idempotent: invoked twice for
    one invoice that has a total, with payment methods and notes that their
    columns take and fresh keys for the payments, it leaves the invoice
    paid and appends one completed Payment Record per invocation, two in
    all, each for the stored total.  Reconciling a payment-succeeded event
    whose metadata name an existing invoice and an existing user, with an
    amount that fits DECIMAL(12, 2), an intent id that fits VARCHAR(255)
    and a fresh key, leaves every invoice of that id paid, paid or not
    before, appends one more completed Payment Record and sets paid_amount
    to the event's amount over 100. *)
Theorem C2_each_payment_call_appends_a_record :
  (forall e1 e2 userId u id b1 b2 s invoice total m1 n1 m2 n2,
      authenticate userId s = inr u ->
      find_invoice id (u_id u) s = Some invoice ->
      inv_total invoice = Some total -> decimal_12_2 total ->
      body_accepted b1 m1 n1 -> body_accepted b2 m2 n2 ->
      existsb (fun p => (pay_id p =? uuidv4 e1 0)%nat) (payments s) = false ->
      existsb (fun p => (pay_id p =? uuidv4 e2 0)%nat) (payments s) = false ->
      uuidv4 e1 0 <> uuidv4 e2 0 ->
      let s2 := run [api e1 userId (POST_mark_paid id b1);
                     api e2 userId (POST_mark_paid id b2)] s in
      (exists invoice',
          find_invoice id (u_id u) s2 = Some invoice'
          /\ inv_status invoice' = Some paid
          /\ inv_paid_amount invoice' = Some total)
      /\ completed_payments id s2
         = completed_payments id s ++ [manual_payment e1 u id total m1 n1;
                                       manual_payment e2 u id total m2 n2]
      /\ pay_amount (manual_payment e1 u id total m1 n1) = total
      /\ pay_amount (manual_payment e2 u id total m2 n2) = total)
  /\ (forall e D paymentIntent id userId reference s invoice,
         pi_metadata_invoice_id paymentIntent = Some id ->
         pi_metadata_user_id paymentIntent = Some userId ->
         In invoice (invoices s) ->
         inv_id invoice = id ->
         existsb (fun u => (u_id u =? userId)%nat) (users s) = true ->
         decimal_12_2 (pi_amount paymentIntent) ->
         varchar_in 255 (pi_id paymentIntent) = Some reference ->
         existsb (fun p => (pay_id p =? uuidv4 e 0)%nat) (payments s) = false ->
         let s' := stripe_webhook e D (Webhook.payment_intent_succeeded paymentIntent) s in
         completed_payments id s'
         = completed_payments id s
             ++ [stripe_payment e paymentIntent id userId reference]
         /\ (exists i, In i (invoices s') /\ inv_id i = id)
         /\ forall i, In i (invoices s') -> inv_id i = id ->
                      inv_status i = Some paid
                      /\ inv_paid_amount i = Some (pi_amount paymentIntent)).
Proof.
  split.
  - intros e1 e2 userId u id b1 b2 s invoice total m1 n1 m2 n2
           Hauth Hfind Htotal Hz Hb1 Hb2 Hk1 Hk2 Hne s2.
    destruct (markPaid_twice e1 e2 userId u id b1 b2 s invoice total m1 n1 m2 n2
                Hauth Hfind Htotal Hz Hb1 Hb2 Hk1 Hk2 Hne) as [Hpay Hfind2].
    fold s2 in Hpay, Hfind2. split; [|split; [|split; reflexivity]].
    + eexists. split; [exact Hfind2|]. split; reflexivity.
    + apply completed_payments_app; [assumption|].
      repeat constructor.
  - intros e D paymentIntent id userId reference s invoice
           Hid Huser Hin Hinv Hexists Hz Hr Hkey s'.
    subst s'.
    rewrite (payment_succeeded_effect e D paymentIntent id userId reference s invoice)
      by assumption.
    split; [|split].
    + apply completed_payments_app; [reflexivity|]. repeat constructor.
    + exists (apply_change (paid_change e (Some (pi_amount paymentIntent)) (Some "stripe"))
                           invoice).
      split; [|assumption]. cbn [invoices set_payments changed set_invoices].
      apply in_map_iff. exists invoice. split; [|assumption].
      apply Nat.eqb_eq in Hinv. now rewrite Hinv.
    + intros i Hi Hiid. cbn [invoices set_payments] in Hi.
      apply changed_at in Hi as (x & _ & _ & ->); [|assumption].
      split; reflexivity.
Qed.

Lemma C2_each_payment_call_appends_a_record_witness :
  List.length
    (completed_payments 100 (run [Cases.mark_paid_at 2; Cases.mark_paid_at 3] Cases.db1))
  = 2%nat
  /\ List.length
       (completed_payments 100 (run [Cases.succeeded_at 4 13250] Cases.db1))
     = 1%nat.
Proof.
  assert (Hne : uuidv4 (Scenario.at_ Scenario.t0 2) 0 <> uuidv4 (Scenario.at_ Scenario.t0 3) 0)
    by (vm_compute; discriminate).
  assert (Hin : In Cases.invoice1 (invoices Cases.db1))
    by (vm_compute; left; reflexivity).
  assert (Hz : decimal_12_2 13250) by (unfold decimal_12_2; simpl; lia).
  assert (Hbody : body_accepted Cases.manual (Some "manual") None) by (split; reflexivity).
  split.
  - destruct (proj1 C2_each_payment_call_appends_a_record
                    (Scenario.at_ Scenario.t0 2) (Scenario.at_ Scenario.t0 3) 1%nat
                    Scenario.alice 100%nat Cases.manual Cases.manual Cases.db1
                    Cases.invoice1 13250%Z (Some "manual") None (Some "manual") None
                    eq_refl eq_refl eq_refl Hz Hbody Hbody eq_refl eq_refl Hne)
      as (_ & Hpay & _).
    unfold Cases.mark_paid_at. rewrite Hpay. reflexivity.
  - destruct (proj2 C2_each_payment_call_appends_a_record
                    (Scenario.at_ Scenario.t0 4) Scenario.Date_of_seconds
                    (Cases.intent 13250) 100%nat 1%nat "pi_1"
                    Cases.db1 Cases.invoice1 eq_refl eq_refl Hin eq_refl eq_refl Hz
                    eq_refl eq_refl)
      as (Hpay & _).
    unfold Cases.succeeded_at, run. cbn [fold_left step]. rewrite Hpay. reflexivity.
Defined.

(** C2, as stated, fails: after two manual mark-paid calls for the invoice
    of the scenario, after one payment-succeeded event delivered twice, and
    after a manual mark-paid followed by the event, the invoice has two
    completed Payment Records, not one; and an event for another amount
    replaces the paid_amount of the manual payment. *)
Lemma C2_counterexample :
  ~ exactly_one_completed 100 (run [Cases.mark_paid_at 2; Cases.mark_paid_at 3] Cases.db1)
  /\ ~ exactly_one_completed 100
         (run [Cases.succeeded_at 2 13250; Cases.succeeded_at 3 13250] Cases.db1)
  /\ ~ exactly_one_completed 100
         (run [Cases.mark_paid_at 2; Cases.succeeded_at 3 13250] Cases.db1)
  /\ (exists i,
         find_invoice 100 1 (run [Cases.mark_paid_at 2] Cases.db1) = Some i
         /\ inv_paid_amount i = inv_total Cases.invoice1)
  /\ (exists i,
         find_invoice 100 1 (run [Cases.mark_paid_at 2; Cases.succeeded_at 3 10000]
                                 Cases.db1) = Some i
         /\ inv_paid_amount i = Some 10000%Z
         /\ inv_paid_amount i <> inv_total Cases.invoice1).
Proof.
  unfold exactly_one_completed.
  split; [vm_compute; discriminate|].
  split; [vm_compute; discriminate|].
  split; [vm_compute; discriminate|].
  split.
  - eexists. split; vm_compute; reflexivity.
  - eexists. split; [vm_compute; reflexivity|].
    split; [vm_compute; reflexivity|]. vm_compute. discriminate.
Qed.

(** ** A paid invoice stays paid *)

Local Open Scope string_scope.
Local Open Scope list_scope.
Local Open Scope Q_scope.

(** The status that an accepted update writes is the one its object
    names. *)
Lemma change_status e p c :
  invoice_change_of e p = Some c ->
  assign (accept invoice_status_of) (p_status p) = Some (ch_status c).
Proof.
  unfold invoice_change_of.
  destruct (assign (accept invoice_status_of) (p_status p)) as [status|]; [|discriminate].
  repeat match goal with
         | |- context [match ?x with Some _ => _ | None => None end] =>
             destruct x; [|discriminate]
         end.
  intros H. now injection H as <-.
Qed.

Lemma unique_row (l : list invoice) (x y : invoice) :
  NoDup (map inv_id l) -> In x l -> In y l -> inv_id x = inv_id y -> x = y.
Proof.
  induction l as [|a l IH]; simpl; intros Hnd Hx Hy Heq; [contradiction|].
  inversion Hnd as [|? ? Hnotin Hnd']; subst.
  destruct Hx as [<-|Hx], Hy as [<-|Hy]; auto.
  - exfalso. apply Hnotin. rewrite Heq. now apply in_map.
  - exfalso. apply Hnotin. rewrite <- Heq. now apply in_map.
Qed.

(** The paid row is the row a tenant finds under its id. *)
Lemma found_is_paid k userId s existing :
  unique_ids s -> paid_in k s -> find_invoice k userId s = Some existing ->
  inv_status existing = Some paid.
Proof.
  intros Hu (i & Hi & Hid & Hst) Hfind.
  apply find_invoice_In in Hfind as (Hin & Hid' & _).
  rewrite (unique_row (invoices s) existing i Hu Hin Hi); congruence.
Qed.

Lemma changed_keeps_paid k id c s :
  (id <> k \/ ch_status c = None \/ ch_status c = Some (Some paid)) ->
  unique_ids s /\ paid_in k s ->
  unique_ids (changed id c s) /\ paid_in k (changed id c s).
Proof.
  intros Hsafe [Hu (i & Hi & Hid & Hst)]. split.
  - unfold unique_ids. now rewrite changed_ids.
  - exists (if (inv_id i =? id)%nat then apply_change c i else i). split; [|split].
    + unfold changed. cbn [invoices set_invoices].
      apply in_map_iff. now exists i.
    + now destruct (inv_id i =? id)%nat.
    + destruct (inv_id i =? id)%nat eqn:E; [|assumption].
      apply Nat.eqb_eq in E. cbn [apply_change inv_status].
      destruct Hsafe as [Hne|[-> | ->]]; [congruence| |reflexivity].
      exact Hst.
Qed.

Lemma same_invoices_keep_paid k s s' :
  invoices s' = invoices s ->
  unique_ids s /\ paid_in k s -> unique_ids s' /\ paid_in k s'.
Proof. unfold unique_ids, paid_in. now intros ->. Qed.

(** An update whose object names no status, or the status paid, keeps a
    paid invoice paid, whether the store accepts it or not. *)
Lemma update_keeps_paid k e id p s rows s' :
  (id <> k \/ p_status p = undefined \/ p_status p = just "paid") ->
  update_invoice e id p s = Some (rows, s') ->
  unique_ids s /\ paid_in k s -> unique_ids s' /\ paid_in k s'.
Proof.
  intros Hsafe Hup H.
  destruct (update_invoice_cases e id p s) as [E|[E|(c & Hc & E)]];
    rewrite E in Hup; [injection Hup as _ <-; exact H|discriminate|].
  injection Hup as _ <-. fold (changed id c s).
  apply changed_keeps_paid; [|exact H].
  apply change_status in Hc.
  destruct Hsafe as [Hne|[Hp|Hp]]; [now left|right; left|right; right];
    rewrite Hp in Hc; simpl in Hc; congruence.
Qed.

Lemma discard_update_keeps_paid k e id p s :
  (id <> k \/ p_status p = undefined \/ p_status p = just "paid") ->
  unique_ids s /\ paid_in k s ->
  unique_ids (discard (update_invoice_ e id p) s)
  /\ paid_in k (discard (update_invoice_ e id p) s).
Proof.
  intros Hsafe H. unfold discard, update_invoice_.
  destruct (update_invoice e id p s) as [[rows s']|] eqn:E; [|exact H].
  exact (update_keeps_paid k e id p s rows s' Hsafe E H).
Qed.

Lemma delete_keeps_paid k id s :
  id <> k -> unique_ids s /\ paid_in k s ->
  unique_ids (delete_invoice id s) /\ paid_in k (delete_invoice id s).
Proof.
  intros Hne [Hu (i & Hi & Hid & Hst)]. split.
  - unfold unique_ids, delete_invoice. cbn [invoices]. now apply NoDup_map_filter.
  - exists i. split; [|auto]. unfold delete_invoice. cbn [invoices].
    apply filter_In. split; [assumption|].
    apply negb_true_iff, Nat.eqb_neq. congruence.
Qed.

Lemma appended_keeps_paid k row s :
  existsb (fun i => (inv_id i =? inv_id row)%nat) (invoices s) = false ->
  unique_ids s /\ paid_in k s ->
  unique_ids (set_invoices (invoices s ++ [row]) s)
  /\ paid_in k (set_invoices (invoices s ++ [row]) s).
Proof.
  intros Hfresh [Hu (i & Hi & Hid & Hst)]. split.
  - unfold unique_ids. cbn [invoices set_invoices]. rewrite map_app. simpl.
    apply NoDup_app; [assumption|repeat constructor; intros []|].
    intros x Hx [<-|[]]. apply in_map_iff in Hx as (y & Hy & Hin).
    pose proof (existsb_false_forall _ _ Hfresh y Hin) as Hne. cbv beta in Hne.
    rewrite Hy, Nat.eqb_refl in Hne. discriminate.
  - exists i. split; [|auto]. cbn [invoices set_invoices]. apply in_or_app. now left.
Qed.

Lemma createInvoice_keeps_paid k e u body s :
  unique_ids s /\ paid_in k s ->
  unique_ids (snd (createInvoice e u body s)) /\ paid_in k (snd (createInvoice e u body s)).
Proof.
  intros H. rewrite createInvoice_cases.
  destruct (negb (under_plan_limit e u s)); [exact H|].
  destruct (negb (owns_client u _ s)); [exact H|].
  destruct (insert_invoice _ _ s) as [[rows0 s1]|] eqn:E1; [|exact H].
  apply insert_invoice_accepts in E1 as (row & Hrow & -> & -> & Hfresh & _).
  apply invoice_row_keys in Hrow as (Hid & _). cbn [created_values iv_id] in Hid.
  destruct (insert_invoice_items _ _) as [s2|] eqn:E2; cbn [snd].
  - apply insert_invoice_items_accepts in E2 as (rows & _ & ->).
    apply (same_invoices_keep_paid k (set_invoices (invoices s ++ [row]) s));
      [reflexivity|].
    now apply appended_keeps_paid.
  - apply (same_invoices_keep_paid k s); [|exact H].
    cbn [delete_invoice set_invoices invoices]. rewrite <- Hid.
    apply (delete_after_insert row s Hfresh).
Qed.

Lemma updateData_status existing body :
  p_status (updateData_of existing body) = ub_status body.
Proof. unfold updateData_of. now destruct (ub_items body). Qed.

Lemma updateInvoice_keeps_paid k e u id body s :
  unique_ids s /\ paid_in k s ->
  unique_ids (snd (updateInvoice e u id body s))
  /\ paid_in k (snd (updateInvoice e u id body s)).
Proof.
  intros H. rewrite updateInvoice_cases.
  destruct (find_invoice id (u_id u) s) as [existing|] eqn:Hfind; [|exact H].
  destruct (status_is paid (inv_status existing) && is_not "paid" (ub_status body))
    eqn:Hguard; [exact H|].
  cbv zeta.
  assert (H1 : unique_ids (replace_items e id body s)
               /\ paid_in k (replace_items e id body s))
    by (apply (same_invoices_keep_paid k s); [apply replace_items_invoices|exact H]).
  destruct (update_invoice _ _ _ _) as [[rows s2]|] eqn:E; [|exact H1].
  assert (H2 : unique_ids s2 /\ paid_in k s2).
  { apply (update_keeps_paid k e id _ _ rows s2) with (2 := E); [|exact H1].
    rewrite updateData_status.
    destruct (Nat.eq_dec id k) as [->|Hne]; [|now left]. right. right.
    destruct H as [Hu Hp].
    pose proof (found_is_paid k (u_id u) s existing Hu Hp Hfind) as Hst.
    rewrite Hst in Hguard. simpl in Hguard. now apply is_not_false. }
  destruct rows as [|row [|row' rows]]; cbn [snd]; assumption.
Qed.

Lemma remindInvoice_keeps_paid k e u id s :
  unique_ids s /\ paid_in k s ->
  unique_ids (snd (remindInvoice e u id s)) /\ paid_in k (snd (remindInvoice e u id s)).
Proof.
  intros H. rewrite remindInvoice_cases.
  destruct (find_invoice id (u_id u) s) as [invoice|]; [|exact H].
  destruct (status_is paid (inv_status invoice)); [exact H|].
  apply discard_update_keeps_paid; [right; left; reflexivity|exact H].
Qed.

Lemma markPaid_keeps_paid k e u id body s :
  unique_ids s /\ paid_in k s ->
  unique_ids (snd (markPaid e u id body s)) /\ paid_in k (snd (markPaid e u id body s)).
Proof.
  intros H. rewrite markPaid_cases.
  destruct (find_invoice id (u_id u) s) as [invoice|]; [|exact H].
  unfold update_invoice_.
  destruct (update_invoice _ _ _ s) as [[rows s1]|] eqn:E; [|exact H]. cbn [snd].
  eapply same_invoices_keep_paid; [apply discard_insert_payment_invoices|].
  apply (update_keeps_paid k e id _ s rows s1) with (2 := E); [|exact H].
  right; right; reflexivity.
Qed.

Lemma deleteInvoice_keeps_paid k u id s :
  unique_ids s /\ paid_in k s ->
  unique_ids (snd (deleteInvoice u id s)) /\ paid_in k (snd (deleteInvoice u id s)).
Proof.
  intros H. rewrite deleteInvoice_cases.
  destruct (find_invoice id (u_id u) s) as [invoice|] eqn:Hfind; [|exact H].
  destruct (status_is paid (inv_status invoice)) eqn:Hst; [exact H|].
  apply delete_keeps_paid; [|exact H].
  intros ->. destruct H as [Hu Hp].
  rewrite (found_is_paid k (u_id u) s invoice Hu Hp Hfind) in Hst. discriminate.
Qed.

(** ** The Stripe webhook and the tables of the invoice routes *)

Lemma upsert_subscription_frame id user_id sid customer plan_ status s s1 :
  upsert_subscription id user_id sid customer plan_ status s = Some s1 ->
  users s1 = users s /\ same_invoicing s s1.
Proof.
  unfold upsert_subscription, same_invoicing.
  destruct user_id as [userId|]; [|discriminate].
  destruct (subscription_status_of status) as [st|]; [|discriminate].
  destruct (negb _); [discriminate|]. destruct (existsb _ _); [discriminate|].
  destruct (existsb _ _); intros H; injection H as <-; repeat split.
Qed.

Lemma handleSubscriptionUpdate_frame e D subscription s :
  same_invoicing s (snd (handleSubscriptionUpdate e D subscription s)).
Proof.
  assert (Hup : forall id uid sid c p st s0,
             users (discard (upsert_subscription id uid sid c p st) s0) = users s0
             /\ same_invoicing s0 (discard (upsert_subscription id uid sid c p st) s0)).
  { intros. unfold discard.
    destruct (upsert_subscription id uid sid c p st s0) as [s1|] eqn:E.
    - exact (upsert_subscription_frame _ _ _ _ _ _ _ _ E).
    - unfold same_invoicing. repeat split. }
  unfold handleSubscriptionUpdate. run_handler.
  destruct (so_metadata_user_id subscription) as [userId|]; cbv beta iota;
    [|destruct (is_some _); cbv beta iota; [|unfold same_invoicing; cbn [snd]; repeat split]].
  all: match goal with
       | |- context [discard (upsert_subscription ?a ?b ?c ?d ?p ?st) ?s0] =>
           destruct (Hup a b c d p st s0) as (_ & H1 & H2 & H3 & H4 & H5)
       end.
  all: destruct (_ || _); unfold same_invoicing;
    cbn [snd set_users clients invoices invoice_items payments audit_logs];
    repeat split; assumption.
Qed.

(** An event other than payment_intent.succeeded leaves the table of
    invoices as it was. *)
Lemma other_events_invoices e D ev s :
  writes_invoices ev = false -> invoices (stripe_webhook e D ev s) = invoices s.
Proof.
  unfold stripe_webhook.
  destruct ev as [session|subscription|subscription|subscription|invoice|invoice
                  |paymentIntent|type];
    cbn [Webhook.dispatch Webhook.on_core core writes_invoices]; intros Hev;
    try discriminate; try reflexivity.
  - unfold handleCheckoutComplete. destruct (cs_metadata_user_id session);
      run_handler; reflexivity.
  - apply (handleSubscriptionUpdate_frame e D subscription s).
  - apply (handleSubscriptionUpdate_frame e D subscription s).
Qed.

Lemma step_keeps_paid k s c :
  unique_ids s /\ paid_in k s -> unique_ids (step s c) /\ paid_in k (step s c).
Proof.
  intros H. destruct c as [e userId r|e D event]; cbn [step].
  - unfold invoices_router. destruct (authenticate userId s) as [denied|u]; [exact H|].
    destruct r as [body|id body|id|id body|id].
    + rewrite asyncHandler_snd. now apply createInvoice_keeps_paid.
    + rewrite asyncHandler_snd. now apply updateInvoice_keeps_paid.
    + destruct (requirePlan _ u); [exact H|].
      rewrite asyncHandler_snd. now apply remindInvoice_keeps_paid.
    + rewrite asyncHandler_snd. now apply markPaid_keeps_paid.
    + rewrite asyncHandler_snd. now apply deleteInvoice_keeps_paid.
  - destruct (writes_invoices event) eqn:Hev.
    + destruct event; try discriminate.
      unfold stripe_webhook. cbn [Webhook.dispatch Webhook.on_core core].
      unfold handlePaymentIntentSucceeded.
      destruct (pi_metadata_invoice_id paymentIntent) as [invoiceId|]; [|exact H].
      run_handler. cbn [snd].
      eapply same_invoices_keep_paid; [apply discard_insert_payment_invoices|].
      apply discard_update_keeps_paid; [right; right; reflexivity|exact H].
    + eapply same_invoices_keep_paid; [now apply other_events_invoices|exact H].
Qed.

Lemma run_keeps_paid k calls s :
  unique_ids s /\ paid_in k s -> unique_ids (run calls s) /\ paid_in k (run calls s).
Proof.
  revert s. induction calls as [|c calls IH]; intros s H; [exact H|].
  unfold run. cbn [fold_left]. apply IH. now apply step_keeps_paid.
Qed.

(** C3, as the code has it.  Only paid is final.  With unique invoice ids,
    a paid invoice is still there and still paid after any sequence of calls
    to the invoice routes (create, update, remind, mark-paid, delete) and of
    Stripe events of any type.  On a paid invoice an update that does not
    itself carry status paid fails with HTTP 400 "Cannot modify a paid
    invoice", a delete fails with HTTP 400 "Cannot delete a paid invoice",
    and both leave the store as it was. *)
Theorem C3_paid_is_final :
  (forall k calls s,
      unique_ids s -> paid_in k s ->
      unique_ids (run calls s) /\ paid_in k (run calls s))
  /\ (forall e userId u id body s existing,
         authenticate userId s = inr u ->
         find_invoice id (u_id u) s = Some existing ->
         inv_status existing = Some paid ->
         ub_status body <> just "paid" ->
         invoices_router e userId (PUT_invoice id body) s
         = (Failure 400 (Some INTERNAL_ERROR) "Cannot modify a paid invoice", s))
  /\ (forall e userId u id s existing,
         authenticate userId s = inr u ->
         find_invoice id (u_id u) s = Some existing ->
         inv_status existing = Some paid ->
         invoices_router e userId (DELETE_invoice id) s
         = (Failure 400 (Some INTERNAL_ERROR) "Cannot delete a paid invoice", s)).
Proof.
  split; [|split].
  - intros k calls s Hu Hp. now apply run_keeps_paid.
  - intros e userId u id body s existing Hauth Hfind Hst Hbody.
    unfold invoices_router. rewrite Hauth. unfold asyncHandler.
    rewrite updateInvoice_cases, Hfind, Hst.
    destruct (is_not "paid" (ub_status body)) eqn:E; [reflexivity|].
    apply is_not_false in E. contradiction.
  - intros e userId u id s existing Hauth Hfind Hst.
    unfold invoices_router. rewrite Hauth. unfold asyncHandler.
    now rewrite deleteInvoice_cases, Hfind, Hst.
Qed.

Lemma C3_paid_is_final_witness :
  paid_in 100 (run [api (Scenario.at_ Scenario.t0 3) 1
                        (PUT_invoice 100 (Cases.status_only "cancelled"));
                    api (Scenario.at_ Scenario.t0 4) 1 (DELETE_invoice 100);
                    Cases.mark_paid_at 5;
                    stripe (Scenario.at_ Scenario.t0 6) Scenario.Date_of_seconds
                           (Webhook.invoice_payment_failed
                              (mkStripeInvoice "in_1" 13250 "cus_1"))]
                   Cases.db_paid)
  /\ invoices_router (Scenario.at_ Scenario.t0 3) 1
                     (PUT_invoice 100 (Cases.status_only "cancelled"))
                     Cases.db_paid
     = (Failure 400 (Some INTERNAL_ERROR) "Cannot modify a paid invoice", Cases.db_paid)
  /\ invoices_router (Scenario.at_ Scenario.t0 4) 1 (DELETE_invoice 100) Cases.db_paid
     = (Failure 400 (Some INTERNAL_ERROR) "Cannot delete a paid invoice", Cases.db_paid).
Proof.
  assert (Hu : unique_ids Cases.db_paid) by (vm_compute; repeat constructor; intros []).
  assert (Hp : paid_in 100 Cases.db_paid).
  { eexists. split; [vm_compute; left; reflexivity|]. split; reflexivity. }
  assert (Hfind : exists i, find_invoice 100 (u_id Scenario.alice) Cases.db_paid = Some i
                            /\ inv_status i = Some paid).
  { exists Cases.invoice1_paid. split; reflexivity. }
  destruct Hfind as (i & Hfind & Hst).
  split; [|split].
  - exact (proj2 (proj1 C3_paid_is_final 100%nat _ Cases.db_paid Hu Hp)).
  - apply (proj1 (proj2 C3_paid_is_final) _ 1%nat Scenario.alice 100%nat _
                 Cases.db_paid i eq_refl Hfind Hst).
    discriminate.
  - exact (proj2 (proj2 C3_paid_is_final) _ 1%nat Scenario.alice 100%nat
                 Cases.db_paid i eq_refl Hfind Hst).
Defined.

(** C3, as stated, fails.  A cancelled invoice is moved to pending by an
    update, to paid by mark-paid, and is deleted by delete, all with
    success; and mark-paid on a paid invoice is answered with success, not
    with an error. *)
Lemma C3_counterexample :
  (exists i, find_invoice 100 1 Cases.db_cancelled = Some i
             /\ inv_status i = Some cancelled)
  /\ (exists i' s',
         invoices_router (Scenario.at_ Scenario.t0 3) 1
                         (PUT_invoice 100 (Cases.status_only "pending")) Cases.db_cancelled
         = (Success 200 "Invoice updated" (invoice_data i'), s')
         /\ find_invoice 100 1 s' = Some i' /\ inv_status i' = Some pending)
  /\ (exists i' s',
         invoices_router (Scenario.at_ Scenario.t0 3) 1
                         (POST_mark_paid 100 Cases.manual) Cases.db_cancelled
         = (Success 200 "Invoice marked as paid" no_data, s')
         /\ find_invoice 100 1 s' = Some i' /\ inv_status i' = Some paid)
  /\ (exists s',
         invoices_router (Scenario.at_ Scenario.t0 3) 1 (DELETE_invoice 100)
                         Cases.db_cancelled
         = (Success 200 "Invoice deleted" no_data, s')
         /\ invoices s' = [])
  /\ fst (invoices_router (Scenario.at_ Scenario.t0 3) 1
                          (POST_mark_paid 100 Cases.manual) Cases.db_paid)
     = Success 200 "Invoice marked as paid" no_data.
Proof.
  split; [exists (Cases.invoice1_as cancelled); split; reflexivity|].
  split; [do 2 eexists; split; [vm_compute; reflexivity|split; vm_compute; reflexivity]|].
  split; [do 2 eexists; split; [vm_compute; reflexivity|split; vm_compute; reflexivity]|].
  split; [eexists; split; vm_compute; reflexivity|].
  vm_compute. reflexivity.
Qed.

(** ** Reminders *)

Local Open Scope string_scope.
Local Open Scope list_scope.
Local Open Scope Q_scope.

Lemma remind_effect e id invoice s :
  discard (update_invoice_ e id (reminder_patch e invoice)) s
  = changed id (reminder_change e invoice) s.
Proof. reflexivity. Qed.

(** C8, as the code has it.  For a tenant on the pro or business plan and
    an invoice the tenant owns, remind succeeds exactly when the status is
    not paid (draft, pending, overdue or cancelled): reminder_count grows by
    one, reminder_sent_at is stamped with the current time and nothing else
    of the invoice changes.  When the status is paid it fails with HTTP 400
    "Invoice is already paid" and the store is left as it was. *)
Theorem C8_remind_unless_paid e userId u id s invoice :
  authenticate userId s = inr u ->
  u_plan u <> free ->
  find_invoice id (u_id u) s = Some invoice ->
  (inv_status invoice <> Some paid ->
   exists s' invoice',
     invoices_router e userId (POST_remind id) s
     = (Success 200 "Reminder sent successfully" no_data, s')
     /\ find_invoice id (u_id u) s' = Some invoice'
     /\ inv_reminder_count invoice' = (inv_reminder_count invoice + 1)%nat
     /\ inv_reminder_sent_at invoice' = Some (now e)
     /\ invoice'
        = mkInvoice (inv_id invoice) (inv_user_id invoice) (inv_client_id invoice)
            (inv_invoice_number invoice) (inv_status invoice) (inv_due_date invoice)
            (inv_subtotal invoice) (inv_tax_rate invoice) (inv_tax_amount invoice)
            (inv_discount_amount invoice) (inv_total invoice) (inv_notes invoice)
            (inv_terms invoice) (inv_paid_at invoice) (inv_paid_amount invoice)
            (inv_payment_method invoice) (inv_stripe_payment_intent_id invoice)
            (Some (now e)) (inv_reminder_count invoice + 1)%nat (inv_created_at invoice))
  /\ (inv_status invoice = Some paid ->
      invoices_router e userId (POST_remind id) s
      = (Failure 400 (Some INTERNAL_ERROR) "Invoice is already paid", s)).
Proof.
  intros Hauth Hplan Hfind.
  assert (Hrouter : invoices_router e userId (POST_remind id) s
                    = asyncHandler (remindInvoice e u id) s).
  { unfold invoices_router. rewrite Hauth. unfold requirePlan.
    destruct (u_plan u); [contradiction| |]; reflexivity. }
  rewrite Hrouter. unfold asyncHandler. rewrite remindInvoice_cases, Hfind.
  split; intros Hst.
  - destruct (status_is paid (inv_status invoice)) eqn:E.
    + apply status_is_Some in E. contradiction.
    + do 2 eexists. split; [reflexivity|]. rewrite remind_effect.
      split; [apply (find_after_change id (u_id u) (reminder_change e invoice) s);
              [exact Hfind|reflexivity]|].
      repeat split.
  - rewrite Hst. reflexivity.
Qed.

Lemma C8_remind_unless_paid_witness :
  (exists s' invoice',
      invoices_router (Scenario.at_ Scenario.t0 3) 1 (POST_remind 100) Cases.db_draft
      = (Success 200 "Reminder sent successfully" no_data, s')
      /\ find_invoice 100 1 s' = Some invoice'
      /\ inv_reminder_count invoice' = 1%nat)
  /\ invoices_router (Scenario.at_ Scenario.t0 3) 1 (POST_remind 100) Cases.db_paid
     = (Failure 400 (Some INTERNAL_ERROR) "Invoice is already paid", Cases.db_paid).
Proof.
  assert (Hplan : u_plan Scenario.alice <> free) by discriminate.
  assert (Hdraft : exists i, find_invoice 100 (u_id Scenario.alice) Cases.db_draft = Some i
                             /\ inv_status i = Some draft
                             /\ inv_reminder_count i = 0%nat).
  { exists (Cases.invoice1_as draft). repeat split. }
  assert (Hpaid : exists i, find_invoice 100 (u_id Scenario.alice) Cases.db_paid = Some i
                            /\ inv_status i = Some paid).
  { exists Cases.invoice1_paid. split; reflexivity. }
  destruct Hdraft as (i & Hfind & Hst & Hcount). destruct Hpaid as (j & Hfindj & Hstj).
  split.
  - destruct (proj1 (C8_remind_unless_paid (Scenario.at_ Scenario.t0 3) 1%nat Scenario.alice
                       100%nat Cases.db_draft i eq_refl Hplan Hfind))
      as (s' & i' & Hresp & Hfind' & Hc & _).
    + rewrite Hst. discriminate.
    + exists s', i'. rewrite Hc, Hcount. repeat split; assumption.
  - exact (proj2 (C8_remind_unless_paid (Scenario.at_ Scenario.t0 3) 1%nat Scenario.alice
                    100%nat Cases.db_paid j eq_refl Hplan Hfindj) Hstj).
Defined.

(** C8, as stated, fails: remind on a draft invoice and on a cancelled
    invoice is answered with success and counts a reminder; it does not
    fail with AlreadyPaid. *)
Lemma C8_counterexample :
  (exists i, find_invoice 100 1 Cases.db_draft = Some i
             /\ inv_status i = Some draft /\ inv_reminder_count i = 0%nat)
  /\ (exists s' i',
         invoices_router (Scenario.at_ Scenario.t0 3) 1 (POST_remind 100) Cases.db_draft
         = (Success 200 "Reminder sent successfully" no_data, s')
         /\ find_invoice 100 1 s' = Some i' /\ inv_reminder_count i' = 1%nat)
  /\ (exists i, find_invoice 100 1 Cases.db_cancelled = Some i
                /\ inv_status i = Some cancelled /\ inv_reminder_count i = 0%nat)
  /\ (exists s' i',
         invoices_router (Scenario.at_ Scenario.t0 3) 1 (POST_remind 100) Cases.db_cancelled
         = (Success 200 "Reminder sent successfully" no_data, s')
         /\ find_invoice 100 1 s' = Some i' /\ inv_reminder_count i' = 1%nat).
Proof.
  split; [exists (Cases.invoice1_as draft); repeat split|].
  split; [do 2 eexists; split; [vm_compute; reflexivity|split; vm_compute; reflexivity]|].
  split; [exists (Cases.invoice1_as cancelled); repeat split|].
  do 2 eexists; split; [vm_compute; reflexivity|split; vm_compute; reflexivity].
Qed.

(** ** Subscription deleted *)

Lemma eq_column_true column value : eq_column column value = true <-> column = Some value.
Proof.
  unfold eq_column. destruct column as [v|]; [|split; discriminate].
  rewrite String.eqb_eq. split; congruence.
Qed.

Lemma Forall2_map_r {A : Type} (R : A -> A -> Prop) (g : A -> A) (l : list A) :
  (forall x, R x (g x)) -> Forall2 R l (map g l).
Proof. intros H. induction l; simpl; constructor; auto. Qed.

(** C7. Reconciling a subscription-deleted event sets status cancelled (and
    cancelled_at) on the Subscription rows whose external subscription id is
    the event's, sets the plan to free and clears the external subscription
    link on the tenants whose processor customer id is the event's customer,
    and changes nothing else: every other field of those rows, every other
    row and every other table is as before. *)
Theorem C7_subscription_deleted_downgrades e D subscription s :
  let s' := stripe_webhook e D (Webhook.customer_subscription_deleted subscription) s in
  Forall2 (fun r r' =>
             (sub_stripe_subscription_id r = Some (ss_id subscription) ->
              r' = mkSubscription (sub_id r) (sub_user_id r) (sub_stripe_subscription_id r)
                                  (sub_stripe_customer_id r) (sub_plan r)
                                  sub_cancelled (Some (now e)))
             /\ (sub_stripe_subscription_id r <> Some (ss_id subscription) -> r' = r))
          (subscriptions s) (subscriptions s')
  /\ Forall2 (fun u u' =>
                (u_stripe_customer_id u = Some (ss_customer subscription) ->
                 u' = mkUser (u_id u) (u_email u) (u_name u) free (u_plan_expires_at u)
                             (u_stripe_customer_id u) None (u_is_active u))
                /\ (u_stripe_customer_id u <> Some (ss_customer subscription) -> u' = u))
             (users s) (users s')
  /\ clients s' = clients s
  /\ invoices s' = invoices s
  /\ invoice_items s' = invoice_items s
  /\ payments s' = payments s
  /\ audit_logs s' = audit_logs s.
Proof.
  intros s'. subst s'. unfold stripe_webhook.
  cbn [Webhook.dispatch Webhook.on_core core]. unfold handleSubscriptionDeleted.
  run_handler. cbn [snd set_users set_subscriptions users subscriptions clients invoices
                        invoice_items payments audit_logs].
  split; [|split; [|repeat split]].
  - apply Forall2_map_r. intros r.
    destruct (eq_column (sub_stripe_subscription_id r) (ss_id subscription)) eqn:E.
    + split; [reflexivity|]. intros Hne. apply eq_column_true in E. contradiction.
    + split; [|reflexivity]. intros Heq. apply eq_column_true in Heq. congruence.
  - apply Forall2_map_r. intros u.
    destruct (eq_column (u_stripe_customer_id u) (ss_customer subscription)) eqn:E.
    + split; [reflexivity|]. intros Hne. apply eq_column_true in E. contradiction.
    + split; [|reflexivity]. intros Heq. apply eq_column_true in Heq. congruence.
Qed.

(** The scenario's tenant, whose customer id is cus_1, ends on the free
    plan without a subscription link; the other tenant is untouched. *)
Example subscription_deleted_scenario :
  let s' := stripe_webhook (Scenario.at_ Scenario.t0 9) Scenario.Date_of_seconds
              (Webhook.customer_subscription_deleted (mkStripeSubscription "sub_1" "cus_1"))
              Scenario.db0 in
  users s' = [mkUser 1 "alice@example.com" "Alice" free None (Some "cus_1") None true;
              Scenario.bob]
  /\ map sub_status (subscriptions s') = [sub_cancelled].
Proof. split; reflexivity. Qed.

(** ** Sign of the total *)

(** The columns that an accepted update writes are the ones its object
    names. *)
Lemma change_amounts e p c :
  invoice_change_of e p = Some c ->
  assign (numeric_column 5) (p_tax_rate p) = Some (ch_tax_rate c)
  /\ assign (numeric_column 12) (p_discount_amount p) = Some (ch_discount_amount c)
  /\ assign (numeric_column 12) (p_subtotal p) = Some (ch_subtotal c)
  /\ assign (numeric_column 12) (p_tax_amount p) = Some (ch_tax_amount c)
  /\ assign (numeric_column 12) (p_total p) = Some (ch_total c).
Proof.
  unfold invoice_change_of.
  destruct (assign (accept invoice_status_of) (p_status p)); [|discriminate].
  destruct (match p_due_date p with undefined => _ | null => _ | just d => _ end);
    [|discriminate].
  destruct (assign (accept text_in) (p_notes p)); [|discriminate].
  destruct (assign (accept text_in) (p_terms p)); [|discriminate].
  destruct (assign (numeric_column 5) (p_tax_rate p)); [|discriminate].
  destruct (assign (numeric_column 12) (p_discount_amount p)); [|discriminate].
  destruct (assign (numeric_column 12) (p_subtotal p)); [|discriminate].
  destruct (assign (numeric_column 12) (p_tax_amount p)); [|discriminate].
  destruct (assign (numeric_column 12) (p_total p)); [|discriminate].
  repeat match goal with
         | |- context [match ?x with Some _ => _ | None => None end] =>
             destruct x; [|discriminate]
         end.
  intros H. injection H as <-. repeat split.
Qed.

(** The row PUT answers with is the changed row of the tenant. *)
Lemma updateInvoice_updated e userId u id body s existing http message invoice' s' :
  authenticate userId s = inr u ->
  find_invoice id (u_id u) s = Some existing ->
  invoices_router e userId (PUT_invoice id body) s
  = (Success http message (invoice_data invoice'), s') ->
  exists c,
    invoice_change_of e (updateData_of existing body) = Some c
    /\ invoice' = apply_change c existing
    /\ s' = changed id c (replace_items e id body s).
Proof.
  intros Hauth Hfind. unfold invoices_router. rewrite Hauth. unfold asyncHandler.
  rewrite updateInvoice_cases, Hfind.
  destruct (_ && _); [discriminate|]. cbv zeta.
  set (s1 := replace_items e id body s).
  destruct (update_invoice_cases e id (updateData_of existing body) s1)
    as [E|[E|(c & Hc & E)]]; rewrite E; try discriminate.
  assert (Hfind1 : find_invoice id (u_id u) s1 = Some existing).
  { rewrite (find_invoice_invoices _ _ s); [assumption|apply replace_items_invoices]. }
  pose proof (find_invoice_In _ _ _ _ Hfind1) as (Hin & Hid & _).
  destruct (filter (fun i => (inv_id i =? id)%nat) (invoices s1))
    as [|x [|y rest]] eqn:Hrows; cbn [map]; try discriminate.
  intros H. injection H as _ _ <- <-.
  assert (Hmem : In existing (filter (fun i => (inv_id i =? id)%nat) (invoices s1))).
  { apply filter_In. split; [assumption|]. now apply Nat.eqb_eq. }
  rewrite Hrows in Hmem. destruct Hmem as [->|[]].
  exists c. repeat split. exact Hc.
Qed.

Lemma item_amount_not_negative item :
  0 < item_quantity item /\ 0 <= item_price item -> not_negative (item_amount item).
Proof.
  intros [Hq Hp]. unfold item_amount, JSON_number.
  apply js_mul_not_negative; apply double_not_negative; [now apply Qlt_le_weak|assumption].
Qed.

Lemma reduce_subtotal_not_negative items :
  valid_items items -> not_negative (reduce_subtotal items).
Proof.
  unfold reduce_subtotal. intros H.
  assert (Hacc : not_negative (Finite 0)) by (simpl; lra).
  revert Hacc. generalize (Finite 0) as acc.
  induction H as [|item rest Hitem _ IH]; intros acc Hacc; simpl; [exact Hacc|].
  apply IH. apply js_add_not_negative; [exact Hacc|now apply item_amount_not_negative].
Qed.

Lemma tax_not_negative subtotal rate :
  not_negative subtotal -> not_negative (ToNumber rate) ->
  not_negative (tax_of subtotal rate).
Proof.
  intros Hs Hr. unfold tax_of.
  apply js_mul_not_negative; [exact Hs|now apply js_div_100_not_negative].
Qed.

Lemma request_tax_rate_not_negative body :
  not_below_zero (cb_tax_rate body) -> not_negative (ToNumber (request_tax_rate body)).
Proof.
  unfold request_tax_rate, not_below_zero.
  destruct (cb_tax_rate body) as [| |q]; simpl; try lra.
  intros Hq. now apply double_not_negative.
Qed.

Lemma total_not_negative subtotal taxAmount discount a d :
  js_add subtotal taxAmount = Finite a -> ToNumber discount = Finite d -> d <= a ->
  not_negative (total_of subtotal taxAmount discount).
Proof.
  intros Ha Hd Hle. unfold total_of. rewrite Ha, Hd. now apply js_sub_not_negative.
Qed.

Lemma assigned_not_negative n c :
  not_negative n -> assign (numeric_column 12) (just n) = Some (Some c) ->
  column_not_negative c.
Proof.
  intros Hn. cbn [assign].
  destruct (numeric_column 12 n) as [c'|] eqn:E; [|discriminate].
  intros H. injection H as <-. exact (numeric_column_not_negative 12 n c' Hn E).
Qed.

(** C4, as the code has it.  The discount is not bounded.  For an invoice
    created by POST, or recomputed by PUT with items, from valid line items
    and a tax rate that is not negative: the stored subtotal and tax_amount
    are not negative (or NULL, for a number that JSON cannot write), the
    stored total is the computed total rounded to two decimals, and it is
    not negative (or NULL) whenever the discount that the handler subtracts
    does not exceed the computed subtotal plus tax. *)
Theorem C4_total_sign_follows_discount :
  (forall e userId body s http message inv its s',
      invoices_router e userId (POST_invoices body) s
      = (Success http message (invoice_with_items inv its), s') ->
      valid_items (cb_items body) ->
      not_below_zero (cb_tax_rate body) ->
      In inv (invoices s')
      /\ column_not_negative (inv_subtotal inv)
      /\ column_not_negative (inv_tax_amount inv)
      /\ numeric_column 12 (computed_total body) = Some (inv_total inv)
      /\ (forall a d,
             js_add (computed_subtotal body) (computed_tax body) = Finite a ->
             ToNumber (request_discount body) = Finite d ->
             d <= a ->
             column_not_negative (inv_total inv)))
  /\ (forall e userId u id body items s existing http message inv s',
         authenticate userId s = inr u ->
         find_invoice id (u_id u) s = Some existing ->
         invoices_router e userId (PUT_invoice id body) s
         = (Success http message (invoice_data inv), s') ->
         ub_items body = Some items ->
         valid_items items ->
         not_negative (ToNumber (rate_used existing body)) ->
         let subtotal := reduce_subtotal items in
         let taxAmount := tax_of subtotal (rate_used existing body) in
         In inv (invoices s')
         /\ column_not_negative (inv_subtotal inv)
         /\ column_not_negative (inv_tax_amount inv)
         /\ numeric_column 12 (total_of subtotal taxAmount (discount_used existing body))
            = Some (inv_total inv)
         /\ (forall a d,
                js_add subtotal taxAmount = Finite a ->
                ToNumber (discount_used existing body) = Finite d ->
                d <= a ->
                column_not_negative (inv_total inv))).
Proof.
  split.
  - intros e userId body s http message inv its s' H Hitems Hrate.
    apply createInvoice_created in H as (u & row & rows & _ & Hrow & _ & Hdata & -> & _).
    injection Hdata as -> _.
    split; [cbn [invoices set_audit_logs set_invoice_items set_invoices];
            apply in_or_app; right; now left|].
    apply invoice_row_keys in Hrow as (_ & _ & _ & _ & _ & _ & _ & Hs & Ht & Htot & _).
    cbn [created_values iv_subtotal iv_tax_amount iv_total] in Hs, Ht, Htot.
    pose proof (reduce_subtotal_not_negative _ Hitems) as Hsub.
    pose proof (tax_not_negative _ _ Hsub (request_tax_rate_not_negative _ Hrate)) as Htax.
    split; [exact (numeric_column_not_negative 12 _ _ Hsub Hs)|].
    split; [exact (numeric_column_not_negative 12 _ _ Htax Ht)|].
    split; [exact Htot|].
    intros a d Ha Hd Hle.
    exact (numeric_column_not_negative 12 _ _
             (total_not_negative _ _ _ a d Ha Hd Hle) Htot).
  - intros e userId u id body items s existing http message inv s'
           Hauth Hfind H Hbody Hitems Hrate subtotal taxAmount.
    destruct (updateInvoice_updated e userId u id body s existing http message inv s'
                Hauth Hfind H) as (c & Hc & -> & ->).
    apply find_invoice_In in Hfind as (Hin & Hid & _).
    split.
    { unfold changed. cbn [invoices set_invoices]. rewrite replace_items_invoices.
      apply in_map_iff. exists existing. split; [|assumption].
      apply Nat.eqb_eq in Hid. now rewrite Hid. }
    apply change_amounts in Hc as (_ & _ & Hs & Ht & Htot).
    unfold updateData_of in Hs, Ht, Htot. rewrite Hbody in Hs, Ht, Htot.
    cbn [p_subtotal p_tax_amount p_total] in Hs, Ht, Htot.
    fold subtotal in Hs, Ht, Htot. fold taxAmount in Ht, Htot.
    cbn [assign] in Hs, Ht, Htot.
    destruct (numeric_column 12 subtotal) as [cs|] eqn:Es; [|discriminate].
    destruct (numeric_column 12 taxAmount) as [ct|] eqn:Et; [|discriminate].
    destruct (numeric_column 12 (total_of _ _ _)) as [ctot|] eqn:Etot; [|discriminate].
    injection Hs as Hs. injection Ht as Ht. injection Htot as Htot.
    cbn [apply_change inv_subtotal inv_tax_amount inv_total].
    rewrite <- Hs, <- Ht, <- Htot. cbn [or_else].
    pose proof (reduce_subtotal_not_negative _ Hitems) as Hsub. fold subtotal in Hsub.
    pose proof (tax_not_negative _ _ Hsub Hrate) as Htax. fold taxAmount in Htax.
    split; [exact (numeric_column_not_negative 12 _ _ Hsub Es)|].
    split; [exact (numeric_column_not_negative 12 _ _ Htax Et)|].
    split; [reflexivity|].
    intros a d Ha Hd Hle.
    exact (numeric_column_not_negative 12 _ _
             (total_not_negative _ _ _ a d Ha Hd Hle) Etot).
Qed.

Lemma C4_total_sign_follows_discount_witness :
  column_not_negative (inv_total Cases.invoice1)
  /\ exists inv s',
       invoices_router (Scenario.at_ Scenario.t0 2) 1
                       (PUT_invoice 100 Cases.body_new_items) Cases.db1
       = (Success 200 "Invoice updated" (invoice_data inv), s')
       /\ column_not_negative (inv_total inv).
Proof.
  assert (Hitems : valid_items Scenario.two_items)
    by (unfold valid_items, Scenario.two_items; repeat constructor; simpl; lra).
  assert (Hrate : not_below_zero (just 10)) by (simpl; lra).
  assert (Hpost : invoices_router (Scenario.at_ Scenario.t0 1) 1
                    (POST_invoices Scenario.body0) Scenario.db0
                  = (Success 201 "Invoice created successfully"
                       (invoice_with_items Cases.invoice1
                          (created_items (Scenario.at_ Scenario.t0 1) Scenario.body0)),
                     Cases.db1)) by (vm_compute; reflexivity).
  assert (Hput : exists inv s',
             invoices_router (Scenario.at_ Scenario.t0 2) 1
               (PUT_invoice 100 Cases.body_new_items) Cases.db1
             = (Success 200 "Invoice updated" (invoice_data inv), s'))
    by (do 2 eexists; vm_compute; reflexivity).
  destruct Hput as (inv & s' & Hput).
  split.
  - destruct (proj1 C4_total_sign_follows_discount (Scenario.at_ Scenario.t0 1) 1%nat
                    Scenario.body0 Scenario.db0 201%nat "Invoice created successfully"
                    Cases.invoice1
                    (created_items (Scenario.at_ Scenario.t0 1) Scenario.body0)
                    Cases.db1 Hpost Hitems Hrate) as (_ & _ & _ & _ & Hsign).
    apply (Hsign (275 # 2) 5); [vm_compute; reflexivity|vm_compute; reflexivity|lra].
  - exists inv, s'. split; [exact Hput|].
    destruct (proj2 C4_total_sign_follows_discount (Scenario.at_ Scenario.t0 2) 1%nat
                    Scenario.alice 100%nat Cases.body_new_items Scenario.two_items
                    Cases.db1 Cases.invoice1 200%nat "Invoice updated" inv s'
                    eq_refl eq_refl Hput eq_refl Hitems)
      as (_ & _ & _ & _ & Hsign).
    + vm_compute. discriminate.
    + apply (Hsign (275 # 2) 50); [vm_compute; reflexivity|vm_compute; reflexivity|lra].
Defined.

(** C4, as stated, fails: with the two valid items of the scenario, rate 10
    and the discount 200, which is not negative, the invoice is created and
    stored with the total -62.50 and with a discount above subtotal plus
    tax_amount. *)
Lemma C4_counterexample :
  valid_items (cb_items Cases.body_discount_200)
  /\ not_below_zero (cb_discount_amount Cases.body_discount_200)
  /\ exists inv its s',
       invoices_router (Scenario.at_ Scenario.t0 1) 1
                       (POST_invoices Cases.body_discount_200) Scenario.db0
       = (Success 201 "Invoice created successfully" (invoice_with_items inv its), s')
       /\ In inv (invoices s')
       /\ inv_subtotal inv = Some 12500%Z
       /\ inv_tax_amount inv = Some 1250%Z
       /\ inv_discount_amount inv = Some 20000%Z
       /\ inv_total inv = Some (-6250)%Z
       /\ ~ column_not_negative (inv_total inv).
Proof.
  split; [unfold valid_items; simpl; repeat constructor; simpl; lra|].
  split; [simpl; lra|].
  do 3 eexists. split; [vm_compute; reflexivity|].
  split; [vm_compute; left; reflexivity|].
  do 4 (split; [reflexivity|]). simpl. lia.
Qed.

(** ** The plan limit *)

(** What the plan check of POST /api/invoices decides, in terms of the count
    it makes. *)
Lemma plan_limit_gate e userId u body s :
  authenticate userId s = inr u ->
  (u_plan u = free -> (5 <= count_since_setDate1 e (u_id u) s)%nat ->
   invoices_router e userId (POST_invoices body) s
   = (Failure 403 (Some "PLAN_LIMIT")
              "Free plan limited to 5 invoices per month. Please upgrade.", s))
  /\ (u_plan u <> free \/ (count_since_setDate1 e (u_id u) s <= 4)%nat ->
      forall message s',
        invoices_router e userId (POST_invoices body) s
        <> (Failure 403 (Some "PLAN_LIMIT") message, s')).
Proof.
  intros Hauth. rewrite (router_POST _ _ _ _ _ Hauth). unfold asyncHandler.
  rewrite createInvoice_cases. unfold under_plan_limit. split.
  - intros -> Hcount. apply Nat.leb_le in Hcount. now rewrite Hcount.
  - intros Hok message s'.
    assert (Hpass : negb (plan_beq (u_plan u) free)
                    || negb (5 <=? count_since_setDate1 e (u_id u) s)%nat = true).
    { destruct Hok as [Hplan|Hcount].
      - destruct (u_plan u); [contradiction| |]; reflexivity.
      - apply orb_true_iff. right. apply negb_true_iff, Nat.leb_gt. lia. }
    rewrite Hpass. cbn [negb].
    destruct (negb (owns_client u _ s)); [discriminate|].
    destruct (insert_invoice _ _ s) as [[[|row [|row' rows]] s1]|]; try discriminate.
    destruct (insert_invoice_items _ s1); discriminate.
Qed.

(** C6 at a failing input.  A tenant on the free plan creates five invoices
    on the first day of the month at 09:00.  On the second day at 10:00 the
    month holds five invoices of the tenant, yet the count of the plan check
    is 0, because its lower bound is the first day at 10:00, and the sixth
    creation is answered with 201.  At 08:00 of the second day the same
    request is refused with PLAN_LIMIT. *)
Theorem C6_sixth_creation_passes_the_limit :
  u_plan Scenario.bob = free
  /\ count_in_calendar_month (Scenario.at_ Scenario.t0 6) 2 Cases.db_five = 5%nat
  /\ count_since_setDate1 (Scenario.at_ Scenario.t0 6) 2 Cases.db_five = 0%nat
  /\ (exists inv its s',
         invoices_router (Scenario.at_ Scenario.t0 6) 2
                         (POST_invoices Cases.body_bob) Cases.db_five
         = (Success 201 "Invoice created successfully" (invoice_with_items inv its), s')
         /\ count_in_calendar_month (Scenario.at_ Scenario.t0 6) 2 s' = 6%nat)
  /\ invoices_router (Scenario.at_ Cases.second_day_8h 6) 2
                     (POST_invoices Cases.body_bob) Cases.db_five
     = (Failure 403 (Some "PLAN_LIMIT")
                "Free plan limited to 5 invoices per month. Please upgrade.",
        Cases.db_five).
Proof.
  split; [reflexivity|]. split; [vm_compute; reflexivity|].
  split; [vm_compute; reflexivity|].
  split; [do 3 eexists; split; vm_compute; reflexivity|].
  vm_compute. reflexivity.
Qed.

(** ** Invoice numbers *)

(** C5 at two failing inputs.  The number is made from the count of the
    tenant's rows.  Create, delete, create: two invoices with different ids
    are given the same number INV-2026-0001.  Create, create, delete the
    first, create: the number INV-2026-0002 is made again while the second
    invoice holds it, the store refuses the row under
    UNIQUE(user_id, invoice_number) and the creation fails with HTTP 500. *)
Theorem C5_number_made_twice :
  (exists inv1 its1 s1 s2 inv3 its3 s3,
      invoices_router (Scenario.at_ Scenario.t0 1) 1
                      (POST_invoices Scenario.body0) Scenario.db0
      = (Success 201 "Invoice created successfully" (invoice_with_items inv1 its1), s1)
      /\ invoices_router (Scenario.at_ Scenario.t0 2) 1 (DELETE_invoice (inv_id inv1)) s1
         = (Success 200 "Invoice deleted" no_data, s2)
      /\ invoices_router (Scenario.at_ Scenario.t0 3) 1 (POST_invoices Scenario.body0) s2
         = (Success 201 "Invoice created successfully" (invoice_with_items inv3 its3), s3)
      /\ inv_id inv1 <> inv_id inv3
      /\ inv_user_id inv1 = inv_user_id inv3
      /\ inv_invoice_number inv1 = "INV-2026-0001"
      /\ inv_invoice_number inv3 = "INV-2026-0001")
  /\ (exists s3 inv2,
         s3 = run [api (Scenario.at_ Scenario.t0 1) 1 (POST_invoices Scenario.body0);
                   api (Scenario.at_ Scenario.t0 2) 1 (POST_invoices Scenario.body0);
                   api (Scenario.at_ Scenario.t0 3) 1 (DELETE_invoice 100)]
                  Scenario.db0
         /\ invoices s3 = [inv2]
         /\ inv_invoice_number inv2 = "INV-2026-0002"
         /\ invoiceNumber_of (Scenario.at_ Scenario.t0 4) (count_invoices 1 s3)
            = "INV-2026-0002"
         /\ invoices_router (Scenario.at_ Scenario.t0 4) 1
                            (POST_invoices Scenario.body0) s3
            = (Failure 500 (Some INTERNAL_ERROR) "Failed to create invoice", s3)).
Proof.
  split.
  - do 7 eexists. split; [vm_compute; reflexivity|].
    split; [vm_compute; reflexivity|]. split; [vm_compute; reflexivity|].
    split; [vm_compute; discriminate|]. repeat split.
  - do 2 eexists. split; [reflexivity|]. split; [vm_compute; reflexivity|].
    split; [reflexivity|]. split; vm_compute; reflexivity.
Qed.

(** What does hold of the numbers: no call changes the number of a row, and
    the rows a tenant holds at one time carry distinct numbers. *)
Lemma update_evolves e id p s rows s' :
  update_invoice e id p s = Some (rows, s') -> evolve (invoices s) (invoices s').
Proof.
  intros Hup.
  destruct (update_invoice_cases e id p s) as [E|[E|(c & Hc & E)]];
    rewrite E in Hup; [injection Hup as _ <-; constructor|discriminate|].
  injection Hup as _ <-. apply ev_update.
Qed.

Lemma discard_update_evolves e id p s :
  evolve (invoices s) (invoices (discard (update_invoice_ e id p) s)).
Proof.
  unfold discard, update_invoice_.
  destruct (update_invoice e id p s) as [[rows s']|] eqn:E; [|constructor].
  exact (update_evolves e id p s rows s' E).
Qed.

Lemma step_evolves s c : evolve (invoices s) (invoices (step s c)).
Proof.
  destruct c as [e userId r|e D event]; cbn [step].
  - unfold invoices_router. destruct (authenticate userId s) as [denied|u]; [constructor|].
    destruct r as [body|id body|id|id body|id].
    + rewrite asyncHandler_snd, createInvoice_cases.
      destruct (negb (under_plan_limit e u s)); [constructor|].
      destruct (negb (owns_client u _ s)); [constructor|].
      destruct (insert_invoice _ _ s) as [[rows0 s1]|] eqn:E1; [|constructor].
      apply insert_invoice_accepts in E1 as (row & Hrow & -> & -> & Hfresh & Hnumber).
      apply invoice_row_keys in Hrow as (Hid & _). cbn [created_values iv_id] in Hid.
      destruct (insert_invoice_items _ _) as [s2|] eqn:E2; cbn [snd].
      * apply insert_invoice_items_accepts in E2 as (rows & _ & ->). now apply ev_insert.
      * cbn [delete_invoice set_invoices invoices]. rewrite <- Hid.
        rewrite (delete_after_insert row s Hfresh). constructor.
    + rewrite asyncHandler_snd, updateInvoice_cases.
      destruct (find_invoice id (u_id u) s) as [existing|]; [|constructor].
      destruct (_ && _); [constructor|]. cbv zeta.
      destruct (update_invoice _ _ _ _) as [[rows s2]|] eqn:E.
      * apply update_evolves in E. rewrite replace_items_invoices in E.
        destruct rows as [|row [|row' rows]]; cbn [snd]; try exact E;
          rewrite replace_items_invoices; constructor.
      * cbn [snd]. rewrite replace_items_invoices. constructor.
    + destruct (requirePlan _ u); [constructor|].
      rewrite asyncHandler_snd, remindInvoice_cases.
      destruct (find_invoice id (u_id u) s) as [invoice|]; [|constructor].
      destruct (status_is _ _); [constructor|]. apply discard_update_evolves.
    + rewrite asyncHandler_snd, markPaid_cases.
      destruct (find_invoice id (u_id u) s) as [invoice|]; [|constructor].
      unfold update_invoice_.
      destruct (update_invoice _ _ _ s) as [[rows s1]|] eqn:E; [|constructor].
      cbn [snd]. rewrite discard_insert_payment_invoices.
      exact (update_evolves _ _ _ _ _ _ E).
    + rewrite asyncHandler_snd, deleteInvoice_cases.
      destruct (find_invoice id (u_id u) s) as [invoice|]; [|constructor].
      destruct (status_is _ _); [constructor|]. apply ev_delete.
  - destruct (writes_invoices event) eqn:Hev.
    + destruct event; try discriminate.
      unfold stripe_webhook. cbn [Webhook.dispatch Webhook.on_core core].
      unfold handlePaymentIntentSucceeded.
      destruct (pi_metadata_invoice_id paymentIntent) as [invoiceId|]; [|constructor].
      run_handler. cbn [snd]. rewrite discard_insert_payment_invoices.
      apply discard_update_evolves.
    + rewrite other_events_invoices by assumption. constructor.
Qed.

Lemma evolve_keeps_number l l' i' :
  evolve l l' -> In i' l' ->
  In (inv_id i') (map inv_id l) ->
  exists i, In i l /\ inv_id i = inv_id i'
            /\ inv_user_id i = inv_user_id i'
            /\ inv_invoice_number i = inv_invoice_number i'.
Proof.
  intros Hev Hin Hold. destruct Hev as [|id p|id|row Hfresh _].
  - exists i'. auto.
  - apply in_map_iff in Hin as (i & <- & Hi). exists i.
    destruct (inv_id i =? id)%nat; auto.
  - apply filter_In in Hin as [Hin _]. exists i'. auto.
  - apply in_app_or in Hin as [Hin|[<-|[]]]; [exists i'; auto|].
    exfalso. apply in_map_iff in Hold as (i & Hid & Hi).
    pose proof (existsb_false_forall _ _ Hfresh i Hi) as Hne. cbv beta in Hne.
    rewrite Hid, Nat.eqb_refl in Hne. discriminate.
Qed.

Lemma evolve_numbers_unique l l' : evolve l l' -> numbers_unique l -> numbers_unique l'.
Proof.
  unfold numbers_unique. intros Hev Hu. destruct Hev as [|id p|id|row _ Hnumber].
  - assumption.
  - rewrite map_map.
    rewrite (map_ext _ (fun i => (inv_user_id i, inv_invoice_number i))); [assumption|].
    intros i. now destruct (inv_id i =? id)%nat.
  - now apply NoDup_map_filter.
  - rewrite map_app. simpl. apply NoDup_app; [assumption|repeat constructor; intros []|].
    intros key Hkey [<-|[]]. apply in_map_iff in Hkey as (i & Hi & Hin).
    pose proof (existsb_false_forall _ _ Hnumber i Hin) as Hne. cbv beta in Hne.
    injection Hi as Huser Hnum.
    rewrite Huser, Hnum, Nat.eqb_refl, String.eqb_refl in Hne. discriminate.
Qed.

Lemma number_never_changes s c i' :
  In i' (invoices (step s c)) ->
  In (inv_id i') (map inv_id (invoices s)) ->
  exists i, In i (invoices s) /\ inv_id i = inv_id i'
            /\ inv_user_id i = inv_user_id i'
            /\ inv_invoice_number i = inv_invoice_number i'.
Proof. apply evolve_keeps_number, step_evolves. Qed.

Lemma run_numbers_unique calls s :
  numbers_unique (invoices s) -> numbers_unique (invoices (run calls s)).
Proof.
  revert s. induction calls as [|c calls IH]; intros s H; [exact H|].
  unfold run. cbn [fold_left]. apply IH.
  exact (evolve_numbers_unique _ _ (step_evolves s c) H).
Qed.

(** The ordinal of a number is padded to four characters; the 10000th
    row of a tenant (count 9999, written 99 * 101) gets five. *)
Example ordinal_padded :
  padStart 4 "0" (String_of_nat (0 + 1)) = "0001"
  /\ padStart 4 "0" (String_of_nat (41 + 1)) = "0042"
  /\ padStart 4 "0" (String_of_nat (99 * 101 + 1)) = "10000".
Proof. repeat split; vm_compute; reflexivity. Qed.

(** * Further properties of the routes and handlers *)

Local Open Scope string_scope.
Local Open Scope list_scope.
Local Open Scope Q_scope.

(** ** Statistics *)

Lemma status_partition (l : list invoice) :
  (List.length (with_status draft l) + List.length (with_status pending l)
   + List.length (with_status paid l) + List.length (with_status overdue l)
   + List.length (with_status cancelled l) + List.length (without_status l))%nat
  = List.length l.
Proof.
  unfold with_status, without_status. induction l as [|i l IH]; [reflexivity|].
  cbn [filter]. destruct (inv_status i) as [[]|];
    cbn [status_is invoice_status_beq is_some negb List.length]; lia.
Qed.

(** X1. In the answer of GET /api/invoices/stats the five counts by status
    and the number of the tenant's rows whose status is NULL add up to
    total_invoices, and total_invoices is the number of rows of the
    tenant. *)
Theorem stats_counts_add_up (u : user) (s : db) :
  (by_status_draft (getStats u s) + by_status_pending (getStats u s)
   + by_status_paid (getStats u s) + by_status_overdue (getStats u s)
   + by_status_cancelled (getStats u s)
   + List.length (without_status
                    (filter (fun i => (inv_user_id i =? u_id u)%nat) (invoices s))))%nat
  = total_invoices (getStats u s)
  /\ total_invoices (getStats u s) = count_invoices (u_id u) s.
Proof.
  unfold getStats, count_invoices. cbn [by_status_draft by_status_pending by_status_paid
    by_status_overdue by_status_cancelled total_invoices].
  split; [apply status_partition|reflexivity].
Qed.

Lemma rows_in_app userId st a b :
  rows_in userId st (a ++ b) = rows_in userId st a ++ rows_in userId st b.
Proof. unfold rows_in, with_status. now rewrite !filter_app. Qed.

Lemma rows_in_one userId st i :
  rows_in userId st [i]
  = if (inv_user_id i =? userId)%nat && status_is st (inv_status i)
    then [i] else [].
Proof.
  unfold rows_in, with_status. cbn [filter].
  destruct (inv_user_id i =? userId)%nat; cbn [filter andb]; [|reflexivity].
  now destruct (status_is st (inv_status i)).
Qed.

(** A table with unique ids splits around any of its rows. *)
Lemma split_at_row (l : list invoice) (x : invoice) :
  NoDup (map inv_id l) -> In x l ->
  exists l1 l2, l = l1 ++ x :: l2
                /\ forall y, In y (l1 ++ l2) -> inv_id y <> inv_id x.
Proof.
  intros Hnd Hin. apply in_split in Hin as (l1 & l2 & ->). exists l1, l2.
  split; [reflexivity|]. intros y Hy Heq.
  rewrite map_app in Hnd. cbn [map] in Hnd. apply NoDup_remove_2 in Hnd.
  apply Hnd. rewrite <- map_app, <- Heq. now apply in_map.
Qed.

Lemma map_untouched {A : Type} (g : A -> A) (l : list A) :
  (forall y, In y l -> g y = y) -> map g l = l.
Proof.
  induction l as [|a l IH]; cbn [map]; intros H; [reflexivity|].
  rewrite (H a (or_introl eq_refl)), IH; [reflexivity|].
  intros y Hy. apply H. now right.
Qed.

(** An update by id in a table with unique ids rewrites one row. *)
Lemma update_one_row id c (l : list invoice) (x : invoice) :
  NoDup (map inv_id l) -> In x l -> inv_id x = id ->
  exists l1 l2,
    l = l1 ++ x :: l2
    /\ map (fun i => if (inv_id i =? id)%nat then apply_change c i else i) l
       = l1 ++ apply_change c x :: l2.
Proof.
  intros Hnd Hin Hid. destruct (split_at_row l x Hnd Hin) as (l1 & l2 & -> & Hother).
  exists l1, l2. split; [reflexivity|].
  rewrite map_app. cbn [map]. rewrite Hid, Nat.eqb_refl. f_equal; [|f_equal].
  - apply map_untouched. intros y Hy.
    destruct (inv_id y =? id)%nat eqn:E; [|reflexivity].
    apply Nat.eqb_eq in E. exfalso. apply (Hother y); [apply in_or_app; now left|congruence].
  - apply map_untouched. intros y Hy.
    destruct (inv_id y =? id)%nat eqn:E; [|reflexivity].
    apply Nat.eqb_eq in E. exfalso. apply (Hother y); [apply in_or_app; now right|congruence].
Qed.

(** A mark-paid that is answered with success wrote the status paid on the
    rows under the id. *)
Lemma markPaid_invoices e userId u id body s invoice http message data s' :
  authenticate userId s = inr u ->
  find_invoice id (u_id u) s = Some invoice ->
  invoices_router e userId (POST_mark_paid id body) s = (Success http message data, s') ->
  exists c,
    ch_status c = Some (Some paid)
    /\ invoices s'
       = map (fun i => if (inv_id i =? id)%nat then apply_change c i else i) (invoices s).
Proof.
  intros Hauth Hfind. unfold invoices_router. rewrite Hauth. unfold asyncHandler.
  rewrite markPaid_cases, Hfind. unfold update_invoice_.
  destruct (update_invoice_nonempty e id
              (paid_patch e (column_number (inv_total invoice)) (method_of body)) s
              eq_refl)
    as [E|(c & Hc & E)]; rewrite E; try discriminate.
  intros H. injection H as _ _ _ <-. exists c.
  apply change_status in Hc. simpl in Hc. injection Hc as <-.
  split; [reflexivity|]. now rewrite discard_insert_payment_invoices.
Qed.

(** X2. With unique invoice ids, a manual mark-paid of a pending invoice
    that is answered with success moves one unit from the pending count to
    the paid count of the tenant's statistics; total_invoices, the other
    counts and overdue_amount stay. *)
Theorem stats_after_mark_paid e userId u id body s invoice http message data s' :
  unique_ids s ->
  authenticate userId s = inr u ->
  find_invoice id (u_id u) s = Some invoice ->
  inv_status invoice = Some pending ->
  invoices_router e userId (POST_mark_paid id body) s = (Success http message data, s') ->
  total_invoices (getStats u s') = total_invoices (getStats u s)
  /\ overdue_amount (getStats u s') = overdue_amount (getStats u s)
  /\ by_status_paid (getStats u s') = S (by_status_paid (getStats u s))
  /\ S (by_status_pending (getStats u s')) = by_status_pending (getStats u s)
  /\ by_status_draft (getStats u s') = by_status_draft (getStats u s)
  /\ by_status_overdue (getStats u s') = by_status_overdue (getStats u s)
  /\ by_status_cancelled (getStats u s') = by_status_cancelled (getStats u s).
Proof.
  intros Hu Hauth Hfind Hst H.
  destruct (markPaid_invoices e userId u id body s invoice http message data s'
              Hauth Hfind H) as (c & Hc & Hinv).
  destruct (find_invoice_In _ _ _ _ Hfind) as (Hin & Hid & Huser).
  destruct (update_one_row id c (invoices s) invoice Hu Hin Hid) as (l1 & l2 & Hl & Hmap).
  rewrite Hmap in Hinv.
  unfold getStats. cbn [total_invoices total_revenue pending_amount overdue_amount
                        by_status_paid by_status_pending by_status_draft
                        by_status_overdue by_status_cancelled].
  fold (rows_in (u_id u) paid (invoices s')) (rows_in (u_id u) pending (invoices s'))
       (rows_in (u_id u) overdue (invoices s')) (rows_in (u_id u) paid (invoices s))
       (rows_in (u_id u) pending (invoices s)) (rows_in (u_id u) overdue (invoices s))
       (rows_in (u_id u) draft (invoices s')) (rows_in (u_id u) draft (invoices s))
       (rows_in (u_id u) cancelled (invoices s'))
       (rows_in (u_id u) cancelled (invoices s)).
  rewrite Hinv, Hl.
  change (l1 ++ ?x :: l2) with (l1 ++ [x] ++ l2).
  rewrite !filter_app, !rows_in_app, !rows_in_one, !length_app.
  cbn [apply_change inv_user_id inv_status filter]. rewrite Hc. cbn [or_else].
  rewrite Huser, Hst, Nat.eqb_refl.
  cbn [status_is invoice_status_beq andb List.length app].
  repeat split; lia.
Qed.

Lemma stats_after_mark_paid_witness :
  by_status_paid (getStats Scenario.alice Cases.db_paid) = 1%nat.
Proof.
  assert (Hu : unique_ids Cases.db1) by (vm_compute; repeat constructor; intros []).
  assert (Hpaid : invoices_router (Scenario.at_ Scenario.t0 2) 1
                    (POST_mark_paid 100 Cases.manual) Cases.db1
                  = (Success 200 "Invoice marked as paid" no_data, Cases.db_paid))
    by (vm_compute; reflexivity).
  destruct (stats_after_mark_paid (Scenario.at_ Scenario.t0 2) 1%nat Scenario.alice 100%nat
              Cases.manual Cases.db1 Cases.invoice1 200%nat "Invoice marked as paid"
              no_data Cases.db_paid Hu eq_refl eq_refl eq_refl Hpaid)
    as (_ & _ & Hcount & _).
  rewrite Hcount. reflexivity.
Defined.

(** ** Tenants do not reach each other's invoices *)

Lemma authenticate_id userId s u : authenticate userId s = inr u -> u_id u = userId.
Proof. intros H. now apply authenticate_Success in H. Qed.

Lemma filter_map_untouched {A : Type} (f : A -> bool) (g : A -> A) (l : list A) :
  (forall y, In y l -> f y = true -> g y = y) ->
  (forall y, In y l -> f (g y) = f y) ->
  filter f (map g l) = filter f l.
Proof.
  induction l as [|a l IH]; cbn [map filter]; intros Hg Hf; [reflexivity|].
  rewrite (Hf a (or_introl eq_refl)).
  pose proof (IH (fun y Hy => Hg y (or_intror Hy)) (fun y Hy => Hf y (or_intror Hy)))
    as IH'.
  destruct (f a) eqn:E; [|exact IH'].
  now rewrite (Hg a (or_introl eq_refl) E), IH'.
Qed.

Lemma filter_filter_untouched {A : Type} (f g : A -> bool) (l : list A) :
  (forall y, In y l -> f y = true -> g y = true) ->
  filter f (filter g l) = filter f l.
Proof.
  induction l as [|a l IH]; cbn [filter]; intros H; [reflexivity|].
  pose proof (IH (fun y Hy => H y (or_intror Hy))) as IH'.
  destruct (f a) eqn:E.
  - rewrite (H a (or_introl eq_refl) E). cbn [filter]. now rewrite E, IH'.
  - destruct (g a); cbn [filter]; rewrite ?E; exact IH'.
Qed.

(** Rows of another tenant do not carry the id of a row the tenant finds. *)
Lemma others_have_other_ids id userId other s existing y :
  unique_ids s -> find_invoice id userId s = Some existing ->
  other <> userId -> In y (invoices s) -> inv_user_id y = other -> inv_id y <> id.
Proof.
  intros Hu Hfind Hne Hy Huser Hid.
  apply find_invoice_In in Hfind as (Hin & Hid' & Huser').
  assert (y = existing) by (apply (unique_row (invoices s)); congruence || assumption).
  congruence.
Qed.

Lemma changed_spares_others id userId other c s existing :
  unique_ids s -> find_invoice id userId s = Some existing -> other <> userId ->
  filter (fun i => (inv_user_id i =? other)%nat) (invoices (changed id c s))
  = filter (fun i => (inv_user_id i =? other)%nat) (invoices s).
Proof.
  intros Hu Hfind Hne. unfold changed. cbn [invoices set_invoices].
  apply filter_map_untouched.
  - intros y Hy Huser. apply Nat.eqb_eq in Huser.
    destruct (inv_id y =? id)%nat eqn:E; [|reflexivity].
    apply Nat.eqb_eq in E.
    now destruct (others_have_other_ids id userId other s existing y Hu Hfind Hne Hy Huser).
  - intros y _. now destruct (inv_id y =? id)%nat.
Qed.

Lemma update_spares_others e id userId other p s existing rows s' :
  unique_ids s -> find_invoice id userId s = Some existing -> other <> userId ->
  update_invoice e id p s = Some (rows, s') ->
  filter (fun i => (inv_user_id i =? other)%nat) (invoices s')
  = filter (fun i => (inv_user_id i =? other)%nat) (invoices s).
Proof.
  intros Hu Hfind Hne Hup.
  destruct (update_invoice_cases e id p s) as [E|[E|(c & Hc & E)]];
    rewrite E in Hup; [now injection Hup as _ <-|discriminate|].
  injection Hup as _ <-. now apply (changed_spares_others id userId other c s existing).
Qed.

Lemma discard_update_spares_others e id userId other p s existing :
  unique_ids s -> find_invoice id userId s = Some existing -> other <> userId ->
  filter (fun i => (inv_user_id i =? other)%nat)
         (invoices (discard (update_invoice_ e id p) s))
  = filter (fun i => (inv_user_id i =? other)%nat) (invoices s).
Proof.
  intros Hu Hfind Hne. unfold discard, update_invoice_.
  destruct (update_invoice e id p s) as [[rows s']|] eqn:E; [|reflexivity].
  exact (update_spares_others e id userId other p s existing rows s' Hu Hfind Hne E).
Qed.

Lemma delete_spares_others id userId other s existing :
  unique_ids s -> find_invoice id userId s = Some existing -> other <> userId ->
  filter (fun i => (inv_user_id i =? other)%nat) (invoices (delete_invoice id s))
  = filter (fun i => (inv_user_id i =? other)%nat) (invoices s).
Proof.
  intros Hu Hfind Hne. unfold delete_invoice. cbn [invoices].
  apply filter_filter_untouched. intros y Hy Huser. apply Nat.eqb_eq in Huser.
  apply negb_true_iff, Nat.eqb_neq.
  exact (others_have_other_ids id userId other s existing y Hu Hfind Hne Hy Huser).
Qed.

(** X3. With unique invoice ids, a call of a tenant to the invoice routes
    (create, update, remind, mark-paid, delete) leaves the invoice rows of
    every other tenant, and so the other tenant's statistics, exactly as
    they were. *)
Theorem routes_spare_other_tenants e userId r s other :
  unique_ids s ->
  other <> userId ->
  let s' := snd (invoices_router e userId r s) in
  filter (fun i => (inv_user_id i =? other)%nat) (invoices s')
  = filter (fun i => (inv_user_id i =? other)%nat) (invoices s)
  /\ forall v, u_id v = other -> getStats v s' = getStats v s.
Proof.
  intros Hu Hne s'.
  assert (Hrows : filter (fun i => (inv_user_id i =? other)%nat) (invoices s')
                  = filter (fun i => (inv_user_id i =? other)%nat) (invoices s)).
  { subst s'. unfold invoices_router.
    destruct (authenticate userId s) as [denied|u] eqn:Hauth; [reflexivity|].
    apply authenticate_id in Hauth. subst userId.
    destruct r as [body|id body|id|id body|id].
    - rewrite asyncHandler_snd, createInvoice_cases.
      destruct (negb (under_plan_limit e u s)); [reflexivity|].
      destruct (negb (owns_client u _ s)); [reflexivity|].
      destruct (insert_invoice _ _ s) as [[rows0 s1]|] eqn:E1; [|reflexivity].
      apply insert_invoice_accepts in E1 as (row & Hrow & -> & -> & Hfresh & _).
      apply invoice_row_keys in Hrow as (Hid & Huser & _).
      cbn [created_values iv_id iv_user_id] in Hid, Huser.
      destruct (insert_invoice_items _ _) as [s2|] eqn:E2; cbn [snd].
      + apply insert_invoice_items_accepts in E2 as (rows & _ & ->).
        cbn [invoices set_invoice_items set_invoices set_audit_logs].
        rewrite filter_app. cbn [filter]. rewrite Huser.
        apply Nat.eqb_neq in Hne. rewrite (Nat.eqb_sym (u_id u) other), Hne.
        apply app_nil_r.
      + cbn [delete_invoice set_invoices invoices]. rewrite <- Hid.
        now rewrite (delete_after_insert row s Hfresh).
    - rewrite asyncHandler_snd, updateInvoice_cases.
      destruct (find_invoice id (u_id u) s) as [existing|] eqn:Hfind; [|reflexivity].
      destruct (_ && _); [reflexivity|]. cbv zeta.
      assert (Hu1 : unique_ids (replace_items e id body s))
        by (unfold unique_ids; now rewrite replace_items_invoices).
      assert (Hfind1 : find_invoice id (u_id u) (replace_items e id body s)
                       = Some existing)
        by (rewrite (find_invoice_invoices _ _ s);
            [assumption|apply replace_items_invoices]).
      destruct (update_invoice _ _ _ _) as [[rows s2]|] eqn:E.
      + pose proof (update_spares_others e id (u_id u) other _ _ existing rows s2
                      Hu1 Hfind1 Hne E) as Hupd.
        rewrite replace_items_invoices in Hupd.
        destruct rows as [|row [|row' rows]]; cbn [snd]; try exact Hupd;
          now rewrite replace_items_invoices.
      + cbn [snd]. now rewrite replace_items_invoices.
    - destruct (requirePlan _ u); [reflexivity|].
      rewrite asyncHandler_snd, remindInvoice_cases.
      destruct (find_invoice id (u_id u) s) as [invoice|] eqn:Hfind; [|reflexivity].
      destruct (status_is _ _); [reflexivity|]. cbn [snd].
      now apply (discard_update_spares_others e id (u_id u) other _ s invoice).
    - rewrite asyncHandler_snd, markPaid_cases.
      destruct (find_invoice id (u_id u) s) as [invoice|] eqn:Hfind; [|reflexivity].
      unfold update_invoice_.
      destruct (update_invoice _ _ _ s) as [[rows s1]|] eqn:E; [|reflexivity].
      cbn [snd]. rewrite discard_insert_payment_invoices.
      exact (update_spares_others e id (u_id u) other _ s invoice rows s1 Hu Hfind Hne E).
    - rewrite asyncHandler_snd, deleteInvoice_cases.
      destruct (find_invoice id (u_id u) s) as [invoice|] eqn:Hfind; [|reflexivity].
      destruct (status_is _ _); [reflexivity|]. cbn [snd].
      now apply (delete_spares_others id (u_id u) other s invoice). }
  split; [exact Hrows|].
  intros v <-. unfold getStats. now rewrite Hrows.
Qed.

Lemma routes_spare_other_tenants_witness :
  filter (fun i => (inv_user_id i =? 2)%nat)
         (invoices (snd (invoices_router (Scenario.at_ Scenario.t0 7) 1
                                         (POST_invoices Scenario.body0) Cases.db_five)))
  = filter (fun i => (inv_user_id i =? 2)%nat) (invoices Cases.db_five).
Proof.
  assert (Hu : unique_ids Cases.db_five) by (vm_compute; repeat constructor; simpl; lia).
  assert (Hne : 2%nat <> 1%nat) by discriminate.
  exact (proj1 (routes_spare_other_tenants (Scenario.at_ Scenario.t0 7) 1%nat
                  (POST_invoices Scenario.body0) Cases.db_five 2%nat Hu Hne)).
Defined.

(** ** Refusals *)

(** X4. Whenever an invoice route answers with an error other than HTTP
    500 (401 and 403 of the middleware, 403 PLAN_LIMIT, 404, 400), the store
    is exactly what it was before the request. *)
Theorem refusals_leave_store e userId r s http code error s' :
  invoices_router e userId r s = (Failure http code error, s') ->
  http <> 500%nat ->
  s' = s.
Proof.
  unfold invoices_router.
  destruct (authenticate userId s) as [denied|u]; [now intros H; injection H as _ <-|].
  unfold asyncHandler. destruct r as [body|id body|id|id body|id].
  - rewrite createInvoice_cases.
    destruct (negb (under_plan_limit e u s)); [now intros H; injection H as _ _ _ <-|].
    destruct (negb (owns_client u _ s)); [now intros H; injection H as _ _ _ <-|].
    destruct (insert_invoice _ _ s) as [[[|row [|row' rows]] s1]|];
      try (now intros H; injection H as _ _ _ <-).
    destruct (insert_invoice_items _ s1); [discriminate|].
    intros H Hne. injection H as <- _ _ _. contradiction.
  - rewrite updateInvoice_cases.
    destruct (find_invoice id (u_id u) s) as [existing|];
      [|now intros H; injection H as _ _ _ <-].
    destruct (_ && _); [now intros H; injection H as _ _ _ <-|]. cbv zeta.
    destruct (update_invoice _ _ _ _) as [[[|row [|row' rows]] s2]|]; try discriminate;
      intros H Hne; injection H as <- _ _ _; contradiction.
  - destruct (requirePlan _ u); [now intros H; injection H as _ <-|].
    rewrite remindInvoice_cases.
    destruct (find_invoice id (u_id u) s) as [invoice|];
      [|now intros H; injection H as _ _ _ <-].
    destruct (status_is _ _); [now intros H; injection H as _ _ _ <-|].
    discriminate.
  - rewrite markPaid_cases.
    destruct (find_invoice id (u_id u) s) as [invoice|];
      [|now intros H; injection H as _ _ _ <-].
    destruct (update_invoice_ _ _ _ s); [discriminate|].
    now intros H; injection H as _ _ _ <-.
  - rewrite deleteInvoice_cases.
    destruct (find_invoice id (u_id u) s) as [invoice|];
      [|now intros H; injection H as _ _ _ <-].
    destruct (status_is _ _); [now intros H; injection H as _ _ _ <-|].
    discriminate.
Qed.

Lemma refusals_leave_store_witness :
  snd (invoices_router (Scenario.at_ Scenario.t0 3) 1 (DELETE_invoice 100) Cases.db_paid)
  = Cases.db_paid.
Proof.
  apply (refusals_leave_store (Scenario.at_ Scenario.t0 3) 1%nat (DELETE_invoice 100)
           Cases.db_paid 400%nat (Some INTERNAL_ERROR) "Cannot delete a paid invoice").
  - vm_compute. reflexivity.
  - discriminate.
Defined.

(** ** What a creation stores, and reading it back *)

(** The rows that the item table makes of the objects of a request. *)
Lemma item_rows_shape e id first items :
  forall index rows,
    item_rows (map_items e id first index items) = Some rows ->
    Forall2 stored_as items rows
    /\ Forall (fun r => it_invoice_id r = id) rows
    /\ map it_sort_order rows = seq index (List.length items)
    /\ map it_id rows = map (fun k => uuidv4 e (first + k)%nat)
                            (seq index (List.length items)).
Proof.
  induction items as [|item rest IH]; intros index rows.
  - cbn [map_items item_rows]. intros H. injection H as <-. repeat split; constructor.
  - cbn [map_items item_rows]. unfold item_row at 1.
    cbn [io_id io_invoice_id io_description io_quantity io_unit_price io_amount
         io_sort_order].
    destruct (match sanitizeString e (item_description item) with
              | just d => varchar_in 200 d
              | _ => None
              end) as [description|]; [|discriminate].
    destruct (numeric_column 10 _) as [[quantity|]|] eqn:Eq; try discriminate.
    destruct (numeric_column 12 (JSON_number (item_price item))) as [[price|]|] eqn:Ep;
      try discriminate.
    destruct (numeric_column 12 (item_amount item)) as [[amount|]|] eqn:Ea;
      try discriminate.
    destruct (item_rows (map_items e id first (S index) rest)) as [rs|] eqn:Er;
      [|discriminate].
    intros H. injection H as <-.
    destruct (IH (S index) rs Er) as (Hall & Hid & Hsort & Hkeys).
    cbn [map seq List.length it_sort_order it_id].
    repeat split.
    + constructor; [|exact Hall]. repeat split; assumption.
    + constructor; [reflexivity|exact Hid].
    + now rewrite Hsort.
    + now rewrite Hkeys.
Qed.

(** X5. The item rows that a successful creation stores: one for each item
    of the request, in the order of the request, each for the new invoice,
    with the positions counting from 0 and with quantity, unit price and
    amount as the columns round the numbers of the request (the amount is
    the product computed in binary64, rounded on its own); they are
    appended to the item table.  The reply carries the objects that the
    handler built, with the numbers as they were computed. *)
Theorem created_items_agree e userId body s http message inv its s' :
  invoices_router e userId (POST_invoices body) s
  = (Success http message (invoice_with_items inv its), s') ->
  exists rows,
    invoice_items s' = invoice_items s ++ rows
    /\ Forall2 stored_as (cb_items body) rows
    /\ Forall (fun r => it_invoice_id r = inv_id inv) rows
    /\ map it_sort_order rows = seq 0 (List.length (cb_items body))
    /\ its = map_items e (inv_id inv) 1 0 (cb_items body)
    /\ item_rows its = Some rows.
Proof.
  intros H.
  apply createInvoice_created in H as (u & row & rows & _ & Hrow & Hrows & Hdata & -> & _).
  injection Hdata as -> ->.
  apply invoice_row_keys in Hrow as (Hid & _). cbn [created_values iv_id] in Hid.
  unfold created_items in *. rewrite Hid.
  destruct (item_rows_shape e (uuidv4 e 0) 1 (cb_items body) 0%nat rows Hrows)
    as (Hall & Hinv & Hsort & _).
  exists rows. repeat split; assumption.
Qed.

Lemma created_items_agree_witness :
  exists rows,
    invoice_items Cases.db1 = invoice_items Scenario.db0 ++ rows
    /\ map it_sort_order rows = [0; 1]%nat.
Proof.
  assert (Hpost : invoices_router (Scenario.at_ Scenario.t0 1) 1
                    (POST_invoices Scenario.body0) Scenario.db0
                  = (Success 201 "Invoice created successfully"
                       (invoice_with_items Cases.invoice1
                          (created_items (Scenario.at_ Scenario.t0 1) Scenario.body0)),
                     Cases.db1)) by (vm_compute; reflexivity).
  destruct (created_items_agree (Scenario.at_ Scenario.t0 1) 1%nat Scenario.body0
              Scenario.db0 201%nat "Invoice created successfully" Cases.invoice1
              (created_items (Scenario.at_ Scenario.t0 1) Scenario.body0)
              Cases.db1 Hpost) as (rows & Hitems & _ & _ & Hsort & _).
  exists rows. split; [exact Hitems|exact Hsort].
Defined.

Lemma filter_none {A : Type} (f : A -> bool) (l : list A) :
  (forall x, In x l -> f x = false) -> filter f l = [].
Proof.
  induction l as [|a l IH]; cbn [filter]; intros H; [reflexivity|].
  rewrite (H a (or_introl eq_refl)). apply IH. intros x Hx. apply H. now right.
Qed.

Lemma find_appended row s :
  existsb (fun i => (inv_id i =? inv_id row)%nat) (invoices s) = false ->
  forall v s',
    invoices s' = invoices s ++ [row] ->
    find_invoice (inv_id row) v s'
    = if (inv_user_id row =? v)%nat then Some row else None.
Proof.
  intros Hfresh v s' Hinv. unfold find_invoice. rewrite Hinv, filter_app.
  rewrite filter_none.
  - cbn [filter app]. rewrite Nat.eqb_refl. cbn [andb].
    now destruct (inv_user_id row =? v)%nat.
  - intros x Hx. now rewrite (existsb_false_forall _ _ Hfresh x Hx).
Qed.

(** X6. An invoice just created is read back by its tenant through GET
    /api/invoices/:id with the row that the reply of the creation carries
    and with the item rows that the store made of the reply's items, when
    no older item row refers to the new id; any other tenant gets 404
    "Invoice not found" for it. *)
Theorem created_invoice_reads_back e userId body s http message inv its s' :
  invoices_router e userId (POST_invoices body) s
  = (Success http message (invoice_with_items inv its), s') ->
  (forall r, In r (invoice_items s) -> it_invoice_id r <> inv_id inv) ->
  exists u,
    authenticate userId s' = inr u
    /\ (exists view,
           getInvoice u (inv_id inv) s' = (inr view, s')
           /\ view_invoice view = inv /\ item_rows its = Some (view_items view))
    /\ forall v, u_id v <> u_id u ->
                 getInvoice v (inv_id inv) s'
                 = (inl (mkAPIError "Invoice not found" 404 INTERNAL_ERROR), s').
Proof.
  intros H Hold.
  apply createInvoice_created in H
    as (u & row & rows & Hauth & Hrow & Hrows & Hdata & Hs & Hfresh & _).
  injection Hdata as -> ->. exists u.
  assert (Hfind := find_appended row s Hfresh).
  apply invoice_row_keys in Hrow as (Hid & Huser & _).
  cbn [created_values iv_id iv_user_id] in Hid, Huser.
  split; [rewrite <- Hauth; apply authenticate_users; now rewrite Hs|].
  split.
  - eexists. unfold getInvoice. run_handler.
    rewrite (Hfind (u_id u) s') by now rewrite Hs. rewrite Huser, Nat.eqb_refl.
    split; [reflexivity|]. split; [reflexivity|].
    cbn [embed view_items]. rewrite Hs. cbn [invoice_items set_audit_logs set_invoice_items].
    rewrite filter_app, filter_none.
    + rewrite (filter_all _ rows); [exact Hrows|]. intros r Hr.
      destruct (item_rows_shape e (uuidv4 e 0) 1 (cb_items body) 0%nat rows Hrows)
        as (_ & Hall & _).
      rewrite Forall_forall in Hall. rewrite (Hall r Hr), Hid. apply Nat.eqb_refl.
    + intros r Hr. apply Nat.eqb_neq. now apply Hold.
  - intros v Hv. unfold getInvoice. run_handler.
    rewrite (Hfind (u_id v) s') by now rewrite Hs.
    apply Nat.eqb_neq in Hv. now rewrite Huser, (Nat.eqb_sym (u_id u) (u_id v)), Hv.
Qed.

Lemma created_invoice_reads_back_witness :
  exists view,
    getInvoice Scenario.alice 100 Cases.db1 = (inr view, Cases.db1)
    /\ view_invoice view = Cases.invoice1
    /\ List.length (view_items view) = 2%nat.
Proof.
  assert (Hpost : invoices_router (Scenario.at_ Scenario.t0 1) 1
                    (POST_invoices Scenario.body0) Scenario.db0
                  = (Success 201 "Invoice created successfully"
                       (invoice_with_items Cases.invoice1
                          (created_items (Scenario.at_ Scenario.t0 1) Scenario.body0)),
                     Cases.db1)) by (vm_compute; reflexivity).
  assert (Hrows : item_rows (created_items (Scenario.at_ Scenario.t0 1) Scenario.body0)
                  = Some (invoice_items Cases.db1)) by (vm_compute; reflexivity).
  destruct (created_invoice_reads_back (Scenario.at_ Scenario.t0 1) 1%nat Scenario.body0
              Scenario.db0 201%nat "Invoice created successfully" Cases.invoice1
              (created_items (Scenario.at_ Scenario.t0 1) Scenario.body0)
              Cases.db1 Hpost)
    as (u & Hauth & (view & Hget & Hinv & Hitems) & _).
  - intros r [].
  - assert (Hu : u = Scenario.alice)
      by (assert (E : authenticate 1 Cases.db1 = inr Scenario.alice) by reflexivity;
          congruence).
    subst u. exists view. split; [exact Hget|]. split; [exact Hinv|].
    rewrite Hrows in Hitems. injection Hitems as <-. reflexivity.
Defined.

(** X7. Creating an invoice and then deleting it restores the tables of
    invoices, items and payments to what they were before the creation,
    when nothing referred to the new id; users, clients and subscriptions
    are untouched, and only the audit log keeps a trace. *)
Theorem create_then_delete_restores e1 e2 userId body s http message inv its s1 :
  invoices_router e1 userId (POST_invoices body) s
  = (Success http message (invoice_with_items inv its), s1) ->
  unreferenced (inv_id inv) s ->
  exists s2 entry,
    invoices_router e2 userId (DELETE_invoice (inv_id inv)) s1
    = (Success 200 "Invoice deleted" no_data, s2)
    /\ s2 = mkDb (users s) (clients s) (invoices s) (invoice_items s) (payments s)
                 (subscriptions s) (audit_logs s ++ [entry]).
Proof.
  intros H [Hitems Hpay].
  apply createInvoice_created in H
    as (u & row & rows & Hauth & Hrow & Hrows & Hdata & Hs & Hfresh & _).
  injection Hdata as -> ->.
  pose proof (invoice_row_keys _ _ _ Hrow) as (Hid & Huser & _ & _ & Hst & _).
  cbn [created_values iv_id iv_user_id iv_status] in Hid, Huser, Hst.
  assert (Hfind : find_invoice (inv_id row) (u_id u) s1 = Some row).
  { rewrite (find_appended row s Hfresh (u_id u) s1) by now rewrite Hs.
    now rewrite Huser, Nat.eqb_refl. }
  do 2 eexists. unfold invoices_router.
  rewrite (authenticate_users userId s s1) by now rewrite Hs.
  rewrite Hauth. unfold asyncHandler. rewrite deleteInvoice_cases, Hfind.
  rewrite <- Hst. cbn [invoice_status_of String.eqb Ascii.eqb Bool.eqb status_is
                       invoice_status_beq].
  split; [reflexivity|].
  rewrite Hs. unfold delete_invoice.
  cbn [users clients invoices invoice_items payments subscriptions audit_logs
       set_audit_logs set_invoice_items set_invoices].
  rewrite (delete_after_insert row s Hfresh). f_equal.
  - rewrite filter_app, (filter_all _ (invoice_items s)), filter_none.
    + apply app_nil_r.
    + intros r Hr.
      destruct (item_rows_shape e1 (uuidv4 e1 0) 1 (cb_items body) 0%nat rows Hrows)
        as (_ & Hall & _).
      rewrite Forall_forall in Hall. rewrite (Hall r Hr), Hid.
      now rewrite Nat.eqb_refl.
    + intros r Hr. apply negb_true_iff, Nat.eqb_neq. now apply Hitems.
  - apply filter_all. intros p Hp. apply negb_true_iff, Nat.eqb_neq. now apply Hpay.
Qed.

Lemma create_then_delete_restores_witness :
  invoices (snd (invoices_router (Scenario.at_ Scenario.t0 2) 1 (DELETE_invoice 100)
                                 Cases.db1))
  = invoices Scenario.db0.
Proof.
  assert (Hpost : invoices_router (Scenario.at_ Scenario.t0 1) 1
                    (POST_invoices Scenario.body0) Scenario.db0
                  = (Success 201 "Invoice created successfully"
                       (invoice_with_items Cases.invoice1
                          (created_items (Scenario.at_ Scenario.t0 1) Scenario.body0)),
                     Cases.db1)) by (vm_compute; reflexivity).
  destruct (create_then_delete_restores (Scenario.at_ Scenario.t0 1)
              (Scenario.at_ Scenario.t0 2) 1%nat Scenario.body0
              Scenario.db0 201%nat "Invoice created successfully" Cases.invoice1
              (created_items (Scenario.at_ Scenario.t0 1) Scenario.body0)
              Cases.db1 Hpost)
    as (s2 & entry & Hresp & Hs2).
  - split; intros ? [].
  - change (inv_id Cases.invoice1) with 100%nat in Hresp.
    rewrite Hresp, Hs2. reflexivity.
Defined.

(** ** PUT /api/invoices/:id *)

Local Open Scope string_scope.
Local Open Scope list_scope.
Local Open Scope Q_scope.

(** Past its checks, PUT leaves the item table as the replacement of the
    items left it, whatever the store says to the update of the
    invoice. *)
Lemma updateInvoice_items e userId u id body s existing :
  authenticate userId s = inr u ->
  find_invoice id (u_id u) s = Some existing ->
  inv_status existing <> Some paid ->
  invoice_items (snd (invoices_router e userId (PUT_invoice id body) s))
  = invoice_items (replace_items e id body s).
Proof.
  intros Hauth Hfind Hst. unfold invoices_router. rewrite Hauth, asyncHandler_snd.
  rewrite updateInvoice_cases, Hfind.
  destruct (status_is paid (inv_status existing)) eqn:E;
    [apply status_is_Some in E; contradiction|].
  cbn [andb]. cbv zeta.
  destruct (update_invoice_cases e id (updateData_of existing body)
              (replace_items e id body s)) as [H|[H|(c & _ & H)]]; rewrite H;
    try reflexivity.
  destruct (map _ _) as [|row [|row' rows]]; reflexivity.
Qed.

Lemma replace_items_accepted e id body items s s1 :
  ub_items body = Some items ->
  insert_invoice_items (map_items e id 0 0 items) (delete_items_of id s) = Some s1 ->
  exists rows,
    item_rows (map_items e id 0 0 items) = Some rows
    /\ invoice_items (replace_items e id body s)
       = filter (fun r => negb (it_invoice_id r =? id)%nat) (invoice_items s) ++ rows.
Proof.
  intros Hbody Hins. unfold replace_items, discard. rewrite Hbody, Hins.
  apply insert_invoice_items_accepts in Hins as (rows & Hrows & ->).
  now exists rows.
Qed.

Lemma replace_items_refused e id body items s :
  ub_items body = Some items ->
  insert_invoice_items (map_items e id 0 0 items) (delete_items_of id s) = None ->
  invoice_items (replace_items e id body s)
  = filter (fun r => negb (it_invoice_id r =? id)%nat) (invoice_items s).
Proof. intros Hbody Hins. unfold replace_items, discard. now rewrite Hbody, Hins. Qed.

Lemma filter_negb_filter {A : Type} (f : A -> bool) (l : list A) :
  filter f (filter (fun x => negb (f x)) l) = [].
Proof.
  apply filter_none. intros x Hx. apply filter_In in Hx as [_ Hx].
  now apply negb_true_iff in Hx.
Qed.

Lemma filter_idem {A : Type} (f : A -> bool) (l : list A) :
  filter f (filter f l) = filter f l.
Proof. apply filter_all. intros x Hx. now apply filter_In in Hx. Qed.

(** X8. A PUT with items on an invoice that is not paid, whose new item
    rows the store accepts, replaces the items of the invoice by the rows
    that the item table makes of the request, in the order of the request
    and with the numbers as the columns round them, and leaves the item
    rows of every other invoice in place; this holds whatever the store
    then says to the update of the invoice itself. *)
Theorem update_replaces_items e userId u id body items s existing s1 :
  authenticate userId s = inr u ->
  find_invoice id (u_id u) s = Some existing ->
  inv_status existing <> Some paid ->
  ub_items body = Some items ->
  insert_invoice_items (map_items e id 0 0 items) (delete_items_of id s) = Some s1 ->
  let s' := snd (invoices_router e userId (PUT_invoice id body) s) in
  exists rows,
    item_rows (map_items e id 0 0 items) = Some rows
    /\ Forall2 stored_as items rows
    /\ map it_sort_order rows = seq 0 (List.length items)
    /\ filter (fun r => (it_invoice_id r =? id)%nat) (invoice_items s') = rows
    /\ filter (fun r => negb (it_invoice_id r =? id)%nat) (invoice_items s')
       = filter (fun r => negb (it_invoice_id r =? id)%nat) (invoice_items s).
Proof.
  intros Hauth Hfind Hst Hbody Hins s'. subst s'.
  rewrite (updateInvoice_items e userId u id body s existing Hauth Hfind Hst).
  destruct (replace_items_accepted e id body items s s1 Hbody Hins) as (rows & Hrows & ->).
  destruct (item_rows_shape e id 0 items 0%nat rows Hrows) as (Hstored & Hall & Hsort & _).
  rewrite Forall_forall in Hall.
  exists rows. split; [exact Hrows|]. split; [exact Hstored|]. split; [exact Hsort|].
  rewrite !filter_app. split.
  - rewrite filter_negb_filter. cbn [app]. apply filter_all.
    intros r Hr. rewrite (Hall r Hr). apply Nat.eqb_refl.
  - rewrite filter_idem, (filter_none _ rows); [apply app_nil_r|].
    intros r Hr. rewrite (Hall r Hr). now rewrite Nat.eqb_refl.
Qed.

Lemma update_replaces_items_witness :
  exists rows,
    filter (fun r => (it_invoice_id r =? 100)%nat)
           (invoice_items (snd (invoices_router (Scenario.at_ Scenario.t0 2) 1
                                                (PUT_invoice 100 Cases.body_new_items)
                                                Cases.db1)))
    = rows
    /\ map it_sort_order rows = [0; 1]%nat.
Proof.
  assert (Hst : inv_status Cases.invoice1 <> Some paid) by discriminate.
  assert (Hins : exists s1,
             insert_invoice_items
               (map_items (Scenario.at_ Scenario.t0 2) 100 0 0 Scenario.two_items)
               (delete_items_of 100 Cases.db1) = Some s1)
    by (eexists; vm_compute; reflexivity).
  destruct Hins as (s1 & Hins).
  destruct (update_replaces_items (Scenario.at_ Scenario.t0 2) 1%nat Scenario.alice
              100%nat Cases.body_new_items Scenario.two_items Cases.db1
              Cases.invoice1 s1 eq_refl eq_refl Hst eq_refl Hins)
    as (rows & _ & _ & Hsort & Hrows & _).
  exists rows. split; [exact Hrows|exact Hsort].
Defined.

(** X9. A PUT with items is not all-or-nothing.  When the store refuses
    the new item rows (an item without description, for one), the old item
    rows of the invoice are gone all the same; and when the update of the
    invoice is then accepted, the answer is 200 "Invoice updated" and the
    stored subtotal is the rounding of the one computed from the refused
    items. *)
Theorem update_with_refused_items e userId u id body items s existing :
  authenticate userId s = inr u ->
  find_invoice id (u_id u) s = Some existing ->
  inv_status existing <> Some paid ->
  ub_items body = Some items ->
  insert_invoice_items (map_items e id 0 0 items) (delete_items_of id s) = None ->
  filter (fun r => (it_invoice_id r =? id)%nat)
         (invoice_items (snd (invoices_router e userId (PUT_invoice id body) s))) = []
  /\ forall http message inv' s',
       invoices_router e userId (PUT_invoice id body) s
       = (Success http message (invoice_data inv'), s') ->
       http = 200%nat /\ message = "Invoice updated"
       /\ find_invoice id (u_id u) s' = Some inv'
       /\ numeric_column 12 (reduce_subtotal items) = Some (inv_subtotal inv').
Proof.
  intros Hauth Hfind Hst Hbody Hins. split.
  - rewrite (updateInvoice_items e userId u id body s existing Hauth Hfind Hst).
    rewrite (replace_items_refused e id body items s Hbody Hins).
    apply filter_negb_filter.
  - intros http message inv' s' H.
    assert (Hok : http = 200%nat /\ message = "Invoice updated").
    { revert H. unfold invoices_router. rewrite Hauth. unfold asyncHandler.
      rewrite updateInvoice_cases, Hfind. destruct (_ && _); [discriminate|]. cbv zeta.
      destruct (update_invoice _ _ _ _) as [[[|row [|row' rows]] s2]|]; try discriminate.
      intros H. now injection H as <- <- _ _. }
    destruct Hok as [-> ->]. do 2 (split; [reflexivity|]).
    destruct (updateInvoice_updated e userId u id body s existing _ _ inv' s'
                Hauth Hfind H) as (c & Hc & -> & ->).
    split.
    + apply (find_after_change id (u_id u) c (replace_items e id body s));
        [|reflexivity].
      rewrite (find_invoice_invoices _ _ s); [assumption|apply replace_items_invoices].
    + apply change_amounts in Hc as (_ & _ & Hs & _).
      unfold updateData_of in Hs. rewrite Hbody in Hs. cbn [p_subtotal assign] in Hs.
      destruct (numeric_column 12 (reduce_subtotal items)) as [cs|]; [|discriminate].
      injection Hs as Hs. cbn [apply_change inv_subtotal]. now rewrite <- Hs.
Qed.

Lemma update_with_refused_items_witness :
  exists inv' s',
    invoices_router (Scenario.at_ Scenario.t0 2) 1
                    (PUT_invoice 100 MoreCases.body_bad_items) Cases.db1
    = (Success 200 "Invoice updated" (invoice_data inv'), s')
    /\ filter (fun r => (it_invoice_id r =? 100)%nat) (invoice_items s') = []
    /\ List.length (filter (fun r => (it_invoice_id r =? 100)%nat)
                           (invoice_items Cases.db1)) = 2%nat.
Proof.
  assert (Hst : inv_status Cases.invoice1 <> Some paid) by discriminate.
  assert (Hput : exists inv' s',
             invoices_router (Scenario.at_ Scenario.t0 2) 1
               (PUT_invoice 100 MoreCases.body_bad_items) Cases.db1
             = (Success 200 "Invoice updated" (invoice_data inv'), s'))
    by (do 2 eexists; vm_compute; reflexivity).
  destruct Hput as (inv' & s' & Hput).
  destruct (update_with_refused_items (Scenario.at_ Scenario.t0 2) 1%nat Scenario.alice
              100%nat MoreCases.body_bad_items
              [mkItemInput (just "Design") 2 50; mkItemInput undefined 1 25]
              Cases.db1 Cases.invoice1 eq_refl eq_refl Hst eq_refl eq_refl)
    as (Hitems & _).
  exists inv', s'. split; [exact Hput|]. rewrite Hput in Hitems.
  split; [exact Hitems|reflexivity].
Defined.

Lemma zero_is_falsy (r : Q) (old : js number) :
  r == 0 -> js_or (just (JSON_number r)) old = old.
Proof.
  intros Hr. unfold js_or, JSON_number. rewrite (double_comp r 0 Hr). reflexivity.
Qed.

Lemma zero_is_stored p (r : Q) :
  (0 < p)%Z -> r == 0 -> numeric_column p (JSON_number r) = Some (Some 0%Z).
Proof.
  intros Hp Hr. unfold JSON_number. rewrite (double_comp r 0 Hr).
  unfold numeric_column. change (JSON_of_number (double 0)) with (Some 0).
  cbv beta iota. rewrite (decimal_in_Z p 0 0); [reflexivity|reflexivity|].
  simpl. apply Z.pow_pos_nonneg; lia.
Qed.

(** X10. In a PUT with items that is answered with success, a tax rate of
    zero or a discount of zero in the request falls back to the stored
    value when the totals are computed, while the zero itself is stored:
    tax_amount is the rounding of the new subtotal times the old rate over
    100 beside tax_rate 0, and total subtracts the old discount beside
    discount_amount 0. *)
Theorem update_zero_falls_back e userId u id body items s existing http message inv' s' :
  authenticate userId s = inr u ->
  find_invoice id (u_id u) s = Some existing ->
  ub_items body = Some items ->
  invoices_router e userId (PUT_invoice id body) s
  = (Success http message (invoice_data inv'), s') ->
  find_invoice id (u_id u) s' = Some inv'
  /\ (forall r, ub_tax_rate body = just r -> r == 0 ->
                inv_tax_rate inv' = Some 0%Z
                /\ numeric_column 12
                     (tax_of (reduce_subtotal items)
                             (column_number (inv_tax_rate existing)))
                   = Some (inv_tax_amount inv'))
  /\ (forall d, ub_discount_amount body = just d -> d == 0 ->
                inv_discount_amount inv' = Some 0%Z
                /\ numeric_column 12
                     (total_of (reduce_subtotal items)
                               (tax_of (reduce_subtotal items) (rate_used existing body))
                               (column_number (inv_discount_amount existing)))
                   = Some (inv_total inv')).
Proof.
  intros Hauth Hfind Hbody H.
  destruct (updateInvoice_updated e userId u id body s existing _ _ inv' s'
              Hauth Hfind H) as (c & Hc & -> & ->).
  split.
  { apply (find_after_change id (u_id u) c (replace_items e id body s)); [|reflexivity].
    rewrite (find_invoice_invoices _ _ s); [assumption|apply replace_items_invoices]. }
  apply change_amounts in Hc as (Hrate & Hdisc & _ & Ht & Htot).
  unfold updateData_of in Hrate, Hdisc, Ht, Htot. rewrite Hbody in Hrate, Hdisc, Ht, Htot.
  cbn [p_tax_rate p_discount_amount p_tax_amount p_total assign] in Hrate, Hdisc, Ht, Htot.
  destruct (numeric_column 12 (tax_of _ _)) as [ct|] eqn:Et; [|discriminate].
  destruct (numeric_column 12 (total_of _ _ _)) as [ctot|] eqn:Etot; [|discriminate].
  injection Ht as Ht. injection Htot as Htot.
  cbn [apply_change inv_tax_rate inv_tax_amount inv_discount_amount inv_total].
  rewrite <- Ht, <- Htot. cbn [or_else]. split.
  - intros r Hr Hzero. unfold body_tax_rate in Hrate. rewrite Hr in Hrate.
    cbn [js_map assign] in Hrate. rewrite (zero_is_stored 5 r) in Hrate by (lia || assumption).
    injection Hrate as <-. split; [reflexivity|].
    rewrite <- Et. unfold rate_used, body_tax_rate. rewrite Hr. cbn [js_map].
    now rewrite zero_is_falsy.
  - intros d Hd Hzero. unfold body_discount in Hdisc. rewrite Hd in Hdisc.
    cbn [js_map assign] in Hdisc.
    rewrite (zero_is_stored 12 d) in Hdisc by (lia || assumption).
    injection Hdisc as <-. split; [reflexivity|].
    rewrite <- Etot. unfold discount_used, body_discount. rewrite Hd. cbn [js_map].
    now rewrite zero_is_falsy.
Qed.

Lemma update_zero_falls_back_witness :
  exists inv' s',
    invoices_router (Scenario.at_ Scenario.t0 2) 1
                    (PUT_invoice 100 MoreCases.body_zero_rate) Cases.db1
    = (Success 200 "Invoice updated" (invoice_data inv'), s')
    /\ inv_tax_rate inv' = Some 0%Z
    /\ inv_tax_amount inv' = Some 1250%Z.
Proof.
  assert (Hput : exists inv' s',
             invoices_router (Scenario.at_ Scenario.t0 2) 1
               (PUT_invoice 100 MoreCases.body_zero_rate) Cases.db1
             = (Success 200 "Invoice updated" (invoice_data inv'), s'))
    by (do 2 eexists; vm_compute; reflexivity).
  destruct Hput as (inv' & s' & Hput).
  destruct (update_zero_falls_back (Scenario.at_ Scenario.t0 2) 1%nat Scenario.alice
              100%nat MoreCases.body_zero_rate Scenario.two_items
              Cases.db1 Cases.invoice1 200%nat "Invoice updated" inv' s'
              eq_refl eq_refl eq_refl Hput)
    as (_ & Hrate & _).
  destruct (Hrate 0 eq_refl (Qeq_refl 0)) as [Hr Ht].
  exists inv', s'. split; [exact Hput|]. split; [exact Hr|].
  assert (E : numeric_column 12
                (tax_of (reduce_subtotal Scenario.two_items)
                        (column_number (inv_tax_rate Cases.invoice1)))
              = Some (Some 1250%Z)) by (vm_compute; reflexivity).
  rewrite E in Ht. now injection Ht as <-.
Defined.

Lemma refused_rate e p :
  assign (numeric_column 5) (p_tax_rate p) = None -> invoice_change_of e p = None.
Proof.
  intros H. unfold invoice_change_of. rewrite H.
  repeat match goal with
         | |- context [match ?x with Some _ => _ | None => _ end] => destruct x
         end; reflexivity.
Qed.

(** X11. A PUT without items on an invoice that is not paid does not
    recompute the totals.  When it is answered with success, a new tax rate
    or discount is stored as its column rounds it while subtotal,
    tax_amount and total keep their stored values, and the item rows are
    untouched.  When the rate does not fit DECIMAL(5, 2), the request is
    answered with HTTP 500 "Failed to update invoice" and nothing is
    written. *)
Theorem update_without_items_keeps_totals e userId u id body s existing :
  authenticate userId s = inr u ->
  find_invoice id (u_id u) s = Some existing ->
  inv_status existing <> Some paid ->
  ub_items body = None ->
  (forall http message inv' s',
      invoices_router e userId (PUT_invoice id body) s
      = (Success http message (invoice_data inv'), s') ->
      find_invoice id (u_id u) s' = Some inv'
      /\ (forall r, ub_tax_rate body = just r ->
                    numeric_column 5 (JSON_number r) = Some (inv_tax_rate inv'))
      /\ (forall d, ub_discount_amount body = just d ->
                    numeric_column 12 (JSON_number d) = Some (inv_discount_amount inv'))
      /\ inv_subtotal inv' = inv_subtotal existing
      /\ inv_tax_amount inv' = inv_tax_amount existing
      /\ inv_total inv' = inv_total existing
      /\ invoice_items s' = invoice_items s)
  /\ (forall r, ub_tax_rate body = just r ->
                numeric_column 5 (JSON_number r) = None ->
                invoices_router e userId (PUT_invoice id body) s
                = (Failure 500 (Some INTERNAL_ERROR) "Failed to update invoice", s)).
Proof.
  intros Hauth Hfind Hst Hbody. split.
  - intros http message inv' s' H.
    destruct (updateInvoice_updated e userId u id body s existing _ _ inv' s'
                Hauth Hfind H) as (c & Hc & -> & ->).
    split.
    { apply (find_after_change id (u_id u) c (replace_items e id body s)); [|reflexivity].
      rewrite (find_invoice_invoices _ _ s); [assumption|apply replace_items_invoices]. }
    apply change_amounts in Hc as (Hrate & Hdisc & Hs & Ht & Htot).
    unfold updateData_of in Hrate, Hdisc, Hs, Ht, Htot.
    rewrite Hbody in Hrate, Hdisc, Hs, Ht, Htot.
    cbn [p_tax_rate p_discount_amount p_subtotal p_tax_amount p_total assign]
      in Hrate, Hdisc, Hs, Ht, Htot.
    injection Hs as Hs. injection Ht as Ht. injection Htot as Htot.
    cbn [apply_change inv_tax_rate inv_tax_amount inv_discount_amount inv_total
         inv_subtotal].
    rewrite <- Hs, <- Ht, <- Htot. cbn [or_else].
    split; [|split; [|repeat split]].
    + intros r Hr. unfold body_tax_rate in Hrate. rewrite Hr in Hrate.
      cbn [js_map assign] in Hrate.
      destruct (numeric_column 5 (JSON_number r)) as [cr|]; [|discriminate].
      injection Hrate as <-. reflexivity.
    + intros d Hd. unfold body_discount in Hdisc. rewrite Hd in Hdisc.
      cbn [js_map assign] in Hdisc.
      destruct (numeric_column 12 (JSON_number d)) as [cd|]; [|discriminate].
      injection Hdisc as <-. reflexivity.
    + unfold changed, replace_items. now rewrite Hbody.
  - intros r Hr Hrefused. unfold invoices_router. rewrite Hauth. unfold asyncHandler.
    rewrite updateInvoice_cases, Hfind.
    destruct (status_is paid (inv_status existing)) eqn:E;
      [apply status_is_Some in E; contradiction|].
    cbn [andb]. cbv zeta.
    assert (Hs1 : replace_items e id body s = s)
      by (unfold replace_items; now rewrite Hbody).
    rewrite Hs1, update_invoice_refused; [reflexivity| |].
    + unfold updateData_of, patch_is_empty. rewrite Hbody.
      cbn [p_status p_due_date p_notes p_terms p_tax_rate]. unfold body_tax_rate.
      rewrite Hr. cbn [js_map is_undefined]. now rewrite !andb_false_r.
    + apply refused_rate. unfold updateData_of. rewrite Hbody. cbn [p_tax_rate].
      unfold body_tax_rate. rewrite Hr. cbn [js_map assign]. now rewrite Hrefused.
Qed.

Lemma update_without_items_keeps_totals_witness :
  exists inv' s',
    invoices_router (Scenario.at_ Scenario.t0 2) 1
                    (PUT_invoice 100 MoreCases.body_discount_only) Cases.db1
    = (Success 200 "Invoice updated" (invoice_data inv'), s')
    /\ inv_discount_amount inv' = Some 5000%Z
    /\ inv_total inv' = inv_total Cases.invoice1.
Proof.
  assert (Hst : inv_status Cases.invoice1 <> Some paid) by discriminate.
  assert (Hput : exists inv' s',
             invoices_router (Scenario.at_ Scenario.t0 2) 1
               (PUT_invoice 100 MoreCases.body_discount_only) Cases.db1
             = (Success 200 "Invoice updated" (invoice_data inv'), s'))
    by (do 2 eexists; vm_compute; reflexivity).
  destruct Hput as (inv' & s' & Hput).
  destruct (proj1 (update_without_items_keeps_totals (Scenario.at_ Scenario.t0 2) 1%nat
                     Scenario.alice 100%nat MoreCases.body_discount_only
                     Cases.db1 Cases.invoice1 eq_refl eq_refl Hst eq_refl)
                  200%nat "Invoice updated" inv' s' Hput)
    as (_ & _ & Hd & _ & _ & Ht & _).
  exists inv', s'. split; [exact Hput|]. split; [|exact Ht].
  assert (E : numeric_column 12 (JSON_number 50) = Some (Some 5000%Z))
    by (vm_compute; reflexivity).
  specialize (Hd 50 eq_refl). rewrite E in Hd. now injection Hd as <-.
Defined.

Local Open Scope string_scope.
Local Open Scope list_scope.
Local Open Scope Q_scope.

(** ** The plan limit errs on one side only *)

Lemma same_month_between (now_ created : Date) :
  date_leb (setDate now_ 1) created = true ->
  date_leb created now_ = true ->
  getFullYear created = getFullYear now_ /\ getMonth created = getMonth now_.
Proof.
  unfold date_leb, setDate. cbn [getFullYear getMonth getDate getTimeOfDay].
  destruct (Nat.ltb_spec (getFullYear now_) (getFullYear created));
    destruct (Nat.ltb_spec (getFullYear created) (getFullYear now_));
    destruct (Nat.ltb_spec (getMonth now_) (getMonth created));
    destruct (Nat.ltb_spec (getMonth created) (getMonth now_));
    intros Ha Hb; try discriminate; lia.
Qed.

Lemma filter_length_le {A : Type} (f g : A -> bool) (l : list A) :
  (forall x, In x l -> f x = true -> g x = true) ->
  (List.length (filter f l) <= List.length (filter g l))%nat.
Proof.
  induction l as [|a l IH]; cbn [filter]; intros H; [apply Nat.le_refl|].
  pose proof (IH (fun x Hx => H x (or_intror Hx))) as IH'.
  destruct (f a) eqn:E.
  - rewrite (H a (or_introl eq_refl) E). cbn [List.length]. lia.
  - destruct (g a); cbn [List.length]; lia.
Qed.

(** X12. When none of the tenant's invoices is dated after the current
    time, the count of the plan check never exceeds the number of the
    tenant's invoices created in the current calendar month; so a tenant on
    the free plan with at most four invoices in the month is never refused
    with PLAN_LIMIT. *)
Theorem plan_limit_never_stricter e userId u body s :
  authenticate userId s = inr u ->
  (forall i, In i (invoices s) -> inv_user_id i = userId ->
             date_leb (inv_created_at i) (now e) = true) ->
  (count_since_setDate1 e userId s <= count_in_calendar_month e userId s)%nat
  /\ ((count_in_calendar_month e userId s <= 4)%nat ->
      forall message s',
        invoices_router e userId (POST_invoices body) s
        <> (Failure 403 (Some "PLAN_LIMIT") message, s')).
Proof.
  intros Hauth Hpast.
  assert (Hle : (count_since_setDate1 e userId s <= count_in_calendar_month e userId s)%nat).
  { unfold count_since_setDate1, count_in_calendar_month. apply filter_length_le.
    intros i Hi Hb. apply andb_true_iff in Hb as [Huser Hdate].
    rewrite Huser. apply Nat.eqb_eq in Huser.
    destruct (same_month_between (now e) (inv_created_at i) Hdate
                                 (Hpast i Hi Huser)) as [-> ->].
    now rewrite !Nat.eqb_refl. }
  split; [exact Hle|]. intros Hfew.
  pose proof (authenticate_id _ _ _ Hauth) as Hid.
  apply (proj2 (plan_limit_gate e userId u body s Hauth)).
  right. rewrite Hid. lia.
Qed.

Lemma plan_limit_never_stricter_witness :
  (count_since_setDate1 (Scenario.at_ Scenario.t0 6) 2 Cases.db_five
   <= count_in_calendar_month (Scenario.at_ Scenario.t0 6) 2 Cases.db_five)%nat.
Proof.
  apply (plan_limit_never_stricter (Scenario.at_ Scenario.t0 6) 2%nat Scenario.bob
           Cases.body_bob Cases.db_five eq_refl).
  intros i Hi _. vm_compute in Hi.
  repeat (destruct Hi as [<-|Hi]; [reflexivity|]). destruct Hi.
Defined.

(** ** The text of an invoice number *)

Lemma string_length_app (a b : string) :
  String.length (a ++ b) = (String.length a + String.length b)%nat.
Proof. induction a as [|c a IH]; simpl; [reflexivity|now rewrite IH]. Qed.

Lemma string_length_of_list (l : list ascii) :
  String.length (string_of_list_ascii l) = List.length l.
Proof. induction l as [|c l IH]; simpl; [reflexivity|now rewrite IH]. Qed.

Lemma string_app_inv_head (p a b : string) : (p ++ a = p ++ b)%string -> a = b.
Proof. induction p as [|c p IH]; simpl; intros H; [exact H|]. injection H as H. auto. Qed.

Lemma substring_app_tail (p s : string) :
  substring (String.length p) (String.length s) (p ++ s) = s.
Proof.
  induction p as [|a p IH]; cbn [String.length append substring]; [|exact IH].
  induction s as [|a s IH]; [reflexivity|]. cbn [String.length substring]. now rewrite IH.
Qed.

(** padStart fills up to the target length and never cuts: the result
    has the larger of the two lengths, ends with the given string, and is
    the given string itself when that is long enough. *)
Lemma padStart_length (n : nat) (c : ascii) (s : string) :
  String.length (padStart n c s) = Nat.max n (String.length s)
  /\ ((n <= String.length s)%nat -> padStart n c s = s)
  /\ substring (String.length (padStart n c s) - String.length s) (String.length s)
               (padStart n c s) = s.
Proof.
  unfold padStart.
  assert (Hlen : String.length (string_of_list_ascii (repeat c (n - String.length s))
                                  ++ s)%string
                 = Nat.max n (String.length s)).
  { rewrite string_length_app, string_length_of_list, repeat_length. lia. }
  split; [exact Hlen|]. split.
  - intros Hle. replace (n - String.length s)%nat with 0%nat by lia. reflexivity.
  - rewrite string_length_app, Nat.add_sub. apply substring_app_tail.
Qed.

Lemma numeral_of_zeros k s :
  nat_of_numeral (string_of_list_ascii (repeat "0"%char k) ++ s) = nat_of_numeral s.
Proof.
  unfold nat_of_numeral. induction k as [|k IH]; [reflexivity|].
  cbn [repeat string_of_list_ascii append NilEmpty.uint_of_string].
  destruct (NilEmpty.uint_of_string (string_of_list_ascii (repeat "0"%char k) ++ s))
    as [d|] eqn:E; destruct (NilEmpty.uint_of_string s) as [d'|];
    cbn [option_map uint_of_char] in *; try discriminate; try reflexivity.
  injection IH as IH. f_equal. exact IH.
Qed.

Lemma numeral_of_String_of_nat n : nat_of_numeral (String_of_nat n) = Some n.
Proof.
  unfold nat_of_numeral, String_of_nat, NilZero.string_of_uint.
  pose proof (DecimalNat.Unsigned.of_to n) as Hn.
  destruct (Nat.to_uint n) as [|d|d|d|d|d|d|d|d|d|d] eqn:E;
    [now rewrite <- Hn|..];
    rewrite NilEmpty.usu; cbn [option_map]; now rewrite Hn.
Qed.

(** X13. The ordinal of an invoice number reads back as a decimal numeral
    to the count plus one, and within one year the numbers made for
    different counts are different texts. *)
Theorem invoiceNumber_encodes_count (e : env) :
  (forall count,
      nat_of_numeral (padStart 4 "0" (String_of_nat (count + 1))) = Some (count + 1)%nat)
  /\ (forall c1 c2, invoiceNumber_of e c1 = invoiceNumber_of e c2 -> c1 = c2).
Proof.
  assert (Hdecode : forall count,
             nat_of_numeral (padStart 4 "0" (String_of_nat (count + 1)))
             = Some (count + 1)%nat).
  { intros count. unfold padStart. rewrite numeral_of_zeros.
    apply numeral_of_String_of_nat. }
  split; [exact Hdecode|].
  intros c1 c2 H. unfold invoiceNumber_of in H.
  apply string_app_inv_head, string_app_inv_head, string_app_inv_head in H.
  pose proof (Hdecode c1) as H1. rewrite H, Hdecode in H1.
  injection H1 as H1. lia.
Qed.

Lemma padStart_length_witness : padStart 4 "0" "12345" = "12345".
Proof. apply (proj1 (proj2 (padStart_length 4 "0" "12345"))). simpl. lia. Defined.

Lemma invoiceNumber_encodes_count_witness : 7%nat = 7%nat.
Proof.
  exact (proj2 (invoiceNumber_encodes_count (Scenario.at_ Scenario.t0 1)) 7%nat 7%nat
               eq_refl).
Defined.

(** ** POST /api/invoices/:id/send *)

Lemma sendInvoice_cases e k u id s res s' :
  sendInvoice e k u id s = (res, s') ->
  s' = s /\ res <> inr (Success 200 "Invoice sent successfully" no_data)
  \/ exists invoice,
       find_invoice id (u_id u) s = Some invoice
       /\ res = inr (Success 200 "Invoice sent successfully" no_data)
       /\ s' = if status_is draft (inv_status invoice)
               then discard (update_invoice_ e id (status_patch "pending")) s else s.
Proof.
  unfold sendInvoice.
  destruct (find_invoice id (u_id u) s) as [invoice|];
    [|intros H; injection H as <- <-; left; split; [reflexivity|discriminate]].
  destruct (generateInvoicePDF k _ u) as [err|pdf];
    [intros H; injection H as <- <-; left; split; [reflexivity|discriminate]|].
  destruct (view_client _) as [client|];
    [|intros H; injection H as <- <-; left; split; [reflexivity|discriminate]].
  destruct (sendInvoiceEmail k _ _ pdf) as [err|];
    [intros H; injection H as <- <-; left; split; [reflexivity|discriminate]|].
  intros H; injection H as <- <-. right. exists invoice. auto.
Qed.

Lemma send_effect e id s :
  discard (update_invoice_ e id (status_patch "pending")) s = changed id pending_change s.
Proof. reflexivity. Qed.

(** X14. The send route changes the store only when the PDF and the mail
    went through and the invoice was a draft, and then it changes only the
    status, to pending.  A denial by the middleware, a missing invoice or an
    error thrown by the PDF or mail service leaves the store as it was; an
    invoice that is not a draft keeps its status; with unique ids a paid
    invoice stays paid. *)
Theorem send_changes_only_drafts e k userId id s res s' :
  send_route e k userId id s = (res, s') ->
  (res <> inr (Success 200 "Invoice sent successfully" no_data) -> s' = s)
  /\ (res = inr (Success 200 "Invoice sent successfully" no_data) ->
      exists u invoice,
        authenticate userId s = inr u
        /\ u_plan u <> free
        /\ find_invoice id (u_id u) s = Some invoice
        /\ (inv_status invoice <> Some draft -> s' = s)
        /\ (inv_status invoice = Some draft ->
            s' = discard (update_invoice_ e id (status_patch "pending")) s
            /\ find_invoice id (u_id u) s'
               = Some (mkInvoice (inv_id invoice) (inv_user_id invoice)
                         (inv_client_id invoice) (inv_invoice_number invoice)
                         (Some pending)
                         (inv_due_date invoice) (inv_subtotal invoice)
                         (inv_tax_rate invoice) (inv_tax_amount invoice)
                         (inv_discount_amount invoice) (inv_total invoice)
                         (inv_notes invoice) (inv_terms invoice) (inv_paid_at invoice)
                         (inv_paid_amount invoice) (inv_payment_method invoice)
                         (inv_stripe_payment_intent_id invoice)
                         (inv_reminder_sent_at invoice) (inv_reminder_count invoice)
                         (inv_created_at invoice))))
  /\ (forall paid_id, unique_ids s -> paid_in paid_id s -> paid_in paid_id s').
Proof.
  unfold send_route.
  destruct (authenticate userId s) as [denied|u] eqn:Hauth.
  { intros H; injection H as <- <-. repeat split; auto.
    intros Hres. apply authenticate_denied in Hauth as (h & err & -> & _). discriminate. }
  unfold requirePlan. destruct (existsb (plan_beq (u_plan u)) [pro; business]) eqn:Hplan.
  2:{ intros H; injection H as <- <-. repeat split; auto. discriminate. }
  intros H. apply sendInvoice_cases in H as [[-> Hres]|(invoice & Hfind & -> & ->)].
  { repeat split; auto. intros Heq. contradiction. }
  split; [intros Hres; contradiction|]. split.
  - intros _. exists u, invoice. split; [reflexivity|]. split.
    { intros Hfree. rewrite Hfree in Hplan. discriminate. }
    split; [exact Hfind|]. split.
    + intros Hst. destruct (status_is draft (inv_status invoice)) eqn:E;
        [apply status_is_Some in E; contradiction|reflexivity].
    + intros Hst. rewrite Hst. cbn [status_is invoice_status_beq]. split; [reflexivity|].
      rewrite send_effect.
      rewrite (find_after_change id (u_id u) pending_change s
                 (changed id pending_change s) invoice Hfind eq_refl).
      unfold apply_change, pending_change. cbn [or_else ch_status ch_due_date ch_notes
        ch_terms ch_tax_rate ch_discount_amount ch_subtotal ch_tax_amount ch_total
        ch_paid_at ch_paid_amount ch_payment_method ch_stripe_payment_intent_id
        ch_reminder_sent_at ch_reminder_count]. reflexivity.
  - intros paid_id Hu Hp.
    destruct (status_is draft (inv_status invoice)) eqn:E; [|exact Hp].
    rewrite send_effect. apply changed_keeps_paid; [|now split].
    destruct (Nat.eq_dec id paid_id) as [->|Hne]; [|now left].
    exfalso. apply status_is_Some in E.
    rewrite (found_is_paid paid_id (u_id u) s invoice Hu Hp Hfind) in E. discriminate.
Qed.

Lemma send_changes_only_drafts_witness :
  (exists i, find_invoice 100 1
               (snd (send_route (Scenario.at_ Scenario.t0 3) services_ok 1 100
                                Cases.db_draft)) = Some i
             /\ inv_status i = Some pending)
  /\ snd (send_route (Scenario.at_ Scenario.t0 3) mail_down 1 100 Cases.db_draft)
     = Cases.db_draft.
Proof.
  split.
  - destruct (proj1 (proj2 (send_changes_only_drafts (Scenario.at_ Scenario.t0 3)
                              services_ok 1%nat 100%nat Cases.db_draft
                              (fst (send_route (Scenario.at_ Scenario.t0 3) services_ok
                                               1 100 Cases.db_draft))
                              (snd (send_route (Scenario.at_ Scenario.t0 3) services_ok
                                               1 100 Cases.db_draft))
                              eq_refl)) eq_refl)
      as (u & invoice & Hauth & _ & Hfind & _ & Hdraft).
    assert (Hu : u = Scenario.alice)
      by (assert (E : authenticate 1 Cases.db_draft = inr Scenario.alice) by reflexivity;
          congruence).
    subst u.
    assert (Hst : inv_status invoice = Some draft).
    { assert (E : find_invoice 100 (u_id Scenario.alice) Cases.db_draft
                  = Some (Cases.invoice1_as draft)) by reflexivity.
      rewrite E in Hfind. now injection Hfind as <-. }
    destruct (Hdraft Hst) as [_ Hfound]. eexists. split; [exact Hfound|reflexivity].
  - apply (proj1 (send_changes_only_drafts (Scenario.at_ Scenario.t0 3) mail_down 1%nat
                    100%nat Cases.db_draft
                    (fst (send_route (Scenario.at_ Scenario.t0 3) mail_down 1 100
                                     Cases.db_draft))
                    (snd (send_route (Scenario.at_ Scenario.t0 3) mail_down 1 100
                                     Cases.db_draft)) eq_refl)).
    vm_compute. discriminate.
Defined.

(** ** errorHandler *)

(** X15. For an APIError with a status other than 0, a message and a code
    that are not empty, and a code other than PGRST116, errorHandler sends
    exactly the status, the message and the code of the error; that covers
    every APIError the invoice routes throw and the error of notFound.  An
    error whose code is PGRST116 is always sent as 404 NOT_FOUND "Resource
    not found", whatever else it carries, unless it is a ValidationError
    without an errors object, for which the handler itself throws. *)
Theorem errorHandler_any_renders :
  (forall e,
      statusCode e <> 0%nat -> err_message e <> "" -> err_code e <> "" ->
      err_code e <> "PGRST116" ->
      errorHandler_any (js_of_APIError e)
      = Some (mkRendered (statusCode e) (err_message e) (code_string (err_code e)))
      /\ errorHandler e = Failure (statusCode e) (Some (err_code e)) (err_message e))
  /\ (forall originalUrl,
         errorHandler_any (js_of_APIError (notFound originalUrl))
         = Some (mkRendered 404 ("Not found: " ++ originalUrl) (code_string "NOT_FOUND")))
  /\ (forall err,
         e_code err = Some (code_string "PGRST116") ->
         (e_name err = "ValidationError" -> e_errors err <> None) ->
         errorHandler_any err
         = Some (mkRendered 404 "Resource not found" (code_string "NOT_FOUND")))
  /\ (forall err,
         e_name err = "ValidationError" -> e_errors err = None ->
         errorHandler_any err = None).
Proof.
  split; [|split; [|split]].
  - intros [message status code] Hs Hm Hc Hp. cbn [statusCode err_message err_code] in *.
    split; [|reflexivity].
    assert (Hstatus : status_or (Some status) 500 = status)
      by (destruct status; [contradiction|reflexivity]).
    assert (Hmessage : string_or (Some message) "Internal server error" = message)
      by (destruct message; [contradiction|reflexivity]).
    assert (Hcode : code_or (Some (code_string code)) (code_string "INTERNAL_ERROR")
                    = code_string code)
      by (destruct code; [contradiction|reflexivity]).
    unfold errorHandler_any, js_of_APIError.
    cbn [e_name e_message e_statusCode e_code e_errors code_is
         err_code err_message statusCode].
    apply String.eqb_neq in Hp. rewrite Hp, Hstatus, Hmessage, Hcode. reflexivity.
  - intros url. reflexivity.
  - intros err Hcode Hval. unfold errorHandler_any. rewrite Hcode.
    cbn [code_is String.eqb Ascii.eqb Bool.eqb].
    destruct (String.eqb (e_name err) "ValidationError") eqn:E.
    + apply String.eqb_eq in E. specialize (Hval E).
      destruct (e_errors err); [reflexivity|contradiction].
    + reflexivity.
  - intros err Hname Herrors. unfold errorHandler_any.
    now rewrite Hname, Herrors.
Qed.

Lemma errorHandler_any_renders_witness :
  errorHandler_any
    (js_of_APIError (mkAPIError "Free plan limited to 5 invoices per month. Please upgrade."
                                403 "PLAN_LIMIT"))
  = Some (mkRendered 403 "Free plan limited to 5 invoices per month. Please upgrade."
                     (code_string "PLAN_LIMIT")).
Proof.
  apply (proj1 errorHandler_any_renders
           (mkAPIError "Free plan limited to 5 invoices per month. Please upgrade."
                       403 "PLAN_LIMIT")); discriminate.
Defined.

(** ** The payment link and its reconciliation *)

Lemma Math_round_bounds (x : Q) :
  x - (1 # 2) < inject_Z (Math_round x) /\ inject_Z (Math_round x) <= x + (1 # 2).
Proof.
  unfold Math_round. split.
  - pose proof (Qlt_floor (x + (1 # 2))) as H.
    rewrite inject_Z_plus in H. change (inject_Z 1) with 1 in H. lra.
  - apply Qfloor_le.
Qed.

Lemma Math_round_integer (n : Z) (x : Q) : x == inject_Z n -> Math_round x = n.
Proof.
  intros Hx. destruct (Math_round_bounds x) as [Hlo Hhi].
  assert (H1 : inject_Z (Math_round x) < inject_Z (n + 1))
    by (rewrite inject_Z_plus; change (inject_Z 1) with 1; lra).
  assert (H2 : inject_Z (n - 1) < inject_Z (Math_round x))
    by (unfold Z.sub; rewrite inject_Z_plus; change (inject_Z (- (1))) with (-1); lra).
  rewrite <- Zlt_Qlt in H1, H2. lia.
Qed.

Lemma cents_exact (total : Q) (n : Z) :
  total == inject_Z n / 100 -> inject_Z (Math_round (total * 100)) / 100 == total.
Proof.
  intros Hn. rewrite (Math_round_integer n (total * 100)); [now symmetry|].
  rewrite Hn. field.
Qed.

Lemma cents_close (total : Q) :
  Qabs (inject_Z (Math_round (total * 100)) / 100 - total) <= 1 # 200.
Proof.
  destruct (Math_round_bounds (total * 100)) as [Hlo Hhi].
  assert (Hdiv : inject_Z (Math_round (total * 100)) / 100
                 == inject_Z (Math_round (total * 100)) * (1 # 100)) by reflexivity.
  apply Qabs_Qle_condition. rewrite Hdiv. split; lra.
Qed.

(** X16. Turning an amount into cents with Math.round(total * 100), as the
    payment link does, and back with a division by 100, as the webhook
    does, gives the amount itself when it is a whole number of cents, and
    in any case an amount at most half a cent away. *)
Theorem cents_round_trip (total : Q) :
  (forall n : Z, total == inject_Z n / 100 ->
                 inject_Z (Math_round (total * 100)) / 100 == total)
  /\ Qabs (inject_Z (Math_round (total * 100)) / 100 - total) <= 1 # 200.
Proof. split; [apply cents_exact|apply cents_close]. Qed.

Lemma cents_round_trip_witness : inject_Z (Math_round (132.5 * 100)) / 100 == 132.5.
Proof. apply (proj1 (cents_round_trip 132.5) 13250%Z). reflexivity. Defined.

Local Open Scope string_scope.
Local Open Scope list_scope.
Local Open Scope Q_scope.

(** ** The payment link and its reconciliation *)

Lemma createInvoicePayment_sent e stripe_create u id s res params s0 :
  createInvoicePayment e stripe_create u id s = (res, Some params, s0) ->
  exists invoice,
    find_invoice id (u_id u) s = Some invoice
    /\ inv_status invoice <> Some paid
    /\ ip_amount params
       = Math_round_number
           (js_mul (ToNumber (column_number (inv_total invoice))) (Finite 100))
    /\ ip_metadata_invoice_id params = id
    /\ ip_metadata_user_id params = u_id u
    /\ forall link, res = inr link -> link_amount link = column_number (inv_total invoice).
Proof.
  unfold createInvoicePayment.
  destruct (find_invoice id (u_id u) s) as [invoice|] eqn:Hfind; [|discriminate].
  destruct (status_is paid (inv_status invoice)) eqn:Hst; [discriminate|].
  destruct (view_client _) as [client|]; [|discriminate].
  destruct (find_invoice_In _ _ _ _ Hfind) as (_ & Hid & _).
  assert (Hnp : inv_status invoice <> Some paid)
    by (intros E; apply status_is_Some in E; congruence).
  destruct (stripe_create _) as [err|[pid secret]]; intros H; injection H as <- <- <-;
    exists invoice; cbn [ip_amount ip_metadata_invoice_id ip_metadata_user_id];
    repeat split; auto; try discriminate.
  intros link Hlink. injection Hlink as <-. reflexivity.
Qed.

(** X17. When a payment link was requested for an invoice with a total, the
    amount sent to Stripe is the stored total in cents.  When Stripe later
    reports the intent as succeeded, with the amount and the metadata of
    the request, then in whatever store the event meets, provided it still
    holds the invoice and the user, the intent id fits VARCHAR(255) and the
    key drawn for the payment is fresh, the webhook marks the invoice paid
    through stripe with a paid_amount equal to the total at the time of the
    request, and appends one completed payment of that amount for the
    tenant, with the intent's id as external reference. *)
Theorem payment_link_reconciles e0 stripe_create u id s res params s0 invoice total :
  createInvoicePayment e0 stripe_create u id s = (res, Some params, s0) ->
  find_invoice id (u_id u) s = Some invoice ->
  inv_total invoice = Some total ->
  decimal_12_2 total ->
  ip_amount params = Some total
  /\ ip_metadata_invoice_id params = id
  /\ ip_metadata_user_id params = u_id u
  /\ forall e D intent_id reference later i,
       In i (invoices later) -> inv_id i = id ->
       existsb (fun x => (u_id x =? u_id u)%nat) (users later) = true ->
       varchar_in 255 intent_id = Some reference ->
       existsb (fun p => (pay_id p =? uuidv4 e 0)%nat) (payments later) = false ->
       let s' := stripe_webhook e D
                   (Webhook.payment_intent_succeeded (intent_of_params intent_id params))
                   later in
       (exists i', In i' (invoices s') /\ inv_id i' = id)
       /\ (forall i', In i' (invoices s') -> inv_id i' = id ->
                      inv_status i' = Some paid
                      /\ inv_payment_method i' = Some "stripe"
                      /\ inv_paid_amount i' = Some total)
       /\ payments s'
          = payments later
              ++ [mkPayment (uuidv4 e 0) id (u_id u) total (Some "stripe")
                            (Some reference) pay_completed None].
Proof.
  intros H Hfind Htotal Hz.
  apply createInvoicePayment_sent in H
    as (invoice0 & Hfind0 & _ & Hamount & Hinv & Huser & _).
  rewrite Hfind in Hfind0. injection Hfind0 as <-.
  assert (Hcents : ip_amount params = Some total).
  { rewrite Hamount, Htotal. cbn [column_number ToNumber].
    destruct (cents_of_decimal total Hz) as (y & -> & Hy). cbn [Math_round_number].
    now rewrite Hy. }
  split; [exact Hcents|]. split; [exact Hinv|]. split; [exact Huser|].
  intros e D intent_id reference later i Hin Hid Hexists Href Hkey s'. subst s'.
  assert (Hpi : pi_amount (intent_of_params intent_id params) = total)
    by (cbn [intent_of_params pi_amount]; now rewrite Hcents).
  rewrite (payment_succeeded_effect e D (intent_of_params intent_id params) id (u_id u)
             reference later i);
    [|cbn [intent_of_params pi_metadata_invoice_id]; congruence
     |cbn [intent_of_params pi_metadata_user_id]; congruence
     |assumption|assumption|assumption
     |now rewrite Hpi|assumption|assumption].
  rewrite Hpi.
  split; [|split].
  - exists (apply_change (paid_change e (Some total) (Some "stripe")) i).
    split; [|assumption]. cbn [invoices set_payments changed set_invoices].
    apply in_map_iff. exists i. split; [|assumption].
    apply Nat.eqb_eq in Hid. now rewrite Hid.
  - intros i' Hi' Hid'. cbn [invoices set_payments] in Hi'.
    apply changed_at in Hi' as (x & _ & _ & ->); [|assumption].
    repeat split.
  - cbn [payments set_payments changed set_invoices]. unfold stripe_payment.
    now rewrite Hpi.
Qed.

Lemma payment_link_reconciles_witness :
  ip_amount link_params = Some 13250%Z
  /\ exists i',
       In i' (invoices (stripe_webhook (Scenario.at_ Scenario.t0 3) Scenario.Date_of_seconds
                          (Webhook.payment_intent_succeeded
                             (intent_of_params "pi_1" link_params))
                          Cases.db_draft))
       /\ inv_id i' = 100%nat.
Proof.
  assert (E : createInvoicePayment (Scenario.at_ Scenario.t0 2) stripe_accepts
                Scenario.alice 100 Cases.db1
              = (inr (mkPaymentLink "pi_1_secret" (column_number (Some 13250%Z))),
                 Some link_params,
                 set_invoices [with_intent (Some "pi_1") Cases.invoice1] Cases.db1))
    by (vm_compute; reflexivity).
  assert (Hz : decimal_12_2 13250) by (unfold decimal_12_2; simpl; lia).
  destruct (payment_link_reconciles (Scenario.at_ Scenario.t0 2) stripe_accepts
              Scenario.alice 100%nat Cases.db1 _ link_params _ Cases.invoice1 13250%Z
              E eq_refl eq_refl Hz) as (Hcents & _ & _ & Hlater).
  split; [exact Hcents|].
  destruct (Hlater (Scenario.at_ Scenario.t0 3) Scenario.Date_of_seconds "pi_1" "pi_1"
                   Cases.db_draft (Cases.invoice1_as draft)
                   (or_introl eq_refl) eq_refl eq_refl eq_refl eq_refl) as (Hex & _).
  exact Hex.
Defined.

Lemma intent_change_of e intent_id c :
  invoice_change_of e (intent_patch intent_id) = Some c ->
  exists reference,
    c = mkChange None None None None None None None None None None None None
                 (Some (Some reference)) None None.
Proof.
  unfold invoice_change_of, intent_patch.
  cbn [p_status p_due_date p_notes p_terms p_tax_rate p_discount_amount p_subtotal
       p_tax_amount p_total p_paid_at p_paid_amount p_payment_method
       p_stripe_payment_intent_id p_reminder_sent_at p_reminder_count assign].
  unfold accept. destruct (varchar_in 255 intent_id) as [reference|]; [|discriminate].
  intros H. injection H as <-. now exists reference.
Qed.

(** X18. No payment link is made for an invoice that is paid or that the
    tenant does not own: the handler throws 400 "Invoice is already paid"
    or 404 "Invoice not found", Stripe is not called, and the store is
    untouched.  The handler writes only after Stripe accepted the request,
    and then only the stripe_payment_intent_id of the rows under the id of
    the invoice; every other table and every other column is as it was. *)
Theorem payment_link_refusals e stripe_create u id s :
  (forall invoice,
      find_invoice id (u_id u) s = Some invoice -> inv_status invoice = Some paid ->
      createInvoicePayment e stripe_create u id s
      = (inl (js_of_APIError (mkAPIError "Invoice is already paid" 400 INTERNAL_ERROR)),
         None, s))
  /\ (find_invoice id (u_id u) s = None ->
      createInvoicePayment e stripe_create u id s
      = (inl (js_of_APIError (mkAPIError "Invoice not found" 404 INTERNAL_ERROR)),
         None, s))
  /\ (forall err params s0,
         createInvoicePayment e stripe_create u id s = (inl err, params, s0) -> s0 = s)
  /\ (forall link params s0,
         createInvoicePayment e stripe_create u id s = (inr link, params, s0) ->
         s0 = s
         \/ exists reference,
              s0 = set_invoices
                     (map (fun i => if (inv_id i =? id)%nat
                                    then with_intent (Some reference) i else i)
                          (invoices s)) s).
Proof.
  unfold createInvoicePayment. split; [|split; [|split]].
  - intros invoice -> ->. reflexivity.
  - intros ->. reflexivity.
  - intros err params s0.
    destruct (find_invoice id (u_id u) s) as [invoice|];
      [|now intros H; injection H as _ _ <-].
    destruct (status_is _ _); [now intros H; injection H as _ _ <-|].
    destruct (view_client _); [|now intros H; injection H as _ _ <-].
    destruct (stripe_create _) as [err'|[pid secret]]; [|discriminate].
    now intros H; injection H as _ _ <-.
  - intros link params s0.
    destruct (find_invoice id (u_id u) s) as [invoice|] eqn:Hfind; [|discriminate].
    destruct (status_is _ _); [discriminate|].
    destruct (view_client _); [|discriminate].
    destruct (stripe_create _) as [err'|[pid secret]]; [discriminate|].
    intros H; injection H as _ _ <-.
    apply find_invoice_In in Hfind as (_ & -> & _).
    destruct (discard_update_cases e id (intent_patch pid) s) as [E|(ch & Hc & E)];
      rewrite E; [now left|].
    right. apply intent_change_of in Hc as (reference & ->). now exists reference.
Qed.

Lemma payment_link_refusals_witness :
  createInvoicePayment (Scenario.at_ Scenario.t0 3) stripe_accepts Scenario.alice 100
                       Cases.db_paid
  = (inl (js_of_APIError (mkAPIError "Invoice is already paid" 400 INTERNAL_ERROR)),
     None, Cases.db_paid).
Proof.
  exact (proj1 (payment_link_refusals (Scenario.at_ Scenario.t0 3) stripe_accepts
                  Scenario.alice 100%nat Cases.db_paid)
               Cases.invoice1_paid eq_refl eq_refl).
Defined.

(** ** The Stripe webhook *)

Lemma discard_insert_payment_others v s :
  users (discard (insert_payment v) s) = users s
  /\ clients (discard (insert_payment v) s) = clients s
  /\ invoice_items (discard (insert_payment v) s) = invoice_items s
  /\ subscriptions (discard (insert_payment v) s) = subscriptions s
  /\ audit_logs (discard (insert_payment v) s) = audit_logs s.
Proof.
  unfold discard. destruct (insert_payment v s) as [s1|] eqn:E; [|repeat split].
  apply insert_payment_accepts in E as (row & _ & ->). repeat split.
Qed.

Lemma discard_update_others e id p s :
  users (discard (update_invoice_ e id p) s) = users s
  /\ clients (discard (update_invoice_ e id p) s) = clients s
  /\ invoice_items (discard (update_invoice_ e id p) s) = invoice_items s
  /\ payments (discard (update_invoice_ e id p) s) = payments s
  /\ subscriptions (discard (update_invoice_ e id p) s) = subscriptions s
  /\ audit_logs (discard (update_invoice_ e id p) s) = audit_logs s.
Proof.
  destruct (discard_update_cases e id p s) as [E|(c & _ & E)]; rewrite E; repeat split.
Qed.

Ltac frame_goals :=
  repeat match goal with |- _ /\ _ => split end;
  try reflexivity; try assumption; try (intros; discriminate);
  try (intros _; split; solve [reflexivity | assumption]);
  try (intros _; solve [reflexivity | assumption]).

(** X19. Which tables a Stripe event can write.  No event writes clients,
    invoice items or the audit rows of the invoice routes.  Invoices and
    payments are
    written by payment_intent.succeeded only; users by checkout completion
    and the three subscription events only; subscriptions by the three
    subscription events and invoice.payment_failed only; the audit rows of
    subscription payments by invoice.paid and invoice.payment_failed only.
    In particular invoice.paid marks no tenant invoice paid, and an event
    of any other type changes nothing. *)
Theorem webhook_writes e D ev h :
  let h' := Webhook.dispatch e D ev h in
  clients (core h') = clients (core h)
  /\ invoice_items (core h') = invoice_items (core h)
  /\ audit_logs (core h') = audit_logs (core h)
  /\ (writes_invoices ev = false ->
      invoices (core h') = invoices (core h) /\ payments (core h') = payments (core h))
  /\ (writes_users ev = false -> users (core h') = users (core h))
  /\ (writes_subscriptions ev = false ->
      subscriptions (core h') = subscriptions (core h))
  /\ (writes_log ev = false -> subscription_logs h' = subscription_logs h)
  /\ (forall type, ev = Webhook.unhandled type -> h' = h).
Proof.
  intros h'. subst h'.
  pose proof (handleSubscriptionUpdate_frame e D) as Hupdate.
  unfold same_invoicing in Hupdate.
  destruct ev as [session|subscription|subscription|subscription|invoice|invoice
                  |paymentIntent|type];
    cbn [Webhook.dispatch Webhook.on_core core subscription_logs
         writes_invoices writes_users writes_subscriptions writes_log];
    try (destruct (Hupdate subscription (core h)) as (H1 & H2 & H3 & H4 & H5));
    clear Hupdate.
  - unfold handleCheckoutComplete. destruct (cs_metadata_user_id session);
      run_handler; cbn [snd]; frame_goals.
  - frame_goals.
  - frame_goals.
  - unfold handleSubscriptionDeleted. run_handler. cbn [snd]. frame_goals.
  - unfold handleInvoicePaid. cbn [core subscription_logs]. frame_goals.
  - unfold handlePaymentFailed. cbn [core subscription_logs]. frame_goals.
  - unfold handlePaymentIntentSucceeded.
    destruct (pi_metadata_invoice_id paymentIntent) as [invoiceId|];
      run_handler; cbn [snd]; [|frame_goals].
    match goal with
    | |- context [discard (insert_payment ?v) (discard (update_invoice_ e ?i ?p) ?s0)] =>
        destruct (discard_update_others e i p s0) as (B1 & B2 & B3 & B4 & B5 & B6);
        destruct (discard_insert_payment_others v (discard (update_invoice_ e i p) s0))
          as (A1 & A2 & A3 & A4 & A5)
    end.
    repeat match goal with |- _ /\ _ => split end;
      try (intros; discriminate); try (intros _); try reflexivity; congruence.
  - frame_goals; intros ? _; now destruct h.
Qed.

Lemma webhook_writes_witness :
  invoices (core (Webhook.dispatch (Scenario.at_ Scenario.t0 2) Scenario.Date_of_seconds
                    (Webhook.invoice_paid (mkStripeInvoice "in_1" 13250 "cus_1"))
                    (mkHookStore Cases.db1 [])))
  = invoices Cases.db1.
Proof.
  exact (proj1 (proj1 (proj2 (proj2 (proj2
           (webhook_writes (Scenario.at_ Scenario.t0 2) Scenario.Date_of_seconds
              (Webhook.invoice_paid (mkStripeInvoice "in_1" 13250 "cus_1"))
              (mkHookStore Cases.db1 []))))) eq_refl)).
Defined.

Lemma outside_check_not_active status :
  subscription_status_of status = None ->
  (String.eqb status "active" || String.eqb status "trialing") = false.
Proof.
  unfold subscription_status_of.
  destruct (String.eqb status "active"); [discriminate|].
  destruct (String.eqb status "cancelled"); [discriminate|].
  destruct (String.eqb status "past_due"); [discriminate|].
  destruct (String.eqb status "trialing"); [discriminate|reflexivity].
Qed.

(** X20. A subscription created or updated event whose status is none of
    the four values that the CHECK on subscriptions.status admits (active,
    cancelled, past_due, trialing; so canceled with one l, or unpaid)
    changes nothing: the upsert is refused, its error is not looked at, and
    the users are updated for active and trialing only. *)
Theorem subscription_update_outside_check e D subscription s :
  subscription_status_of (so_status subscription) = None ->
  snd (handleSubscriptionUpdate e D subscription s) = s.
Proof.
  intros Hcheck.
  pose proof (outside_check_not_active _ Hcheck) as Hactive.
  assert (Hup : forall id uid sid c p,
             discard (upsert_subscription id uid sid c p (so_status subscription)) s = s).
  { intros. unfold discard, upsert_subscription. rewrite Hcheck.
    now destruct uid. }
  unfold handleSubscriptionUpdate. run_handler.
  rewrite Hactive. cbv beta iota.
  destruct (so_metadata_user_id subscription) as [userId|]; cbv beta iota.
  - rewrite Hup. reflexivity.
  - destruct (is_some _); cbv beta iota; [|reflexivity].
    rewrite Hup. reflexivity.
Qed.

Lemma subscription_update_outside_check_witness :
  snd (handleSubscriptionUpdate (Scenario.at_ Scenario.t0 3) Scenario.Date_of_seconds
         ended_object Scenario.db0) = Scenario.db0.
Proof.
  exact (subscription_update_outside_check (Scenario.at_ Scenario.t0 3)
           Scenario.Date_of_seconds ended_object Scenario.db0 eq_refl).
Defined.

(** X21. A subscription event without user_id in its metadata records no
    subscription row, whatever its status: the handler looks the user up by
    the customer id only to decide whether to go on, and upserts with the
    absent user_id, which NOT NULL refuses.  When one user holds the
    customer id and the status is active or trialing, that user is still
    given the plan of the metadata, or pro, until the end of the period. *)
Theorem subscription_update_without_user_id e D subscription s :
  so_metadata_user_id subscription = None ->
  let s' := snd (handleSubscriptionUpdate e D subscription s) in
  subscriptions s' = subscriptions s
  /\ (forall u,
         filter (fun u => eq_column (u_stripe_customer_id u) (so_customer subscription))
                (users s) = [u] ->
         so_status subscription = "active" \/ so_status subscription = "trialing" ->
         In (mkUser (u_id u) (u_email u) (u_name u)
                    (or_else (so_metadata_plan subscription) pro)
                    (Some (D (so_current_period_end subscription)))
                    (u_stripe_customer_id u) (u_stripe_subscription_id u) (u_is_active u))
            (users s')).
Proof.
  intros Huser s'. subst s'.
  unfold handleSubscriptionUpdate. run_handler. rewrite Huser. cbv beta iota.
  assert (Hup : forall id sid c p st,
             discard (upsert_subscription id None sid c p st) s = s) by reflexivity.
  split.
  - destruct (is_some _); cbv beta iota; [|reflexivity].
    rewrite Hup. now destruct (_ || _).
  - intros u Hone Hstatus. rewrite Hone. cbn [single is_some]. cbv beta iota.
    rewrite Hup.
    assert (Hactive : (String.eqb (so_status subscription) "active"
                       || String.eqb (so_status subscription) "trialing") = true).
    { destruct Hstatus as [-> | ->]; reflexivity. }
    rewrite Hactive. cbn [snd set_users users].
    assert (Hin : In u (filter (fun u => eq_column (u_stripe_customer_id u)
                                                   (so_customer subscription)) (users s)))
      by (rewrite Hone; now left).
    apply filter_In in Hin as [Hin Hcust].
    apply in_map_iff. exists u. now rewrite Hcust.
Qed.

Lemma subscription_update_without_user_id_witness :
  subscriptions (snd (handleSubscriptionUpdate (Scenario.at_ Scenario.t0 3)
                        Scenario.Date_of_seconds trial_without_user Scenario.db0))
  = subscriptions Scenario.db0.
Proof.
  exact (proj1 (subscription_update_without_user_id (Scenario.at_ Scenario.t0 3)
                  Scenario.Date_of_seconds trial_without_user Scenario.db0 eq_refl)).
Defined.

Lemma filter_map_marked {A : Type} (p : A -> bool) (f : A -> A) (l : list A) :
  (forall r, p r = true -> p (f r) = true) ->
  filter p (map (fun r => if p r then f r else r) l) = map f (filter p l).
Proof.
  intros Hp. induction l as [|r l IH]; [reflexivity|].
  cbn [map filter]. destruct (p r) eqn:E.
  - rewrite (Hp r E). cbn [map]. now rewrite IH.
  - rewrite E. exact IH.
Qed.

Lemma filter_map_unmarked {A : Type} (p : A -> bool) (f : A -> A) (l : list A) :
  (forall r, p r = true -> p (f r) = true) ->
  filter (fun r => negb (p r)) (map (fun r => if p r then f r else r) l)
  = filter (fun r => negb (p r)) l.
Proof.
  intros Hp. induction l as [|r l IH]; [reflexivity|].
  cbn [map filter]. destruct (p r) eqn:E.
  - rewrite (Hp r E). exact IH.
  - rewrite E. cbn [negb]. now rewrite IH.
Qed.

Lemma existsb_none {A : Type} (p : A -> bool) (l : list A) :
  (forall r, In r l -> p r = false) -> existsb p l = false.
Proof.
  intros H. destruct (existsb p l) eqn:E; [|reflexivity].
  apply existsb_exists in E as (r & Hin & Hp). rewrite (H r Hin) in Hp. discriminate.
Qed.

Lemma existsb_filter_nil {A : Type} (p : A -> bool) (l : list A) :
  existsb p l = false -> filter p l = [].
Proof.
  induction l as [|r l IH]; [reflexivity|].
  cbn [existsb filter]. destruct (p r); [discriminate|exact IH].
Qed.

Lemma existsb_filter_cons {A : Type} (p : A -> bool) (l : list A) :
  existsb p l = true -> exists r rest, filter p l = r :: rest.
Proof.
  induction l as [|r l IH]; [discriminate|].
  cbn [existsb filter]. destruct (p r); [intros _; eauto|exact IH].
Qed.

(** X22. An accepted subscription event leaves exactly one row for its
    Stripe subscription.  With user_id in the metadata naming a user, a
    status among active, trialing, cancelled and past_due, a fresh uuid and
    at most one row for the subscription before, the store then holds one
    row for it, with the fresh id, the user, the customer, the plan of the
    metadata or pro, and the status, where trialing is stored as active;
    the rows of other subscriptions are as before.  The row keeps the
    cancelled_at that it had. *)
Theorem subscription_update_one_row e D subscription s userId st :
  so_metadata_user_id subscription = Some userId ->
  In userId (map u_id (users s)) ->
  subscription_status_of (so_status subscription) = Some st ->
  (forall r, In r (subscriptions s) -> sub_id r <> uuidv4 e 0) ->
  (List.length (rows_of_subscription (so_id subscription) s) <= 1)%nat ->
  let s' := snd (handleSubscriptionUpdate e D subscription s) in
  rows_of_subscription (so_id subscription) s'
  = [mkSubscription (uuidv4 e 0) userId (Some (so_id subscription))
       (Some (so_customer subscription)) (or_else (so_metadata_plan subscription) pro)
       (stored_status st)
       (match rows_of_subscription (so_id subscription) s with
        | r :: _ => sub_cancelled_at r
        | [] => None
        end)]
  /\ other_subscriptions (so_id subscription) s'
     = other_subscriptions (so_id subscription) s.
Proof.
  intros Huser Hexists Hcheck Hfresh Hone s'. subst s'.
  set (st' := stored_status st).
  set (status' := if String.eqb (so_status subscription) "active"
                     || String.eqb (so_status subscription) "trialing"
                  then "active"%string else so_status subscription).
  assert (Hst : subscription_status_of status' = Some st').
  { subst status' st'. revert Hcheck. unfold subscription_status_of.
    destruct (String.eqb (so_status subscription) "active") eqn:E1.
    { intros H; injection H as <-. reflexivity. }
    destruct (String.eqb (so_status subscription) "cancelled") eqn:E2.
    { intros H; injection H as <-. cbn [orb].
      destruct (String.eqb (so_status subscription) "trialing") eqn:E4.
      - apply String.eqb_eq in E2, E4. congruence.
      - rewrite E1, E2. reflexivity. }
    destruct (String.eqb (so_status subscription) "past_due") eqn:E3.
    { intros H; injection H as <-. cbn [orb].
      destruct (String.eqb (so_status subscription) "trialing") eqn:E4.
      - apply String.eqb_eq in E3, E4. congruence.
      - rewrite E1, E2, E3. reflexivity. }
    destruct (String.eqb (so_status subscription) "trialing") eqn:E4; [|discriminate].
    intros H; injection H as <-. reflexivity. }
  assert (Hfk : negb (existsb (fun u => (u_id u =? userId)%nat) (users s)) = false).
  { apply Bool.negb_false_iff. apply in_map_iff in Hexists as (u & Hid & Hin).
    apply existsb_exists. exists u. split; [exact Hin|]. now apply Nat.eqb_eq. }
  assert (Hpk : existsb (fun r => (sub_id r =? uuidv4 e 0)%nat
                                  && negb (eq_column (sub_stripe_subscription_id r)
                                                     (so_id subscription)))
                        (subscriptions s) = false).
  { apply existsb_none. intros r Hin.
    apply Bool.andb_false_iff. left. apply Nat.eqb_neq. now apply Hfresh. }
  assert (Hmark : forall c r,
             eq_column (sub_stripe_subscription_id r) (so_id subscription) = true ->
             eq_column (sub_stripe_subscription_id
                          (mkSubscription (uuidv4 e 0) userId (Some (so_id subscription))
                             (Some (so_customer subscription))
                             (or_else (so_metadata_plan subscription) pro) st' (c r)))
                       (so_id subscription) = true).
  { intros c r _. cbn [sub_stripe_subscription_id eq_column]. apply String.eqb_refl. }
  assert (Hkeep : forall s1 (u : list user),
             subscriptions (set_users u s1) = subscriptions s1) by reflexivity.
  assert (Hgoal :
    forall s1, s1 = discard (upsert_subscription (uuidv4 e 0) (Some userId)
                               (so_id subscription) (so_customer subscription)
                               (or_else (so_metadata_plan subscription) pro) status') s ->
    rows_of_subscription (so_id subscription) s1
    = [mkSubscription (uuidv4 e 0) userId (Some (so_id subscription))
         (Some (so_customer subscription)) (or_else (so_metadata_plan subscription) pro)
         st'
         (match rows_of_subscription (so_id subscription) s with
          | r :: _ => sub_cancelled_at r
          | [] => None
          end)]
    /\ other_subscriptions (so_id subscription) s1
       = other_subscriptions (so_id subscription) s).
  { intros s1 ->. unfold discard, upsert_subscription. rewrite Hst, Hfk, Hpk.
    unfold rows_of_subscription, other_subscriptions in *.
    match goal with
    | |- context [if ?c then _ else _] => destruct c eqn:Eold
    end; cbn [subscriptions set_subscriptions].
    - rewrite (filter_map_marked _ _ _ (Hmark sub_cancelled_at)).
      rewrite (filter_map_unmarked _ _ _ (Hmark sub_cancelled_at)).
      split; [|reflexivity].
      destruct (existsb_filter_cons _ _ Eold) as (r & rest & Hrows).
      rewrite Hrows in *. destruct rest; [reflexivity|cbn in Hone; lia].
    - rewrite !filter_app. rewrite (existsb_filter_nil _ _ Eold).
      cbn [filter sub_stripe_subscription_id eq_column app negb].
      rewrite String.eqb_refl. cbn [negb]. split; [reflexivity|apply app_nil_r]. }
  unfold handleSubscriptionUpdate. run_handler. rewrite Huser. cbv beta iota.
  fold status'.
  destruct (_ || _); cbn [snd]; unfold rows_of_subscription, other_subscriptions in *;
    rewrite ?Hkeep; now apply Hgoal.
Qed.

Lemma subscription_update_one_row_witness :
  rows_of_subscription "sub_1"
    (snd (handleSubscriptionUpdate (Scenario.at_ Scenario.t0 3) Scenario.Date_of_seconds
            trial_of_alice Scenario.db0))
  = [mkSubscription 300 1 (Some "sub_1") (Some "cus_1") pro sub_active None].
Proof.
  assert (Hfresh : forall r, In r (subscriptions Scenario.db0) ->
                             sub_id r <> uuidv4 (Scenario.at_ Scenario.t0 3) 0).
  { intros r [<- | []]. discriminate. }
  assert (Hone : (List.length (rows_of_subscription (so_id trial_of_alice) Scenario.db0)
                  <= 1)%nat) by (vm_compute; lia).
  exact (proj1 (subscription_update_one_row (Scenario.at_ Scenario.t0 3)
                  Scenario.Date_of_seconds trial_of_alice Scenario.db0 1%nat sub_trialing
                  eq_refl (or_introl eq_refl) eq_refl Hfresh Hone)).
Defined.

(** X23. invoice.payment_failed reopens a cancelled subscription.  After
    customer.subscription.deleted for a subscription of a customer, a later
    invoice.payment_failed of the same customer puts the cancelled row at
    past_due, with cancelled_at still set: the update selects by customer
    alone, not by status.  The users are not touched by it, so the
    customer's users stay on the free plan. *)
Theorem payment_failed_after_deletion e D r sid customer invoice h :
  In r (subscriptions (core h)) ->
  sub_stripe_subscription_id r = Some sid ->
  sub_stripe_customer_id r = Some customer ->
  si_customer invoice = customer ->
  let h1 := Webhook.dispatch e D
              (Webhook.customer_subscription_deleted (mkStripeSubscription sid customer)) h in
  let h2 := Webhook.dispatch e D (Webhook.invoice_payment_failed invoice) h1 in
  In (mkSubscription (sub_id r) (sub_user_id r) (Some sid) (Some customer) (sub_plan r)
                     sub_cancelled (Some (now e)))
     (subscriptions (core h1))
  /\ In (mkSubscription (sub_id r) (sub_user_id r) (Some sid) (Some customer) (sub_plan r)
                        sub_past_due (Some (now e)))
        (subscriptions (core h2))
  /\ users (core h2) = users (core h1)
  /\ (forall u, In u (users (core h2)) ->
                u_stripe_customer_id u = Some customer -> u_plan u = free).
Proof.
  intros Hin Hsid Hcust Hinv h1 h2.
  assert (H1 : In (mkSubscription (sub_id r) (sub_user_id r) (Some sid) (Some customer)
                     (sub_plan r) sub_cancelled (Some (now e)))
                  (subscriptions (core h1))).
  { subst h1. cbn [Webhook.dispatch Webhook.on_core core].
    unfold handleSubscriptionDeleted. run_handler.
    cbn [snd set_users set_subscriptions subscriptions ss_id].
    apply in_map_iff. exists r. split; [|exact Hin].
    rewrite Hsid. cbn [eq_column]. rewrite String.eqb_refl. now rewrite Hcust. }
  assert (Husers : users (core h2) = users (core h1)) by reflexivity.
  repeat match goal with |- _ /\ _ => split end.
  - exact H1.
  - subst h2. cbn [Webhook.dispatch handlePaymentFailed core set_subscriptions subscriptions].
    apply in_map_iff. eexists. split; [|exact H1].
    cbn [sub_stripe_customer_id eq_column sub_id sub_user_id sub_stripe_subscription_id
         sub_plan sub_cancelled_at].
    rewrite Hinv, String.eqb_refl. reflexivity.
  - exact Husers.
  - intros u Hu Hc. rewrite Husers in Hu. subst h1.
    cbn [Webhook.dispatch Webhook.on_core core] in Hu.
    unfold handleSubscriptionDeleted in Hu. run_handler.
    cbn [snd set_users set_subscriptions users ss_customer] in Hu.
    apply in_map_iff in Hu as (u0 & Hu0 & _).
    destruct (eq_column (u_stripe_customer_id u0) customer) eqn:E.
    + now subst u.
    + subst u0. rewrite Hc in E. cbn [eq_column] in E.
      rewrite String.eqb_refl in E. discriminate.
Qed.

Lemma payment_failed_after_deletion_witness :
  In (mkSubscription 50 1 (Some "sub_1") (Some "cus_1") pro sub_past_due
                     (Some Scenario.t0))
     (subscriptions
        (core (Webhook.dispatch (Scenario.at_ Scenario.t0 4) Scenario.Date_of_seconds
                 (Webhook.invoice_payment_failed (mkStripeInvoice "in_2" 0 "cus_1"))
                 (Webhook.dispatch (Scenario.at_ Scenario.t0 4) Scenario.Date_of_seconds
                    (Webhook.customer_subscription_deleted
                       (mkStripeSubscription "sub_1" "cus_1"))
                    (mkHookStore Scenario.db0 []))))).
Proof.
  exact (proj1 (proj2
           (payment_failed_after_deletion (Scenario.at_ Scenario.t0 4)
              Scenario.Date_of_seconds
              (mkSubscription 50 1 (Some "sub_1") (Some "cus_1") pro sub_active None)
              "sub_1" "cus_1" (mkStripeInvoice "in_2" 0 "cus_1")
              (mkHookStore Scenario.db0 [])
              (or_introl eq_refl) eq_refl eq_refl eq_refl))).
Defined.

Lemma authenticate_after_update userId (g : user -> user) s u :
  (forall x, u_id (g x) = u_id x) ->
  (forall x, u_is_active (g x) = u_is_active x) ->
  authenticate userId s = inr u ->
  authenticate userId (set_users (map g (users s)) s) = inr (g u).
Proof.
  intros Hid Hactive. unfold authenticate. cbn [users set_users].
  rewrite filter_map_stable by (intros x; now rewrite Hid).
  destruct (single _) as [x|] eqn:E; [|discriminate].
  apply single_Some in E. rewrite E. cbn [map single]. rewrite Hactive.
  destruct (u_is_active x); [|discriminate]. intros H. now injection H as <-.
Qed.

(** X24. Checkout lifts the monthly limit and the end of the subscription
    brings it back.  For an active user with a Stripe customer for whom the
    plan check counts five invoices or more, after
    checkout.session.completed with that user_id and a plan other than free
    no creation is refused with PLAN_LIMIT; after a following
    customer.subscription.deleted for the user's Stripe customer every
    creation is refused with PLAN_LIMIT and changes nothing. *)
Theorem checkout_lifts_plan_limit e D e' userId u p session sid customer body h :
  authenticate userId (core h) = inr u ->
  cs_metadata_user_id session = Some userId ->
  cs_metadata_plan session = Some p ->
  p <> free ->
  u_stripe_customer_id u = Some customer ->
  (5 <= count_since_setDate1 e' userId (core h))%nat ->
  let h1 := Webhook.dispatch e D (Webhook.checkout_session_completed session) h in
  let h2 := Webhook.dispatch e D
              (Webhook.customer_subscription_deleted (mkStripeSubscription sid customer))
              h1 in
  (forall message s',
      invoices_router e' userId (POST_invoices body) (core h1)
      <> (Failure 403 (Some "PLAN_LIMIT") message, s'))
  /\ invoices_router e' userId (POST_invoices body) (core h2)
     = (Failure 403 (Some "PLAN_LIMIT")
                "Free plan limited to 5 invoices per month. Please upgrade.", core h2).
Proof.
  intros Hauth Hsession Hplan Hpaid Hcustomer Hcount h1 h2.
  pose proof (authenticate_id _ _ _ Hauth) as Hid.
  set (g1 := fun x : user =>
               if (u_id x =? userId)%nat
               then mkUser (u_id x) (u_email x) (u_name x)
                      (or_else (cs_metadata_plan session) (u_plan x))
                      (u_plan_expires_at x) (u_stripe_customer_id x)
                      (cs_subscription session) (u_is_active x)
               else x).
  set (g2 := fun x : user =>
               if eq_column (u_stripe_customer_id x) customer
               then mkUser (u_id x) (u_email x) (u_name x) free
                      (u_plan_expires_at x) (u_stripe_customer_id x) None
                      (u_is_active x)
               else x).
  assert (E1 : core h1 = set_users (map g1 (users (core h))) (core h)).
  { subst h1. cbn [Webhook.dispatch Webhook.on_core core].
    unfold handleCheckoutComplete. rewrite Hsession. reflexivity. }
  assert (E2 : core h2 = set_users (map g2 (users (core h1)))
                           (set_subscriptions
                              (map (fun r => if eq_column (sub_stripe_subscription_id r) sid
                                             then mkSubscription (sub_id r) (sub_user_id r)
                                                    (sub_stripe_subscription_id r)
                                                    (sub_stripe_customer_id r)
                                                    (sub_plan r) sub_cancelled
                                                    (Some (now e))
                                             else r)
                                   (subscriptions (core h1))) (core h1))) by reflexivity.
  assert (Hg1 : forall x, u_id (g1 x) = u_id x /\ u_is_active (g1 x) = u_is_active x).
  { intros x. unfold g1. now destruct (u_id x =? userId)%nat. }
  assert (Hg2 : forall x, u_id (g2 x) = u_id x /\ u_is_active (g2 x) = u_is_active x).
  { intros x. unfold g2. now destruct (eq_column _ _). }
  assert (A1 : authenticate userId (core h1) = inr (g1 u)).
  { rewrite E1. apply authenticate_after_update; [apply Hg1|apply Hg1|exact Hauth]. }
  assert (P1 : g1 u = mkUser (u_id u) (u_email u) (u_name u) p (u_plan_expires_at u)
                        (u_stripe_customer_id u) (cs_subscription session)
                        (u_is_active u)).
  { unfold g1. rewrite Hid, Nat.eqb_refl, Hplan. reflexivity. }
  assert (A2 : authenticate userId (core h2) = inr (g2 (g1 u))).
  { rewrite E2.
    change (authenticate userId (set_users (map g2 (users (core h1))) ?s))
      with (authenticate userId (set_users (map g2 (users (core h1))) (core h1))).
    apply authenticate_after_update; [apply Hg2|apply Hg2|exact A1]. }
  assert (P2 : u_plan (g2 (g1 u)) = free /\ u_id (g2 (g1 u)) = userId).
  { rewrite P1. unfold g2. cbn [u_stripe_customer_id]. rewrite Hcustomer.
    cbn [eq_column]. rewrite String.eqb_refl. now split. }
  split.
  - intros message s'.
    apply (proj2 (plan_limit_gate e' userId (g1 u) body (core h1) A1)).
    left. rewrite P1. exact Hpaid.
  - apply (proj1 (plan_limit_gate e' userId (g2 (g1 u)) body (core h2) A2)).
    + apply P2.
    + rewrite (proj2 P2). rewrite E2, E1. exact Hcount.
Qed.

Lemma checkout_lifts_plan_limit_witness :
  invoices_router (Scenario.at_ Cases.second_day_8h 7) 2 (POST_invoices Cases.body_bob)
    (core (Webhook.dispatch (Scenario.at_ Scenario.t0 6) Scenario.Date_of_seconds
             (Webhook.customer_subscription_deleted (mkStripeSubscription "sub_2" "cus_2"))
             (Webhook.dispatch (Scenario.at_ Scenario.t0 6) Scenario.Date_of_seconds
                (Webhook.checkout_session_completed session_bob)
                (mkHookStore db_five_customer []))))
  = (Failure 403 (Some "PLAN_LIMIT")
             "Free plan limited to 5 invoices per month. Please upgrade.",
     core (Webhook.dispatch (Scenario.at_ Scenario.t0 6) Scenario.Date_of_seconds
             (Webhook.customer_subscription_deleted (mkStripeSubscription "sub_2" "cus_2"))
             (Webhook.dispatch (Scenario.at_ Scenario.t0 6) Scenario.Date_of_seconds
                (Webhook.checkout_session_completed session_bob)
                (mkHookStore db_five_customer [])))).
Proof.
  assert (Hcount : (5 <= count_since_setDate1 (Scenario.at_ Cases.second_day_8h 7) 2
                          (core (mkHookStore db_five_customer [])))%nat)
    by (vm_compute; lia).
  assert (Hpaid : pro <> free) by discriminate.
  exact (proj2 (checkout_lifts_plan_limit (Scenario.at_ Scenario.t0 6)
                  Scenario.Date_of_seconds (Scenario.at_ Cases.second_day_8h 7) 2%nat
                  bob_customer pro session_bob "sub_2" "cus_2" Cases.body_bob
                  (mkHookStore db_five_customer [])
                  eq_refl eq_refl eq_refl Hpaid eq_refl Hcount)).
Defined.
